(** * Dict-tree checkpoints in a hierarchical container: a shallow embedding

    The development follows the two source files of the repository:

    - [checkpoint.py]: [_prepare_hdf5_dataset], [save_checkpoint],
      [_name_contains_string_in_list], [load_checkpoint], [dicttojson],
      [dicttoini], [dump] and [load];
    - [dic_to_h5.py]: the older writer [dicttoh5] with its own
      [_prepare_hdf5_dataset].

    Python values, numpy arrays, torch tensors, the h5py container and the file
    system are external to the repository; each gets a small executable model
    (modules [Py], [Numpy], [Torch] and [H5]) that fixes only the behaviour the
    two source files rely on.  Effects are threaded through an explicit [world]
    by a state-and-exception monad. *)

From Stdlib Require Import ZArith String Ascii DecimalString Lia.
From stdpp Require Import base option list gmap strings sorting.

Set Warnings "-register-all".

(** ** Python strings

    A Python [str] is modelled as a [string] whose characters are the code
    points 0..255 (Latin-1); the ASCII codec accepts the code points below
    128. *)
Module PyStr.

Definition code (c : ascii) : N := N_of_ascii c.

(** [str.lower] on one code point: A-Z, and the Latin-1 capitals. *)
Definition lower_char (c : ascii) : ascii :=
  let n := code c in
  if ((65 <=? n) && (n <=? 90))%N then ascii_of_N (n + 32)
  else if ((192 <=? n) && (n <=? 222) && negb (n =? 215))%N then ascii_of_N (n + 32)
  else c.

(** [s.lower()] *)
Fixpoint lower (s : string) : string :=
  match s with
  | EmptyString => EmptyString
  | String c r => String (lower_char c) (lower r)
  end.

(** [s.startswith(p)] *)
Fixpoint startswith (p s : string) : bool :=
  match p, s with
  | EmptyString, _ => true
  | String a p', String b s' => if Ascii.eqb a b then startswith p' s' else false
  | String _ _, EmptyString => false
  end.

(** [needle in hay] for two strings. *)
Fixpoint contains (needle hay : string) : bool :=
  if startswith needle hay then true
  else match hay with
       | EmptyString => false
       | String _ r => contains needle r
       end.

(** [s.endswith("/")] *)
Fixpoint ends_with_slash (s : string) : bool :=
  match s with
  | EmptyString => false
  | String c EmptyString => Ascii.eqb c "/"
  | String _ r => ends_with_slash r
  end.

(** [s.rfind(c)]: the last index of [c], or -1. *)
Fixpoint rfind_from (c : ascii) (s : string) (i : Z) (found : Z) : Z :=
  match s with
  | EmptyString => found
  | String a r => rfind_from c r (i + 1) (if Ascii.eqb a c then i else found)
  end.

Definition rfind (c : ascii) (s : string) : Z := rfind_from c s 0 (-1).

(** [s[i:]] and [s[:i]] for an index within the string. *)
Fixpoint drop (i : nat) (s : string) : string :=
  match i, s with
  | O, _ => s
  | S _, EmptyString => EmptyString
  | S j, String _ r => drop j r
  end.

Fixpoint take (i : nat) (s : string) : string :=
  match i, s with
  | O, _ => EmptyString
  | S _, EmptyString => EmptyString
  | S j, String c r => String c (take j r)
  end.

(** The loop of [genericpath._splitext] that skips the leading dots of the
    last path component: does a character other than the dot stand in
    [s[lo:hi]]? *)
Definition has_non_dot (s : string) (lo hi : nat) : bool :=
  existsb (fun c => negb (Ascii.eqb c ".")) (list_ascii_of_string (take (hi - lo) (drop lo s))).

(** [os.path.splitext(p)] (posixpath). *)
Definition splitext (p : string) : string * string :=
  let sepIndex := rfind "/" p in
  let dotIndex := rfind "." p in
  if (sepIndex <? dotIndex)%Z then
    if has_non_dot p (Z.to_nat (sepIndex + 1)) (Z.to_nat dotIndex)
    then (take (Z.to_nat dotIndex) p, drop (Z.to_nat dotIndex) p)
    else (p, EmptyString)
  else (p, EmptyString).

(** [os.path.splitext(filename)[1][1:]] *)
Definition extension (filename : string) : string := drop 1 (snd (splitext filename)).

(** [s.encode("ascii")] succeeds on code points below 128. *)
Definition is_ascii (s : string) : bool :=
  forallb (fun c => (code c <? 128)%N) (list_ascii_of_string s).

(** [str(n)] for an integer. *)
Definition decimal (z : Z) : string := NilZero.string_of_int (Z.to_int z).

End PyStr.

(** ** Exceptions and the effect monad *)
Module Py.

Inductive exn :=
| ImportError (msg : string)
| AttributeError (attr : string)
| TypeError (msg : string)
| ValueError (msg : string)
| KeyError (key : string)
| IOError (msg : string)
| FileNotFoundError (path : string)
| RuntimeError (msg : string)
| UnicodeEncodeError
| NotImplementedError (msg : string)
| NameError (name : string)
| LibraryError (msg : string).

(** The outcome of a call: a value, a raised exception, or (for the one
    function that needs fuel to follow the container's depth) fuel exhausted. *)
Inductive outcome (A : Type) :=
| Ok (a : A)
| Raise (e : exn)
| OutOfFuel.

Arguments Ok {A} a.
Arguments Raise {A} e.
Arguments OutOfFuel {A}.

(** Sequencing of two steps that touch no state. *)
Definition and_then {A B : Type} (o : outcome A) (k : A -> outcome B) : outcome B :=
  match o with
  | Ok a => k a
  | Raise e => Raise e
  | OutOfFuel => OutOfFuel
  end.

End Py.
Export Py.

(** ** numpy arrays *)
Module Numpy.

(** Element types, with the one-letter [dtype.kind] numpy reports for each. *)
Inductive dtype :=
| DBool
| DInt (nbytes : nat)
| DUInt (nbytes : nat)
| DFloat (nbytes : nat)
| DBytes (width : nat)
| DUnicode (width : nat)
| DObject.

Definition kind (d : dtype) : string :=
  match d with
  | DBool => "b"
  | DInt _ => "i"
  | DUInt _ => "u"
  | DFloat _ => "f"
  | DBytes _ => "S"
  | DUnicode _ => "U"
  | DObject => "O"
  end.

(** What an object array can box in this model. *)
Inductive pyobject := ObjNone | ObjInt (z : Z) | ObjMapping.

(** One element.  A float is carried as its IEEE-754 bit pattern: the code
    under study moves floats around and never computes with them. *)
Inductive item :=
| IBool (b : bool)
| IInt (z : Z)
| IFloat (bits : Z)
| IBytes (s : string)
| IStr (s : string)
| IObject (o : pyobject).

Record ndarray := mk_ndarray {
  dtype_of : dtype;
  shape : list nat;
  items : list item
}.

(** The two native forms the encoders return: an array, or a [numpy.string_]
    scalar (a fixed-width byte string). *)
Inductive npvalue :=
| NdArray (a : ndarray)
| NpString (b : string).

(** [x.shape]; a numpy scalar has the empty shape. *)
Definition np_shape (x : npvalue) : list nat :=
  match x with
  | NdArray a => shape a
  | NpString _ => []
  end.

(** [numpy.string_(s)] for a [str]: the ASCII encoding of [s]. *)
Definition string_ (s : string) : outcome string :=
  if PyStr.is_ascii s then Ok s else Raise UnicodeEncodeError.

(** Width of the text numpy reserves for an unsigned integer of [nbytes]. *)
Definition uint_text_width (nbytes : nat) : nat :=
  match nbytes with
  | 1 => 3
  | 2 => 5
  | 4 => 10
  | _ => 20
  end.

Definition encode_item (x : item) : outcome item :=
  match x with
  | IStr s => if PyStr.is_ascii s then Ok (IBytes s) else Raise UnicodeEncodeError
  | IBytes s => Ok (IBytes s)
  | IInt z => Ok (IBytes (PyStr.decimal z))
  | _ => Raise (NotImplementedError "astype")
  end.

Fixpoint encode_items (l : list item) : outcome (list item) :=
  match l with
  | [] => Ok []
  | x :: r =>
    and_then (encode_item x) (fun y =>
    and_then (encode_items r) (fun ys => Ok (y :: ys)))
  end.

(** [numpy.asarray(a, dtype=numpy.string_)].  Byte strings are kept, unicode
    text is ASCII-encoded at the same width, unsigned integers are printed in
    decimal.  The encoder below asks for no other conversion; the remaining
    kinds are outside this model and answer [NotImplementedError]. *)
Definition astype_string (a : ndarray) : outcome ndarray :=
  match dtype_of a with
  | DBytes _ => Ok a
  | DUnicode w =>
    and_then (encode_items (items a)) (fun l => Ok (mk_ndarray (DBytes w) (shape a) l))
  | DUInt n =>
    and_then (encode_items (items a))
             (fun l => Ok (mk_ndarray (DBytes (uint_text_width n)) (shape a) l))
  | _ => Raise (NotImplementedError "astype")
  end.

End Numpy.
Export Numpy.

(** ** torch tensors *)
Module Torch.

Inductive device := Cpu | Cuda (index : nat).

(** Element types.  [TBFloat16] stands for the element types numpy has no
    equivalent of (bfloat16 itself, the 8-bit floats, the quantized types):
    a tensor of such a type cannot be turned into an array. *)
Inductive tdtype :=
| TBool | TUInt8 | TInt8 | TInt16 | TInt32 | TInt64
| TFloat16 | TFloat32 | TFloat64
| TBFloat16.

Record tensor := mk_tensor {
  device_of : device;
  requires_grad : bool;
  tdtype_of : tdtype;
  tshape : list nat;
  titems : list item
}.

Definition numpy_dtype (d : tdtype) : option dtype :=
  match d with
  | TBool => Some DBool
  | TUInt8 => Some (DUInt 1)
  | TInt8 => Some (DInt 1)
  | TInt16 => Some (DInt 2)
  | TInt32 => Some (DInt 4)
  | TInt64 => Some (DInt 8)
  | TFloat16 => Some (DFloat 2)
  | TFloat32 => Some (DFloat 4)
  | TFloat64 => Some (DFloat 8)
  | TBFloat16 => None
  end.

Definition torch_dtype (d : dtype) : option tdtype :=
  match d with
  | DBool => Some TBool
  | DUInt 1 => Some TUInt8
  | DInt 1 => Some TInt8
  | DInt 2 => Some TInt16
  | DInt 4 => Some TInt32
  | DInt 8 => Some TInt64
  | DFloat 2 => Some TFloat16
  | DFloat 4 => Some TFloat32
  | DFloat 8 => Some TFloat64
  | _ => None
  end.

(** [t.cpu()]: the same tensor in host memory. *)
Definition cpu (t : tensor) : tensor :=
  mk_tensor Cpu (requires_grad t) (tdtype_of t) (tshape t) (titems t).

(** [t.numpy()]: refused for a tensor that records gradients, for one that
    is not in host memory, and for one of an element type numpy lacks. *)
Definition numpy (t : tensor) : outcome ndarray :=
  if requires_grad t then Raise (RuntimeError "numpy() on a tensor that requires grad")
  else match device_of t with
       | Cpu =>
         match numpy_dtype (tdtype_of t) with
         | Some d => Ok (mk_ndarray d (tshape t) (titems t))
         | None => Raise (TypeError "Got unsupported ScalarType BFloat16")
         end
       | Cuda _ => Raise (TypeError "cannot convert a device tensor to numpy")
       end.

(** [torch.from_numpy(a)]: refused for element types torch does not have. *)
Definition from_numpy (a : ndarray) : outcome tensor :=
  match torch_dtype (dtype_of a) with
  | Some d => Ok (mk_tensor Cpu false d (shape a) (items a))
  | None => Raise (TypeError "cannot convert an array of this type")
  end.

End Torch.

(** ** Python values and dict trees

    A [dict] is its sequence of items in iteration order. *)
Inductive pyval :=
| PNone
| PBool (b : bool)
| PInt (z : Z)
| PFloat (bits : Z)
| PStr (s : string)
| PNpString (b : string)
| PStrList (l : list string)
| PArray (a : ndarray)
| PTensor (t : Torch.tensor)
| PDict (d : pydict)
with pydict :=
| DNil
| DCons (key : string) (value : pyval) (rest : pydict).

Scheme pyval_mut := Induction for pyval Sort Prop
with pydict_mut := Induction for pydict Sort Prop.

(** [len(d)] *)
Fixpoint dict_len (d : pydict) : nat :=
  match d with
  | DNil => 0
  | DCons _ _ rest => S (dict_len rest)
  end.

Fixpoint dict_items (d : pydict) : list (string * pyval) :=
  match d with
  | DNil => []
  | DCons k v rest => (k, v) :: dict_items rest
  end.

Definition dict_keys (d : pydict) : list string := (dict_items d).*1.

Fixpoint dict_of_items (l : list (string * pyval)) : pydict :=
  match l with
  | [] => DNil
  | (k, v) :: r => DCons k v (dict_of_items r)
  end.

(** [isinstance(v, int)]: [bool] is a subclass of [int]. *)
Definition isinstance_int (v : pyval) : bool :=
  match v with
  | PBool _ | PInt _ => true
  | _ => false
  end.

(** [numpy.array(v)].  An integer becomes a 64-bit signed scalar when it
    fits, an unsigned one when only that fits, and a boxed object
    otherwise; a list of [str] becomes unicode text as wide as its longest
    entry, and the empty list an empty float array. *)
Definition max_len (l : list string) : nat :=
  foldr (fun s m => Nat.max (String.length s) m) 0 l.

Definition np_array (v : pyval) : outcome ndarray :=
  match v with
  | PNone => Ok (mk_ndarray DObject [] [IObject ObjNone])
  | PBool b => Ok (mk_ndarray DBool [] [IBool b])
  | PInt z =>
    if ((- 2 ^ 63 <=? z) && (z <? 2 ^ 63))%Z then Ok (mk_ndarray (DInt 8) [] [IInt z])
    else if ((0 <=? z) && (z <? 2 ^ 64))%Z then Ok (mk_ndarray (DUInt 8) [] [IInt z])
    else Ok (mk_ndarray DObject [] [IObject (ObjInt z)])
  | PFloat bits => Ok (mk_ndarray (DFloat 8) [] [IFloat bits])
  | PStr s => Ok (mk_ndarray (DUnicode (Nat.max 1 (String.length s))) [] [IStr s])
  | PNpString b => Ok (mk_ndarray (DBytes (Nat.max 1 (String.length b))) [] [IBytes b])
  | PStrList [] => Ok (mk_ndarray (DFloat 8) [0] [])
  | PStrList l => Ok (mk_ndarray (DUnicode (Nat.max 1 (max_len l))) [List.length l] (map IStr l))
  | PArray a => Ok a
  | PTensor t => Torch.numpy t
  | PDict _ => Ok (mk_ndarray DObject [] [IObject ObjMapping])
  end.

(** ** The container backend, the file system and the world

    h5py, the builtin [open] and the logger are collaborators of the two
    modules, not part of them.  The model below keeps what the modules observe:
    a container is a tree of groups and datasets addressed by [/]-joined paths,
    intermediate groups are created on demand, a name can be created once, and
    a group lists its members in name order. *)
Module H5.

Inductive node :=
| Group (members : gmap string node)
| Dataset (a : ndarray) (options : pydict).

(** [path.split("/")] *)
Fixpoint split_slash (path : string) : list string :=
  match path with
  | EmptyString => [EmptyString]
  | String c r =>
    if Ascii.eqb c "/" then EmptyString :: split_slash r
    else match split_slash r with
         | [] => [String c EmptyString]
         | seg :: segs => String c seg :: segs
         end
  end.

(** The member names a path walks through: empty components and the
    self-reference [.] name no member.  This is how the library reads a path
    made of member names, with or without a leading separator; it refuses an
    empty path and the creation of a name that is [.], which the model does
    not follow, so that a round trip below a path is stated for the paths of
    [clean_path] only. *)
Definition is_member_name (s : string) : bool :=
  negb (String.eqb s "") && negb (String.eqb s ".").

Definition segments (path : string) : list string :=
  List.filter is_member_name (split_slash path).

(** Lookup of a node from [cur] along member names. *)
Fixpoint resolve (segs : list string) (cur : node) : option node :=
  match segs with
  | [] => Some cur
  | k :: rest =>
    match cur with
    | Group g => match g !! k with
                 | Some child => resolve rest child
                 | None => None
                 end
    | Dataset _ _ => None
    end
  end.

(** Creation of [new] at the end of [segs] below [cur]: missing intermediate
    groups are created, an existing name is refused, and so is a path that
    runs through a dataset. *)
Fixpoint create_at (segs : list string) (new : node) (cur : node) : outcome node :=
  match cur with
  | Dataset _ _ => Raise (ValueError "unable to create link (not a group)")
  | Group g =>
    match segs with
    | [] => Raise (ValueError "unable to create link (name already exists)")
    | k :: rest =>
      match rest with
      | [] =>
        match g !! k with
        | Some _ => Raise (ValueError "unable to create link (name already exists)")
        | None => Ok (Group (<[k := new]> g))
        end
      | _ :: _ =>
        and_then (create_at rest new (default (Group ∅) (g !! k)))
                 (fun child => Ok (Group (<[k := child]> g)))
      end
    end
  end.

(** The member names of a group in the order the backend iterates them. *)
Definition name_le (a b : string) : Prop := String.leb a b = true.

#[global] Instance name_le_dec : RelDecision name_le :=
  fun a b => decide (String.leb a b = true).

Definition member_names (g : gmap string node) : list string :=
  merge_sort name_le (map_to_list g).*1.

(** What the backend stores for a native value. *)
Definition stored_array (x : npvalue) : ndarray :=
  match x with
  | NdArray a => a
  | NpString b => mk_ndarray (DBytes (Nat.max 1 (String.length b))) [] [IBytes b]
  end.

(** Element types without a container equivalent. *)
Definition storable (d : dtype) : bool :=
  match d with
  | DObject | DUnicode _ => false
  | _ => true
  end.

(** The chunking and filter options; a scalar dataset created with one of
    them is refused. *)
Definition filter_options : list string :=
  ["chunks"; "compression"; "compression_opts"; "shuffle"; "fletcher32";
   "maxshape"; "scaleoffset"].

Definition has_filter_option (kwargs : pydict) : bool :=
  existsb (fun k => existsb (String.eqb k) filter_options) (dict_keys kwargs).

Inductive fdata :=
| FText (content : string)
| FContainer (root : node).

(** A file-like Python object: which attributes it has, and the number of
    the buffer in [streams] it reads from and writes to. *)
Record fileobj := mk_fileobj {
  fo_id : nat;
  fo_has_read : bool;
  fo_has_write : bool;
  fo_name : option string
}.

Inductive event :=
| LogError (msg : string)
| OpenText (path mode : string)
| CloseText (path : string)
| FileOpen (path mode : string)
| FileClose (path : string)
| CreateGroup (file name : string)
| CreateDataset (file name : string) (data : npvalue) (kwargs : option pydict).

(** The state the two modules run in.  [h5py_import] is the outcome of the
    module-level [import h5py]: [None] when it succeeded, and the caught
    [ImportError] otherwise.  [trace] lists backend calls and log records,
    the latest first. *)
Record world := mk_world {
  h5py_import : option exn;
  files : gmap string fdata;
  streams : gmap nat string;
  open_text : list string;
  open_h5 : list string;
  trace : list event
}.

Definition set_files (f : gmap string fdata) (w : world) : world :=
  mk_world (h5py_import w) f (streams w) (open_text w) (open_h5 w) (trace w).
Definition set_streams (s : gmap nat string) (w : world) : world :=
  mk_world (h5py_import w) (files w) s (open_text w) (open_h5 w) (trace w).
Definition set_open_text (l : list string) (w : world) : world :=
  mk_world (h5py_import w) (files w) (streams w) l (open_h5 w) (trace w).
Definition set_open_h5 (l : list string) (w : world) : world :=
  mk_world (h5py_import w) (files w) (streams w) (open_text w) l (trace w).
Definition emit (e : event) (w : world) : world :=
  mk_world (h5py_import w) (files w) (streams w) (open_text w) (open_h5 w) (e :: trace w).

(** Removal of one handle on [name] from a list of open handles. *)
Fixpoint remove_one (name : string) (l : list string) : list string :=
  match l with
  | [] => []
  | x :: r => if String.eqb x name then r else x :: remove_one name r
  end.

End H5.
Export H5.

(** ** The effect monad and the primitive operations *)
Module Eff.

Definition M (A : Type) : Type := world -> outcome A * world.

Definition ret {A : Type} (a : A) : M A := fun w => (Ok a, w).

Definition raise {A : Type} (e : exn) : M A := fun w => (Raise e, w).

Definition out_of_fuel {A : Type} : M A := fun w => (OutOfFuel, w).

Definition bind {A B : Type} (c : M A) (k : A -> M B) : M B :=
  fun w =>
    match c w with
    | (Ok a, w') => k a w'
    | (Raise e, w') => (Raise e, w')
    | (OutOfFuel, w') => (OutOfFuel, w')
    end.

(** A step that touches no state. *)
Definition lift {A : Type} (o : outcome A) : M A := fun w => (o, w).

Definition log (e : event) : M unit := fun w => (Ok tt, emit e w).

End Eff.
Export Eff.

Notation "'do' x <- c ; k" := (bind c (fun x => k))
  (at level 10, x name, c at level 100, k at level 200).
Notation "'run' c ; k" := (bind c (fun _ => k))
  (at level 10, c at level 100, k at level 200).

Module Backend.

(** [h5py_missing], the module-level flag. *)
Definition h5py_missing : M bool :=
  fun w => (Ok (match h5py_import w with Some _ => true | None => false end), w).

(** [raise h5py_import_error] *)
Definition raise_h5py_import_error {A : Type} : M A :=
  fun w =>
    match h5py_import w with
    | Some e => (Raise e, w)
    | None => (Raise (NameError "h5py_import_error"), w)
    end.

(** [logger.error(msg)] *)
Definition logger_error (msg : string) : M unit := log (LogError msg).

Definition open_container (name : string) (root : node) (w : world) : outcome string * world :=
  (Ok name, set_open_h5 (name :: open_h5 w) (set_files (<[name := FContainer root]> (files w)) w)).

(** [h5py.File(name, mode)]; the result is the handle, named after its
    file.  A file that is open cannot be truncated. *)
Definition File (name mode : string) : M string :=
  fun w0 =>
    let w := emit (FileOpen name mode) w0 in
    if String.eqb mode "r" || String.eqb mode "r+" then
      match files w !! name with
      | Some (FContainer root) => open_container name root w
      | _ => (Raise (IOError "unable to open file"), w)
      end
    else if String.eqb mode "w" then
      if bool_decide (name ∈ open_h5 w)
      then (Raise (IOError "unable to truncate a file which is already open"), w)
      else open_container name (Group ∅) w
    else if String.eqb mode "w-" || String.eqb mode "x" then
      match files w !! name with
      | Some _ => (Raise (IOError "unable to create file (file exists)"), w)
      | None => open_container name (Group ∅) w
      end
    else if String.eqb mode "a" then
      match files w !! name with
      | Some (FContainer root) => open_container name root w
      | Some (FText _) => (Raise (IOError "unable to open file"), w)
      | None => open_container name (Group ∅) w
      end
    else (Raise (ValueError "invalid mode"), w).

(** [h5f.close()] *)
Definition close (h5f : string) : M unit :=
  fun w => (Ok tt, set_open_h5 (remove_one h5f (open_h5 w)) (emit (FileClose h5f) w)).

(** The root group behind an open handle. *)
Definition root_of (h5f : string) : M node :=
  fun w =>
    if bool_decide (h5f ∈ open_h5 w) then
      match files w !! h5f with
      | Some (FContainer root) => (Ok root, w)
      | _ => (Raise (ValueError "not a container file"), w)
      end
    else (Raise (ValueError "invalid file handle (closed)"), w).

Definition set_root (h5f : string) (root : node) : M unit :=
  fun w => (Ok tt, set_files (<[h5f := FContainer root]> (files w)) w).

(** [h5f.create_group(name)] *)
Definition create_group (h5f name : string) : M unit :=
  run log (CreateGroup h5f name);
  do root <- root_of h5f;
  do root' <- lift (create_at (segments name) (Group ∅) root);
  set_root h5f root'.

(** The dataset the backend builds from [data] and the creation options:
    refused for an element type without a container equivalent, and for
    chunk or filter options on a scalar. *)
Definition dataset_node (data : npvalue) (kwargs : option pydict) : outcome node :=
  let a := stored_array data in
  let options := default DNil kwargs in
  if negb (storable (dtype_of a)) then Raise (TypeError "no container equivalent of the dtype")
  else if bool_decide (shape a = []) && has_filter_option options
  then Raise (TypeError "scalar datasets do not support chunk/filter options")
  else Ok (Dataset a options).

(** [h5f.create_dataset(name, data=data)] when [kwargs] is [None], and
    [h5f.create_dataset(name, data=data, **kwargs)] otherwise. *)
Definition create_dataset (h5f name : string) (data : npvalue) (kwargs : option pydict) : M unit :=
  run log (CreateDataset h5f name data kwargs);
  do root <- root_of h5f;
  do new <- lift (dataset_node data kwargs);
  do root' <- lift (create_at (segments name) new root);
  set_root h5f root'.

(** [h5f[path]] *)
Definition getitem (h5f path : string) : M node :=
  do root <- root_of h5f;
  match resolve (segments path) root with
  | Some n => ret n
  | None => raise (KeyError path)
  end.

(** [for key in node]: the member names of a group; a dataset iterates
    over its rows, of which only the empty case yields a loop that ends
    without touching a row. *)
Definition names_of (n : node) : outcome (list string) :=
  match n with
  | Group g => Ok (member_names g)
  | Dataset a _ =>
    match shape a with
    | O :: _ => Ok []
    | _ => Raise (TypeError "cannot iterate the rows of a dataset as names")
    end
  end.

Definition iter_names (n : node) : M (list string) := lift (names_of n).

(** [dataset[...]] *)
Definition slice_all (n : node) : outcome ndarray :=
  match n with
  | Dataset a _ => Ok a
  | Group _ => Raise (TypeError "a group cannot be sliced")
  end.

Definition read_all (n : node) : M ndarray := lift (slice_all n).

(** The builtin [open(path, mode)] for text files; the result is the
    handle, named after its file. *)
Definition open_ (path mode : string) : M string :=
  fun w0 =>
    let w := emit (OpenText path mode) w0 in
    let opened (fs : gmap string fdata) :=
      (Ok path, set_open_text (path :: open_text w) (set_files fs w)) in
    match mode with
    | String "r" _ =>
      match files w !! path with
      | Some _ => opened (files w)
      | None => (Raise (FileNotFoundError path), w)
      end
    | String "w" _ => opened (<[path := FText ""]> (files w))
    | String "a" _ =>
      match files w !! path with
      | Some _ => opened (files w)
      | None => opened (<[path := FText ""]> (files w))
      end
    | String "x" _ =>
      match files w !! path with
      | Some _ => (Raise (IOError "file exists"), w)
      | None => opened (<[path := FText ""]> (files w))
      end
    | _ => (Raise (ValueError "invalid mode"), w)
    end.

(** [f.close()] for a handle from [open_]. *)
Definition close_text (f : string) : M unit :=
  fun w => (Ok tt, set_open_text (remove_one f (open_text w)) (emit (CloseText f) w)).

(** [f.write(text)] and [f.read()] for a handle from [open_]. *)
Definition write_text (f text : string) : M unit :=
  fun w =>
    match files w !! f with
    | Some (FText old) => (Ok tt, set_files (<[f := FText (old +:+ text)]> (files w)) w)
    | _ => (Raise (IOError "not writable as text"), w)
    end.

Definition read_text (f : string) : M string :=
  fun w =>
    match files w !! f with
    | Some (FText s) => (Ok s, w)
    | Some (FContainer _) => (Raise (ValueError "cannot decode a container as text"), w)
    | None => (Raise (IOError "no such file"), w)
    end.

(** [o.write(text)] and [o.read()] on a file-like object. *)
Definition write_stream (o : fileobj) (text : string) : M unit :=
  fun w =>
    (Ok tt, set_streams (<[fo_id o := default "" (streams w !! fo_id o) +:+ text]> (streams w)) w).

Definition read_stream (o : fileobj) : M string :=
  fun w => (Ok (default "" (streams w !! fo_id o)), w).

End Backend.

Notation "'get' x <- o ; k" := (and_then o (fun x => k))
  (at level 10, x name, o at level 100, k at level 200).

(** ** What a destination or source argument can be

    A file name, a file-like object, or an open container handle
    ([h5py.File], named after its file). *)
Inductive pyfile :=
| FileName (path : string)
| FileObj (o : fileobj)
| H5File (h5f : string).

Module Utils.

(** Modelled from the spec: [is_file] of the [utils] module, whose source is
    not part of the repository.  Section 6: whether a given handle is itself
    a root file handle. *)
Definition is_file (x : pyfile) : bool :=
  match x with
  | H5File _ => true
  | _ => false
  end.

(** Modelled from the spec: [is_group] of the [utils] module.  Section 6:
    whether the addressed node is a group rather than a dataset. *)
Definition is_group (n : node) : bool :=
  match n with
  | Group _ => true
  | Dataset _ _ => false
  end.

(** Modelled from the spec: [open] of the [utils] module.  Section 6: a
    path-aware open that opens a container source for reading. *)
Definition h5open (x : pyfile) : M string :=
  match x with
  | FileName name =>
    fun w0 =>
      let w := emit (FileOpen name "r") w0 in
      match files w !! name with
      | Some (FContainer _) => (Ok name, set_open_h5 (name :: open_h5 w) w)
      | _ => (Raise (IOError "not a container file"), w)
      end
  | _ => raise (TypeError "a file name is expected")
  end.

End Utils.

(** [h5py.File(h5file, mode)] takes a file name. *)
Definition h5py_File (h5file : pyfile) (mode : string) : M string :=
  match h5file with
  | FileName name => Backend.File name mode
  | _ => raise (TypeError "a file name is expected")
  end.

(** [array_like.cpu().numpy()]: only a tensor has the [cpu] attribute. *)
Definition cpu_numpy (array_like : pyval) : outcome pyval :=
  match array_like with
  | PTensor t => get a <- Torch.numpy (Torch.cpu t); Ok (PArray a)
  | _ => Raise (AttributeError "cpu")
  end.

(** * checkpoint.py *)
Module checkpoint.

Definition _prepare_hdf5_dataset (array_like : pyval) : outcome npvalue :=
  (* simple strings *)
  get array_like <- match array_like with
                    | PStr s => get b <- string_ s; Ok (PNpString b)
                    | _ => Ok array_like
                    end;
  (* Ensure our data is a numpy.ndarray *)
  get array_like <- (if negb (isinstance_int array_like)
                     then cpu_numpy array_like
                     else Ok array_like);
  match array_like with
  | PArray a => Ok (NdArray a)
  | PNpString b => Ok (NpString b)
  | _ => get a <- np_array array_like; Ok (NdArray a)
  end.

Fixpoint save_checkpoint (treedict : pydict) (h5file : pyfile) (h5path : string)
    (mode : string) (overwrite_data : bool) (create_dataset_args : option pydict)
    {struct treedict} : M unit :=
  do missing <- Backend.h5py_missing;
  if missing then Backend.raise_h5py_import_error else
  do h5f <- match h5file with
            | H5File h => ret h
            | _ => h5py_File h5file mode
            end;
  let h5path := if PyStr.ends_with_slash h5path then h5path else h5path +:+ "/" in
  run (fix loop (items : pydict) : M unit :=
         match items with
         | DNil => ret tt
         | DCons key value rest =>
           run match value with
               | PDict sub =>
                 if (0 <? dict_len sub)%nat then
                   (* non-empty group: recurse *)
                   save_checkpoint sub (H5File h5f) (h5path +:+ key) "w"
                                   overwrite_data create_dataset_args
                 else
                   (* Create empty group *)
                   Backend.create_group h5f (h5path +:+ key)
               | PNone => Backend.create_group h5f (h5path +:+ key)
               | _ =>
                 do ds <- lift (_prepare_hdf5_dataset value);
                 (* can't apply filters on scalars (datasets with shape == () ) *)
                 if bool_decide (np_shape ds = [])
                    || match create_dataset_args with None => true | Some _ => false end
                 then Backend.create_dataset h5f (h5path +:+ key) ds None
                 else Backend.create_dataset h5f (h5path +:+ key) ds create_dataset_args
               end;
           loop rest
         end) treedict;
  match h5file with
  | FileName _ => Backend.close h5f
  | _ => ret tt
  end.

Definition _name_contains_string_in_list (name : string) (strlist : option (list string)) : bool :=
  match strlist with
  | None => false
  | Some l =>
    (fix loop (l : list string) : bool :=
       match l with
       | [] => false
       | filter_str :: rest =>
         if PyStr.contains filter_str name then true else loop rest
       end) l
  end.

(** The handle behind an argument that [is_file] accepts. *)
Definition as_handle (h5file : pyfile) : M string :=
  match h5file with
  | H5File h => ret h
  | _ => raise (TypeError "not a container handle")
  end.

(** [fuel] bounds the depth of the recursion, which follows the nesting of
    the groups being read. *)
Fixpoint load_checkpoint (fuel : nat) (h5file : pyfile) (path : string)
    (exclude_names : option (list string)) {struct fuel} : M pydict :=
  match fuel with
  | O => out_of_fuel
  | S fuel =>
    do missing <- Backend.h5py_missing;
    if missing then Backend.raise_h5py_import_error else
    do h5f <- (if negb (Utils.is_file h5file) then Utils.h5open h5file
               else as_handle h5file);
    do here <- Backend.getitem h5f path;
    do keys <- Backend.iter_names here;
    do ddict <-
      (fix loop (keys : list string) : M pydict :=
         match keys with
         | [] => ret DNil
         | key :: rest =>
           if _name_contains_string_in_list key exclude_names then loop rest
           else
             do child <- Backend.getitem h5f (path +:+ "/" +:+ key);
             do value <-
               (if Utils.is_group child then
                  do sub <- load_checkpoint fuel (H5File h5f) (path +:+ "/" +:+ key)
                                            exclude_names;
                  ret (PDict sub)
                else
                  (* Convert HDF5 dataset to numpy array *)
                  do a <- Backend.read_all child;
                  do t <- lift (Torch.from_numpy a);
                  ret (PTensor t));
             do others <- loop rest;
             ret (DCons key value others)
         end) keys;
    run (if negb (Utils.is_file h5file) then
           (* close file, if we opened it *)
           Backend.close h5f
         else ret tt);
    ret ddict
  end.

(** What [json.dump], [json.load] and [ConfigDict] write to and read from:
    a handle from the builtin [open], or a file-like object. *)
Inductive textio :=
| TextHandle (f : string)
| Stream (o : fileobj).

Definition hasattr_write (x : pyfile) : bool :=
  match x with
  | FileObj o => fo_has_write o
  | _ => false
  end.

Definition hasattr_read (x : pyfile) : bool :=
  match x with
  | FileObj o => fo_has_read o
  | _ => false
  end.

(** [open(x, mode)] *)
Definition builtin_open (x : pyfile) (mode : string) : M string :=
  match x with
  | FileName path => Backend.open_ path mode
  | _ => raise (TypeError "expected str, bytes or os.PathLike object")
  end.

(** The argument itself, once [hasattr] has found the attribute on it. *)
Definition as_stream (x : pyfile) : M textio :=
  match x with
  | FileObj o => ret (Stream o)
  | _ => raise (AttributeError "write")
  end.

Definition write_to (f : textio) (text : string) : M unit :=
  match f with
  | TextHandle h => Backend.write_text h text
  | Stream o => Backend.write_stream o text
  end.

Definition read_from (f : textio) : M string :=
  match f with
  | TextHandle h => Backend.read_text h
  | Stream o => Backend.read_stream o
  end.

(** [f.close()] *)
Definition close_io (f : textio) : M unit :=
  match f with
  | TextHandle h => Backend.close_text h
  | Stream _ => ret tt
  end.

Section Facades.

(** The JSON codec and the structured-config document are collaborators:
    [json_text d indent] is what [json.dump] writes, [json_parse] what
    [json.load] builds from a text, [config_text] what
    [ConfigDict(initdict=d).write] writes, and [config_read] the document
    [ConfigDict(filelist=[fname])] builds from the files at hand. *)
Variable json_text : pyval -> option nat -> outcome string.
Variable json_parse : string -> outcome pyval.
Variable config_text : pyval -> outcome string.
Variable config_read : gmap string fdata -> string -> outcome pyval.

Definition dicttojson (ddict : pyval) (jsonfile : pyfile) (indent : option nat)
    (mode : string) : M unit :=
  do jsonf <- (if negb (hasattr_write jsonfile)
               then do f <- builtin_open jsonfile mode; ret (TextHandle f)
               else as_stream jsonfile);
  run (do text <- lift (json_text ddict indent); write_to jsonf text);
  if negb (hasattr_write jsonfile) then close_io jsonf else ret tt.

Definition dicttoini (ddict : pyval) (inifile : pyfile) (mode : string) : M unit :=
  do inif <- (if negb (hasattr_write inifile)
              then do f <- builtin_open inifile mode; ret (TextHandle f)
              else as_stream inifile);
  run (do text <- lift (config_text ddict); write_to inif text);
  if negb (hasattr_write inifile) then close_io inif else ret tt.

(** [getattr(ffile, 'name', ffile)], then [os.path.splitext] of it: a [str]
    has no [name] and stands for itself, a container handle is named after
    its root group, and an object without a name is no path. *)
Definition name_or_self (ffile : pyfile) : M string :=
  match ffile with
  | FileName path => ret path
  | FileObj o =>
    match fo_name o with
    | Some n => ret n
    | None => raise (TypeError "expected str, bytes or os.PathLike object")
    end
  | H5File _ => ret "/"
  end.

(** [fmat in ["hdf5", "h5"]] and [fmat in ["ini", "cfg"]] *)
Definition in_list (x : string) (l : list string) : bool := existsb (String.eqb x) l.

Definition dump (ddict : pydict) (ffile : pyfile) (mode : string) (fmat : option string)
    : M unit :=
  do fmat <- match fmat with
             | None =>
               (* If file-like object get its name, else use ffile as filename *)
               do filename <- name_or_self ffile;
               ret (PyStr.extension filename)
             | Some fmat => ret fmat
             end;
  let fmat := PyStr.lower fmat in
  if String.eqb fmat "json" then dicttojson (PDict ddict) ffile (Some 2) mode
  else if in_list fmat ["hdf5"; "h5"] then
    do missing <- Backend.h5py_missing;
    run (if missing then
           run Backend.logger_error "Cannot dump to HDF5 format, missing h5py library";
           Backend.raise_h5py_import_error
         else ret tt);
    save_checkpoint ddict ffile "/" mode false None
  else if in_list fmat ["ini"; "cfg"] then dicttoini (PDict ddict) ffile mode
  else raise (IOError ("Unknown format " +:+ fmat)).

(** [ffile.name] *)
Definition name_of (ffile : pyfile) : M string :=
  match ffile with
  | FileObj o =>
    match fo_name o with
    | Some n => ret n
    | None => raise (AttributeError "name")
    end
  | H5File _ => ret "/"
  | FileName _ => raise (AttributeError "name")
  end.

(** The file name [open] was given. *)
Definition as_name (ffile : pyfile) : M string :=
  match ffile with
  | FileName path => ret path
  | _ => raise (TypeError "expected str, bytes or os.PathLike object")
  end.

(** The first statement of [load]: the stream to read, and the file name
    the format is taken from. *)
Definition open_source (ffile : pyfile) : M (textio * string) :=
  if negb (hasattr_read ffile) then
    do f <- builtin_open ffile "r";
    do fname <- as_name ffile;
    ret (TextHandle f, fname)
  else
    do f <- as_stream ffile;
    do fname <- name_of ffile;
    ret (f, fname).

Definition load (fuel : nat) (ffile : pyfile) (fmat : option string) : M pyval :=
  do opened <- open_source ffile;
  let f := fst opened in
  let fname := snd opened in
  let fmat := match fmat with
              | None => PyStr.extension fname  (* Use file extension as format *)
              | Some fmat => fmat
              end in
  let fmat := PyStr.lower fmat in
  if String.eqb fmat "json" then
    do text <- read_from f; lift (json_parse text)
  else if in_list fmat ["hdf5"; "h5"] then
    do missing <- Backend.h5py_missing;
    run (if missing then
           run Backend.logger_error "Cannot load from HDF5 format, missing h5py library";
           Backend.raise_h5py_import_error
         else ret tt);
    do d <- load_checkpoint fuel (FileName fname) "/" None;
    ret (PDict d)
  else if in_list fmat ["ini"; "cfg"] then
    fun w => (config_read (files w) fname, w)
  else raise (IOError ("Unknown format " +:+ fmat)).

End Facades.

End checkpoint.

(** * dic_to_h5.py *)
Module dic_to_h5.

Definition _prepare_hdf5_dataset (array_like : pyval) : outcome npvalue :=
  (* simple strings *)
  get array_like <- match array_like with
                    | PStr s => get b <- string_ s; Ok (PNpString b)
                    | _ => Ok array_like
                    end;
  (* Ensure our data is a numpy.ndarray *)
  get array <- match array_like with
               | PArray a => Ok (NdArray a)
               | PNpString b => Ok (NpString b)
               | _ => get a <- np_array array_like; Ok (NdArray a)
               end;
  (* handle list of strings or numpy array of strings *)
  match array with
  | NpString _ => Ok array
  | NdArray a =>
    let data_kind := kind (dtype_of a) in
    (* unicode: convert to byte strings *)
    if checkpoint.in_list (PyStr.lower data_kind) ["s"; "u"]
    then get a' <- astype_string a; Ok (NdArray a')
    else Ok array
  end.

Fixpoint dicttoh5 (treedict : pydict) (h5file : pyfile) (h5path : string)
    (mode : string) (overwrite_data : bool) (create_dataset_args : option pydict)
    {struct treedict} : M unit :=
  do missing <- Backend.h5py_missing;
  if missing then Backend.raise_h5py_import_error else
  do h5f <- match h5file with
            | H5File h => ret h
            | _ => h5py_File h5file mode
            end;
  let h5path := if PyStr.ends_with_slash h5path then h5path else h5path +:+ "/" in
  run (fix loop (items : pydict) : M unit :=
         match items with
         | DNil => ret tt
         | DCons key value rest =>
           run match value with
               | PDict sub =>
                 if (0 <? dict_len sub)%nat then
                   (* non-empty group: recurse *)
                   dicttoh5 sub (H5File h5f) (h5path +:+ key) "w"
                            overwrite_data create_dataset_args
                 else
                   (* Create empty group *)
                   Backend.create_group h5f (h5path +:+ key)
               | PNone => Backend.create_group h5f (h5path +:+ key)
               | _ =>
                 do ds <- lift (_prepare_hdf5_dataset value);
                 (* can't apply filters on scalars (datasets with shape == () ) *)
                 if bool_decide (np_shape ds = [])
                    || match create_dataset_args with None => true | Some _ => false end
                 then Backend.create_dataset h5f (h5path +:+ key) ds None
                 else Backend.create_dataset h5f (h5path +:+ key) ds create_dataset_args
               end;
           loop rest
         end) treedict;
  match h5file with
  | FileName _ => Backend.close h5f
  | _ => ret tt
  end.

Definition _name_contains_string_in_list (name : string) (strlist : option (list string)) : bool :=
  match strlist with
  | None => false
  | Some l =>
    (fix loop (l : list string) : bool :=
       match l with
       | [] => false
       | filter_str :: rest =>
         if PyStr.contains filter_str name then true else loop rest
       end) l
  end.

End dic_to_h5.

(** * Definitions used by the statements *)

(** The loop of [save_checkpoint] as it stands inside the function, with the
    handle, the normalised path and the options of the enclosing call. *)
Definition save_loop (h5f h5path : string) (overwrite_data : bool)
    (create_dataset_args : option pydict) : pydict -> M unit :=
  fix loop (items : pydict) : M unit :=
    match items with
    | DNil => ret tt
    | DCons key value rest =>
      run match value with
          | PDict sub =>
            if (0 <? dict_len sub)%nat then
              checkpoint.save_checkpoint sub (H5File h5f) (h5path +:+ key) "w"
                                         overwrite_data create_dataset_args
            else Backend.create_group h5f (h5path +:+ key)
          | PNone => Backend.create_group h5f (h5path +:+ key)
          | _ =>
            do ds <- lift (checkpoint._prepare_hdf5_dataset value);
            if bool_decide (np_shape ds = [])
               || match create_dataset_args with None => true | Some _ => false end
            then Backend.create_dataset h5f (h5path +:+ key) ds None
            else Backend.create_dataset h5f (h5path +:+ key) ds create_dataset_args
          end;
      loop rest
    end.

(** The same for [dicttoh5]. *)
Definition dicttoh5_loop (h5f h5path : string) (overwrite_data : bool)
    (create_dataset_args : option pydict) : pydict -> M unit :=
  fix loop (items : pydict) : M unit :=
    match items with
    | DNil => ret tt
    | DCons key value rest =>
      run match value with
          | PDict sub =>
            if (0 <? dict_len sub)%nat then
              dic_to_h5.dicttoh5 sub (H5File h5f) (h5path +:+ key) "w"
                                 overwrite_data create_dataset_args
            else Backend.create_group h5f (h5path +:+ key)
          | PNone => Backend.create_group h5f (h5path +:+ key)
          | _ =>
            do ds <- lift (dic_to_h5._prepare_hdf5_dataset value);
            if bool_decide (np_shape ds = [])
               || match create_dataset_args with None => true | Some _ => false end
            then Backend.create_dataset h5f (h5path +:+ key) ds None
            else Backend.create_dataset h5f (h5path +:+ key) ds create_dataset_args
          end;
      loop rest
    end.

(** [h5path] after [if not h5path.endswith("/"): h5path += "/"]. *)
Definition with_slash (h5path : string) : string :=
  if PyStr.ends_with_slash h5path then h5path else h5path +:+ "/".

(** The traversal both writers perform once the destination is open, for an
    arbitrary leaf encoder: one step per item, and for a non-empty
    sub-mapping the nested call on the same handle. *)
Fixpoint write_items (enc : pyval -> outcome npvalue) (items : pydict)
    (h5f h5path : string) (args : option pydict) {struct items} : M unit :=
  match items with
  | DNil => ret tt
  | DCons key value rest =>
    run match value with
        | PDict sub =>
          if (0 <? dict_len sub)%nat then
            do missing <- Backend.h5py_missing;
            if missing then Backend.raise_h5py_import_error else
            run write_items enc sub h5f (with_slash (h5path +:+ key)) args;
            ret tt
          else Backend.create_group h5f (h5path +:+ key)
        | PNone => Backend.create_group h5f (h5path +:+ key)
        | _ =>
          do ds <- lift (enc value);
          if bool_decide (np_shape ds = [])
             || match args with None => true | Some _ => false end
          then Backend.create_dataset h5f (h5path +:+ key) ds None
          else Backend.create_dataset h5f (h5path +:+ key) ds args
        end;
    write_items enc rest h5f h5path args
  end.

(** Each writer is: check the backend, open the destination unless it is a
    handle, run the traversal from the normalised path, close what was
    opened from a name. *)
Definition writer_of (enc : pyval -> outcome npvalue) (treedict : pydict) (h5file : pyfile)
    (h5path mode : string) (args : option pydict) : M unit :=
  do missing <- Backend.h5py_missing;
  if missing then Backend.raise_h5py_import_error else
  do h5f <- match h5file with
            | H5File h => ret h
            | _ => h5py_File h5file mode
            end;
  run write_items enc treedict h5f (with_slash h5path) args;
  match h5file with
  | FileName _ => Backend.close h5f
  | _ => ret tt
  end.

(** The options a dataset of the given native value is created with. *)
Definition options_for (ds : npvalue) (args : option pydict) : option pydict :=
  if bool_decide (np_shape ds = []) then None else args.

(** A string that is one component of a path: non-empty, not the
    self-reference, and free of the path separator. *)
Definition no_slash (k : string) : bool :=
  forallb (fun c => negb (Ascii.eqb c "/")) (list_ascii_of_string k).

Definition valid_key (k : string) : bool := is_member_name k && no_slash k.

(** A key of a dict tree that the container stores under that very name:
    one component of a path, without the NUL character, at which the
    container library cuts a name. *)
Definition no_nul (k : string) : bool :=
  forallb (fun c => negb (Ascii.eqb c "000")) (list_ascii_of_string k).

Definition tree_key (k : string) : bool := valid_key k && no_nul k.

Definition fresh_key (k : string) (d : pydict) : bool :=
  negb (existsb (String.eqb k) (dict_keys d)).

(** The effect of that traversal on the container alone: the members are
    created one after the other at the paths the traversal builds. *)
Fixpoint write_into (enc : pyval -> outcome npvalue) (args : option pydict)
    (items : pydict) (h5path : string) (root : node) {struct items} : outcome node :=
  match items with
  | DNil => Ok root
  | DCons key value rest =>
    get root' <- match value with
                 | PDict sub =>
                   if (0 <? dict_len sub)%nat
                   then write_into enc args sub (with_slash (h5path +:+ key)) root
                   else create_at (segments (h5path +:+ key)) (Group ∅) root
                 | PNone => create_at (segments (h5path +:+ key)) (Group ∅) root
                 | _ =>
                   get ds <- enc value;
                   get new <- Backend.dataset_node ds (options_for ds args);
                   create_at (segments (h5path +:+ key)) new root
                 end;
    write_into enc args rest h5path root'
  end.

(** What [load_checkpoint] returns, as a function of the root of the
    container it reads. *)
Fixpoint read_tree (fuel : nat) (root : node) (path : string)
    (exclude_names : option (list string)) {struct fuel} : outcome pydict :=
  match fuel with
  | O => OutOfFuel
  | S fuel =>
    get here <- match resolve (segments path) root with
                | Some n => Ok n
                | None => Raise (KeyError path)
                end;
    get keys <- Backend.names_of here;
    (fix loop (keys : list string) : outcome pydict :=
       match keys with
       | [] => Ok DNil
       | key :: rest =>
         if checkpoint._name_contains_string_in_list key exclude_names then loop rest
         else
           get child <- match resolve (segments (path +:+ "/" +:+ key)) root with
                        | Some n => Ok n
                        | None => Raise (KeyError (path +:+ "/" +:+ key))
                        end;
           get value <-
             (if Utils.is_group child then
                get sub <- read_tree fuel root (path +:+ "/" +:+ key) exclude_names;
                Ok (PDict sub)
              else
                get a <- Backend.slice_all child;
                get t <- Torch.from_numpy a;
                Ok (PTensor t));
           get others <- loop rest;
           Ok (DCons key value others)
       end) keys
  end.

(** The loops of [load_checkpoint] and of [read_tree] as they stand inside
    the two functions, with the fuel left for the nested calls. *)
Definition load_loop (fuel : nat) (h5f path : string) (exclude_names : option (list string))
    : list string -> M pydict :=
  fix loop (keys : list string) : M pydict :=
    match keys with
    | [] => ret DNil
    | key :: rest =>
      if checkpoint._name_contains_string_in_list key exclude_names then loop rest
      else
        do child <- Backend.getitem h5f (path +:+ "/" +:+ key);
        do value <-
          (if Utils.is_group child then
             do sub <- checkpoint.load_checkpoint fuel (H5File h5f) (path +:+ "/" +:+ key)
                                                  exclude_names;
             ret (PDict sub)
           else
             do a <- Backend.read_all child;
             do t <- lift (Torch.from_numpy a);
             ret (PTensor t));
        do others <- loop rest;
        ret (DCons key value others)
    end.

Definition read_loop (fuel : nat) (root : node) (path : string)
    (exclude_names : option (list string)) : list string -> outcome pydict :=
  fix loop (keys : list string) : outcome pydict :=
    match keys with
    | [] => Ok DNil
    | key :: rest =>
      if checkpoint._name_contains_string_in_list key exclude_names then loop rest
      else
        get child <- match resolve (segments (path +:+ "/" +:+ key)) root with
                     | Some n => Ok n
                     | None => Raise (KeyError (path +:+ "/" +:+ key))
                     end;
        get value <-
          (if Utils.is_group child then
             get sub <- read_tree fuel root (path +:+ "/" +:+ key) exclude_names;
             Ok (PDict sub)
           else
             get a <- Backend.slice_all child;
             get t <- Torch.from_numpy a;
             Ok (PTensor t));
        get others <- loop rest;
        Ok (DCons key value others)
    end.

(** Valid keys at every level of a tree. *)
Fixpoint keys_ok_value (v : pyval) : bool :=
  match v with
  | PDict sub => keys_ok sub
  | _ => true
  end
with keys_ok (d : pydict) : bool :=
  match d with
  | DNil => true
  | DCons key value rest => valid_key key && keys_ok_value value && keys_ok rest
  end.

(** The container image of a dict tree: a group per sub-mapping and per
    empty sentinel, a dataset per leaf. *)
Fixpoint node_of (enc : pyval -> outcome npvalue) (args : option pydict) (v : pyval) : node :=
  match v with
  | PDict sub => Group (members_of enc args sub)
  | PNone => Group ∅
  | _ =>
    match enc v with
    | Ok ds => Dataset (stored_array ds) (default DNil (options_for ds args))
    | _ => Group ∅
    end
  end
with members_of (enc : pyval -> outcome npvalue) (args : option pydict) (d : pydict)
    : gmap string node :=
  match d with
  | DNil => ∅
  | DCons key value rest => <[key := node_of enc args value]> (members_of enc args rest)
  end.

(** [d[k]] for a present key. *)
Fixpoint dict_get (d : pydict) (k : string) : option pyval :=
  match d with
  | DNil => None
  | DCons key value rest => if String.eqb key k then Some value else dict_get rest k
  end.

(** Nesting depth of the sub-mappings of a tree. *)
Fixpoint depth_value (v : pyval) : nat :=
  match v with
  | PDict sub => S (depth_tree sub)
  | _ => 0
  end
with depth_tree (d : pydict) : nat :=
  match d with
  | DNil => 0
  | DCons _ value rest => Nat.max (depth_value value) (depth_tree rest)
  end.

(** The trees of the round trip: keys the container stores as they are,
    unique within their mapping, and as leaves the values [save_checkpoint]
    encodes and [load_checkpoint] reads back: integers that fit 64 signed
    bits, booleans, and tensors of an element type numpy has that record no
    gradient. *)
Definition fits_int64 (z : Z) : bool := ((- 2 ^ 63 <=? z) && (z <? 2 ^ 63))%Z.

Fixpoint roundtrip_value (v : pyval) : bool :=
  match v with
  | PBool _ => true
  | PInt z => fits_int64 z
  | PTensor t =>
    negb (Torch.requires_grad t)
    && match Torch.numpy_dtype (Torch.tdtype_of t) with
       | Some _ => true
       | None => false
       end
  | PDict sub => roundtrip_tree sub
  | _ => false
  end
with roundtrip_tree (d : pydict) : bool :=
  match d with
  | DNil => true
  | DCons key value rest =>
    tree_key key && fresh_key key rest && roundtrip_value value && roundtrip_tree rest
  end.

(** The array form of a leaf: the host copy of a tensor as an array, and
    [numpy.array] of any other value. *)
Definition array_form (v : pyval) : outcome ndarray :=
  match v with
  | PTensor t => Torch.numpy (Torch.cpu t)
  | _ => np_array v
  end.

Definition is_mapping (v : pyval) : bool :=
  match v with
  | PDict _ => true
  | _ => false
  end.

(** [same_tree d d']: [d'] has the keys of [d] at every level, a mapping
    where [d] has one, and where [d] has a leaf a tensor whose array is the
    array form of that leaf. *)
Inductive same_tree : pydict -> pydict -> Prop :=
| same_tree_intro (d d' : pydict) :
    NoDup (dict_keys d') ->
    (forall k, k ∈ dict_keys d <-> k ∈ dict_keys d') ->
    (forall k v, dict_get d k = Some v ->
                 exists v', dict_get d' k = Some v' /\ same_value v v') ->
    same_tree d d'
with same_value : pyval -> pyval -> Prop :=
| same_mapping (sub sub' : pydict) :
    same_tree sub sub' -> same_value (PDict sub) (PDict sub')
| same_leaf (v : pyval) (t : Torch.tensor) (a : ndarray) :
    is_mapping v = false ->
    array_form v = Ok a ->
    Torch.numpy t = Ok a ->
    same_value v (PTensor t).

(** The leaves on which the two encoders agree: integers outside the range
    that only an unsigned 64-bit element holds, booleans, and host tensors
    that are not of an unsigned element type. *)
Definition agreeing_leaf (v : pyval) : bool :=
  match v with
  | PNone => true
  | PBool _ => true
  | PInt z => negb ((2 ^ 63 <=? z) && (z <? 2 ^ 64))%Z
  | PTensor t =>
    match Torch.device_of t, Torch.tdtype_of t with
    | Torch.Cpu, Torch.TUInt8 => false
    | Torch.Cpu, _ => true
    | _, _ => false
    end
  | _ => false
  end.

Fixpoint agreeing_value (v : pyval) : bool :=
  match v with
  | PDict sub => agreeing_tree sub
  | _ => agreeing_leaf v
  end
with agreeing_tree (d : pydict) : bool :=
  match d with
  | DNil => true
  | DCons _ value rest => agreeing_value value && agreeing_tree rest
  end.

(** The rule for one backend call: a dataset is created with the supplied
    options exactly when its value is not zero-dimensional and options were
    supplied, and then with those very options. *)
Definition options_rule (args : option pydict) (e : event) : Prop :=
  match e with
  | CreateDataset _ _ data kwargs =>
    (is_Some kwargs <-> np_shape data <> [] /\ is_Some args)
    /\ (np_shape data = [] -> kwargs = None)
    /\ (is_Some kwargs -> kwargs = args)
  | _ => True
  end.







(** The format string [dump] and [load] dispatch on: the explicit argument
    when there is one, else the extension of the file name; lower-cased. *)
Definition dispatch_format (fmat : option string) (name : string) : string :=
  PyStr.lower match fmat with
              | Some f => f
              | None => PyStr.extension name
              end.

Definition known_format (f : string) : bool :=
  checkpoint.in_list f ["json"; "hdf5"; "h5"; "ini"; "cfg"].

Definition container_format (f : string) : bool := checkpoint.in_list f ["hdf5"; "h5"].

(** A handle [h5f] is open on a container whose root is [root], and the
    backend is present. *)
Definition session (h5f : string) (root : node) (w : world) : Prop :=
  h5py_import w = None /\ h5f ∈ open_h5 w /\ files w !! h5f = Some (FContainer root).

(** A computation leaves one component of the world as it was. *)
Definition preserves {A X : Type} (proj : world -> X) (c : M A) : Prop :=
  forall w, proj (snd (c w)) = proj w.

(** The first two steps the encoders share: a plain [str] becomes a
    [numpy.string_] scalar, and what is neither an array nor such a scalar
    goes through [numpy.array]. *)
Definition simple_string (array_like : pyval) : outcome pyval :=
  match array_like with
  | PStr s => get b <- string_ s; Ok (PNpString b)
  | _ => Ok array_like
  end.

Definition ensure_array (array_like : pyval) : outcome npvalue :=
  match array_like with
  | PArray a => Ok (NdArray a)
  | PNpString b => Ok (NpString b)
  | _ => get a <- np_array array_like; Ok (NdArray a)
  end.

(** The textual element kinds: fixed-width bytes and unicode. *)
Definition textual (d : dtype) : bool :=
  match d with
  | DBytes _ | DUnicode _ => true
  | _ => false
  end.

(** The byte-string array of a list of ASCII strings. *)
Definition bytes_array (l : list string) : ndarray :=
  mk_ndarray (DBytes (Nat.max 1 (max_len l))) [List.length l] (map IBytes l).

(** A word with a letter outside ASCII (e with a grave accent, code 232). *)
Definition isere : string := "Is" +:+ String (ascii_of_nat 232) "re".

(** A computation only adds events that satisfy [good] to the trace. *)
Definition extends {A : Type} (good : event -> Prop) (c : M A) : Prop :=
  forall w, exists new, trace (snd (c w)) = new ++ trace w /\ Forall good new.

(** The number of text handles closed so far. *)
Fixpoint text_closes (tr : list event) : nat :=
  match tr with
  | [] => 0
  | CloseText _ :: r => S (text_closes r)
  | _ :: r => text_closes r
  end.

(** What the world records about text handles: the handles that are open,
    and how many were closed. *)
Definition text_state (w : world) : list string * nat :=
  (open_text w, text_closes (trace w)).

(** Sample collaborators and worlds for the closed examples. *)
Definition sample_json_text (d : pyval) (indent : option nat) : outcome string :=
  match d with
  | PDict DNil => Ok "{}"
  | _ => Raise (LibraryError "outside the sample codec")
  end.

Definition sample_json_parse (text : string) : outcome pyval :=
  if String.eqb text "{}" then Ok (PDict DNil)
  else Raise (LibraryError "outside the sample codec").

Definition sample_config_text (d : pyval) : outcome string :=
  match d with
  | PDict DNil => Ok ""
  | _ => Raise (LibraryError "outside the sample codec")
  end.

Definition sample_config_read (fs : gmap string fdata) (fname : string) : outcome pyval :=
  match fs !! fname with
  | Some (FText "") => Ok (PDict DNil)
  | _ => Raise (LibraryError "outside the sample codec")
  end.

Definition empty_world : world := mk_world None ∅ ∅ [] [] [].

Definition no_h5py_world : world :=
  mk_world (Some (ImportError "No module named 'h5py'")) ∅ ∅ [] [] [].

(** A world with one text file. *)
Definition text_world (path content : string) : world :=
  mk_world None {[path := FText content]} ∅ [] [] [].

(** A world without the backend, with one text file. *)
Definition no_h5py_text_world (path content : string) : world :=
  mk_world (Some (ImportError "No module named 'h5py'")) {[path := FText content]} ∅ [] [] [].

(** A world whose file [scan.h5] holds a group [mca_detector] and a
    dataset [counter]. *)
Definition scan_root : gmap string node :=
  {["mca_detector" := Group {["spectrum" := Dataset (mk_ndarray (DInt 8) [1] [IInt 5]) DNil]};
    "counter" := Dataset (mk_ndarray (DInt 8) [2] [IInt 1; IInt 2]) DNil]}.

Definition scan_world : world :=
  mk_world None {["scan.h5" := FContainer (Group scan_root)]} ∅ [] [] [].

(** A readable stream without a [name], as [io.StringIO] is. *)
Definition string_io : fileobj := mk_fileobj 0 true true None.

(** The world of [scan_world] with a handle open on [scan.h5]. *)
Definition open_scan_world : world :=
  mk_world None {["scan.h5" := FContainer (Group scan_root)]} ∅ [] ["scan.h5"] [].

(** A world whose file [names.h5] holds one dataset of byte strings, as the
    older writer stores a [str]. *)
Definition names_root : gmap string node :=
  {["label" := Dataset (mk_ndarray (DBytes 5) [] [IBytes "hello"]) DNil]}.

Definition names_world : world :=
  mk_world None {["names.h5" := FContainer (Group names_root)]} ∅ [] [] [].

(** A value for which the writers make a nested call: a mapping with at
    least one item. *)
Definition nonempty_mapping (v : pyval) : bool :=
  match v with
  | PDict sub => (0 <? dict_len sub)%nat
  | _ => false
  end.

(** The trees whose leaves are tensors in host memory that record no
    gradient. *)
Fixpoint host_tensors_value (v : pyval) : bool :=
  match v with
  | PTensor t =>
    match Torch.device_of t with
    | Torch.Cpu => negb (Torch.requires_grad t)
    | Torch.Cuda _ => false
    end
  | PDict sub => host_tensors sub
  | _ => false
  end
with host_tensors (d : pydict) : bool :=
  match d with
  | DNil => true
  | DCons _ value rest => host_tensors_value value && host_tensors rest
  end.

(** A tree with every tensor moved to host memory. *)
Fixpoint to_host_value (v : pyval) : pyval :=
  match v with
  | PTensor t => PTensor (Torch.cpu t)
  | PDict sub => PDict (to_host sub)
  | _ => v
  end
with to_host (d : pydict) : pydict :=
  match d with
  | DNil => DNil
  | DCons key value rest => DCons key (to_host_value value) (to_host rest)
  end.

(** What [dicttojson] and [dicttoini] share: open the destination unless
    it can be written to, write the text the encoder produced, close what
    was opened. *)
Definition text_writer (encoded : outcome string) (dest : pyfile) (mode : string) : M unit :=
  do f <- (if negb (checkpoint.hasattr_write dest)
           then do f <- checkpoint.builtin_open dest mode; ret (checkpoint.TextHandle f)
           else checkpoint.as_stream dest);
  run (do text <- lift encoded; checkpoint.write_to f text);
  if negb (checkpoint.hasattr_write dest) then checkpoint.close_io f else ret tt.

(** The text an encoder produced, and nothing when it raised. *)
Definition text_of (encoded : outcome string) : string :=
  match encoded with
  | Ok text => text
  | _ => ""
  end.

(** The outcome of a call that returns nothing, after an encoder. *)
Definition unit_of (encoded : outcome string) : outcome unit :=
  get _ <- encoded; Ok tt.

(** The branches of [dump] and of [load] once the format is known. *)
Definition dump_as (json_text : pyval -> option nat -> outcome string)
    (config_text : pyval -> outcome string)
    (fmat : string) (ddict : pydict) (ffile : pyfile) (mode : string) : M unit :=
  if String.eqb fmat "json" then checkpoint.dicttojson json_text (PDict ddict) ffile (Some 2) mode
  else if checkpoint.in_list fmat ["hdf5"; "h5"] then
    do missing <- Backend.h5py_missing;
    run (if missing then
           run Backend.logger_error "Cannot dump to HDF5 format, missing h5py library";
           Backend.raise_h5py_import_error
         else ret tt);
    checkpoint.save_checkpoint ddict ffile "/" mode false None
  else if checkpoint.in_list fmat ["ini"; "cfg"] then
    checkpoint.dicttoini config_text (PDict ddict) ffile mode
  else raise (IOError ("Unknown format " +:+ fmat)).

Definition load_as (json_parse : string -> outcome pyval)
    (config_read : gmap string fdata -> string -> outcome pyval)
    (fmat : string) (fuel : nat) (f : checkpoint.textio) (fname : string) : M pyval :=
  if String.eqb fmat "json" then
    do text <- checkpoint.read_from f; lift (json_parse text)
  else if checkpoint.in_list fmat ["hdf5"; "h5"] then
    do missing <- Backend.h5py_missing;
    run (if missing then
           run Backend.logger_error "Cannot load from HDF5 format, missing h5py library";
           Backend.raise_h5py_import_error
         else ret tt);
    do d <- checkpoint.load_checkpoint fuel (FileName fname) "/" None;
    ret (PDict d)
  else if checkpoint.in_list fmat ["ini"; "cfg"] then
    fun w => (config_read (files w) fname, w)
  else raise (IOError ("Unknown format " +:+ fmat)).

(** An extension as [os.path.splitext] finds one: free of the dot and of
    the path separator. *)
Definition plain_extension (ext : string) : bool :=
  forallb (fun c => negb (Ascii.eqb c ".") && negb (Ascii.eqb c "/")) (list_ascii_of_string ext).

(** The last component of a path has a character other than the dot. *)
Definition last_component_named (stem : string) : bool :=
  PyStr.has_non_dot stem (Z.to_nat (PyStr.rfind "/" stem + 1)) (String.length stem).

(** A member is still what it was: a dataset with the same content, a
    group still a group. *)
Definition still (n n' : node) : Prop :=
  match n with
  | Dataset a options => n' = Dataset a options
  | Group _ => Utils.is_group n' = true
  end.

(** Every member of [root] is found in [root'] at the same place, and is
    still what it was. *)
Definition keeps_members (root root' : node) : Prop :=
  forall segs n,
    resolve segs root = Some n ->
    exists n', resolve segs root' = Some n' /\ still n n'.

(** A computation run on an open container leaves the handle open on a
    container that keeps the members it had. *)
Definition evolves {A : Type} (h5f : string) (c : M A) : Prop :=
  forall w root,
    session h5f root w ->
    exists root', session h5f root' (snd (c w)) /\ keeps_members root root'.

(** An absolute path made of names the container stores as they are: the
    root [/], or [/k1/.../kn]. *)
Definition clean_path (p : string) : bool :=
  match p with
  | String "/" rest => String.eqb rest "" || forallb tree_key (split_slash rest)
  | _ => false
  end.

(** A path that walks through the given member names. *)
Fixpoint path_of (segs : list string) : string :=
  match segs with
  | [] => "/"
  | k :: rest => k +:+ String "/" (path_of rest)
  end.

(** What [for filter_str in strlist] goes through when [strlist] is a
    [str] rather than a list: its characters, as one-character strings. *)
Definition chars_of (s : string) : list string :=
  map (fun c => String c EmptyString) (list_ascii_of_string s).

(** Does the character occur in the string? *)
Definition has_char (s : string) (c : ascii) : bool :=
  existsb (Ascii.eqb c) (list_ascii_of_string s).

(** The values the encoder of the checkpoint module takes: the integers,
    booleans among them, and the tensors of an element type numpy has that
    record no gradient. *)
Definition encodable (v : pyval) : bool :=
  match v with
  | PBool _ | PInt _ => true
  | PTensor t =>
    negb (Torch.requires_grad t)
    && match Torch.numpy_dtype (Torch.tdtype_of t) with
       | Some _ => true
       | None => false
       end
  | _ => false
  end.

(** What the world stores: the files and the buffers of the file-like
    objects. *)
Definition stored (w : world) : gmap string fdata * gmap nat string := (files w, streams w).

(** * Properties *)

(** ** The monad *)

Lemma bind_ok {A B : Type} (c : M A) (k : A -> M B) (w w' : world) (a : A) :
  c w = (Ok a, w') -> bind c k w = k a w'.
Proof. intros H. unfold bind. rewrite H. reflexivity. Qed.

Lemma bind_raise {A B : Type} (c : M A) (k : A -> M B) (w w' : world) (e : exn) :
  c w = (Raise e, w') -> bind c k w = (Raise e, w').
Proof. intros H. unfold bind. rewrite H. reflexivity. Qed.

Lemma bind_step {A B : Type} (c : M A) (k : A -> M B) (w w' : world) (o : outcome A) :
  c w = (o, w') ->
  bind c k w = match o with
               | Ok a => k a w'
               | Raise e => (Raise e, w')
               | OutOfFuel => (OutOfFuel, w')
               end.
Proof. intros H. unfold bind. rewrite H. destruct o; reflexivity. Qed.

Lemma bind_cont {A B : Type} (c : M A) (k k' : A -> M B) (w : world) :
  (forall a w', c w = (Ok a, w') -> k a w' = k' a w') -> bind c k w = bind c k' w.
Proof.
  intros H. unfold bind. destruct (c w) as [[a| |] w'] eqn:E; auto.
Qed.

Lemma bind_ext {A B : Type} (c c' : M A) (k k' : A -> M B) (w : world) :
  c w = c' w -> (forall a w', k a w' = k' a w') -> bind c k w = bind c' k' w.
Proof.
  intros Hc Hk. unfold bind. rewrite Hc.
  destruct (c' w) as [[a| |] w']; auto.
Qed.

(** ** Format dispatch *)

Lemma unknown_format_branches (f : string) :
  known_format f = false ->
  String.eqb f "json" = false
  /\ checkpoint.in_list f ["hdf5"; "h5"] = false
  /\ checkpoint.in_list f ["ini"; "cfg"] = false.
Proof.
  unfold known_format, checkpoint.in_list. simpl.
  repeat rewrite orb_false_iff. intros (? & ? & ? & ? & ? & _).
  repeat split; auto; repeat (apply orb_false_iff; split; auto).
Qed.

Lemma container_format_branches (f : string) :
  container_format f = true ->
  String.eqb f "json" = false /\ checkpoint.in_list f ["hdf5"; "h5"] = true.
Proof.
  unfold container_format. intros H. split; [|exact H].
  unfold checkpoint.in_list in H. simpl in H.
  destruct (String.eqb_spec f "json") as [->|]; [discriminate H|reflexivity].
Qed.

(** ** Components of the world a computation leaves alone *)

Lemma preserves_ret {A X : Type} (proj : world -> X) (a : A) : preserves proj (ret a).
Proof. intros w. reflexivity. Qed.

Lemma preserves_raise {A X : Type} (proj : world -> X) (e : exn) :
  preserves proj (@raise A e).
Proof. intros w. reflexivity. Qed.

Lemma preserves_out_of_fuel {A X : Type} (proj : world -> X) :
  preserves proj (@out_of_fuel A).
Proof. intros w. reflexivity. Qed.

Lemma preserves_lift {A X : Type} (proj : world -> X) (o : outcome A) :
  preserves proj (lift o).
Proof. intros w. reflexivity. Qed.

Lemma preserves_bind {A B X : Type} (proj : world -> X) (c : M A) (k : A -> M B) :
  preserves proj c -> (forall a, preserves proj (k a)) -> preserves proj (bind c k).
Proof.
  intros Hc Hk w. unfold bind. specialize (Hc w).
  destruct (c w) as [[a| |] w1]; simpl in *; auto.
  rewrite Hk. exact Hc.
Qed.

Ltac by_cases_preserved :=
  let w := fresh "w" in
  intros w; simpl; repeat case_match; simpl; reflexivity.

Lemma preserves_open_h5py (path mode : string) :
  preserves h5py_import (Backend.open_ path mode).
Proof. unfold Backend.open_. by_cases_preserved. Qed.

Lemma open_source_h5py_import (ffile : pyfile) :
  preserves h5py_import (checkpoint.open_source ffile).
Proof.
  unfold checkpoint.open_source, checkpoint.builtin_open, checkpoint.as_name,
    checkpoint.as_stream, checkpoint.name_of.
  destruct ffile as [path|o|h]; simpl;
    repeat first [ apply preserves_bind; [|intros ?]
                 | apply preserves_ret | apply preserves_raise
                 | apply preserves_open_h5py
                 | case_match ].
Qed.

(** ** The dispatch facades *)

Section FacadeProperties.

Variable json_text : pyval -> option nat -> outcome string.
Variable json_parse : string -> outcome pyval.
Variable config_text : pyval -> outcome string.
Variable config_read : gmap string fdata -> string -> outcome pyval.

Lemma dump_unknown_format (ddict : pydict) (ffile : pyfile) (mode : string)
    (fmat : option string) (name : string) (w : world) :
  (fmat = None -> checkpoint.name_or_self ffile w = (Ok name, w)) ->
  known_format (dispatch_format fmat name) = false ->
  checkpoint.dump json_text config_text ddict ffile mode fmat w
  = (Raise (IOError ("Unknown format " +:+ dispatch_format fmat name)), w).
Proof.
  intros Hname Hunknown.
  destruct (unknown_format_branches _ Hunknown) as (Hj & Hh & Hi).
  unfold checkpoint.dump. destruct fmat as [f|].
  - unfold bind at 1. unfold ret at 1. cbv beta iota.
    unfold dispatch_format in *. rewrite Hj, Hh, Hi. reflexivity.
  - specialize (Hname eq_refl).
    unfold bind at 1. unfold bind at 1. rewrite Hname. unfold ret at 1. cbv beta iota.
    unfold dispatch_format in *. rewrite Hj, Hh, Hi. reflexivity.
Qed.

Lemma load_unknown_format (fuel : nat) (ffile : pyfile) (fmat : option string)
    (f : checkpoint.textio) (fname : string) (w w' : world) :
  checkpoint.open_source ffile w = (Ok (f, fname), w') ->
  known_format (dispatch_format fmat fname) = false ->
  checkpoint.load json_parse config_read fuel ffile fmat w
  = (Raise (IOError ("Unknown format " +:+ dispatch_format fmat fname)), w').
Proof.
  intros Hopen Hunknown.
  destruct (unknown_format_branches _ Hunknown) as (Hj & Hh & Hi).
  unfold checkpoint.load. rewrite (bind_ok _ _ _ _ _ Hopen). cbv zeta. cbn [fst snd].
  unfold dispatch_format in *. rewrite Hj, Hh, Hi. reflexivity.
Qed.

Lemma dump_missing_backend (ddict : pydict) (ffile : pyfile) (mode : string)
    (fmat : option string) (name : string) (e : exn) (w : world) :
  h5py_import w = Some e ->
  (fmat = None -> checkpoint.name_or_self ffile w = (Ok name, w)) ->
  container_format (dispatch_format fmat name) = true ->
  checkpoint.dump json_text config_text ddict ffile mode fmat w
  = (Raise e, emit (LogError "Cannot dump to HDF5 format, missing h5py library") w).
Proof.
  intros Hmiss Hname Hfmt.
  destruct (container_format_branches _ Hfmt) as (Hj & Hh).
  assert (Hgo : forall w0, h5py_import w0 = Some e ->
    (if String.eqb (dispatch_format fmat name) "json"
     then checkpoint.dicttojson json_text (PDict ddict) ffile (Some 2) mode
     else if checkpoint.in_list (dispatch_format fmat name) ["hdf5"; "h5"]
     then do missing <- Backend.h5py_missing;
          run (if missing
               then run Backend.logger_error "Cannot dump to HDF5 format, missing h5py library";
                    Backend.raise_h5py_import_error
               else ret tt);
          checkpoint.save_checkpoint ddict ffile "/" mode false None
     else if checkpoint.in_list (dispatch_format fmat name) ["ini"; "cfg"]
     then checkpoint.dicttoini config_text (PDict ddict) ffile mode
     else raise (IOError ("Unknown format " +:+ dispatch_format fmat name))) w0
    = (Raise e, emit (LogError "Cannot dump to HDF5 format, missing h5py library") w0)).
  { intros w0 H0. rewrite Hj, Hh.
    unfold bind, Backend.h5py_missing, Backend.logger_error, log,
      Backend.raise_h5py_import_error. simpl. rewrite H0. simpl. rewrite H0. reflexivity. }
  unfold checkpoint.dump. destruct fmat as [f|].
  - unfold bind at 1. unfold ret at 1. cbv beta iota. apply Hgo, Hmiss.
  - specialize (Hname eq_refl).
    unfold bind at 1. unfold bind at 1. rewrite Hname. unfold ret at 1. cbv beta iota.
    apply Hgo, Hmiss.
Qed.

Lemma load_missing_backend (fuel : nat) (ffile : pyfile) (fmat : option string)
    (f : checkpoint.textio) (fname : string) (e : exn) (w w' : world) :
  h5py_import w = Some e ->
  checkpoint.open_source ffile w = (Ok (f, fname), w') ->
  container_format (dispatch_format fmat fname) = true ->
  checkpoint.load json_parse config_read fuel ffile fmat w
  = (Raise e, emit (LogError "Cannot load from HDF5 format, missing h5py library") w').
Proof.
  intros Hmiss Hopen Hfmt.
  destruct (container_format_branches _ Hfmt) as (Hj & Hh).
  assert (Hmiss' : h5py_import w' = Some e).
  { rewrite <- Hmiss. pose proof (open_source_h5py_import ffile w) as Hp.
    rewrite Hopen in Hp. exact Hp. }
  unfold checkpoint.load. rewrite (bind_ok _ _ _ _ _ Hopen). cbv zeta. cbn [fst snd].
  unfold dispatch_format in *. rewrite Hj, Hh.
  unfold bind, Backend.h5py_missing, Backend.logger_error, log,
    Backend.raise_h5py_import_error. simpl. rewrite Hmiss'. simpl. rewrite Hmiss'. reflexivity.
Qed.

End FacadeProperties.

Lemma save_checkpoint_missing_backend (treedict : pydict) (h5file : pyfile)
    (h5path mode : string) (overwrite_data : bool) (args : option pydict)
    (e : exn) (w : world) :
  h5py_import w = Some e ->
  checkpoint.save_checkpoint treedict h5file h5path mode overwrite_data args w = (Raise e, w).
Proof.
  intros H. destruct treedict; simpl;
    unfold bind, Backend.h5py_missing, Backend.raise_h5py_import_error; rewrite H; simpl;
    rewrite H; reflexivity.
Qed.

Lemma dicttoh5_missing_backend (treedict : pydict) (h5file : pyfile)
    (h5path mode : string) (overwrite_data : bool) (args : option pydict)
    (e : exn) (w : world) :
  h5py_import w = Some e ->
  dic_to_h5.dicttoh5 treedict h5file h5path mode overwrite_data args w = (Raise e, w).
Proof.
  intros H. destruct treedict; simpl;
    unfold bind, Backend.h5py_missing, Backend.raise_h5py_import_error; rewrite H; simpl;
    rewrite H; reflexivity.
Qed.

Lemma load_checkpoint_missing_backend (fuel : nat) (h5file : pyfile) (path : string)
    (exclude_names : option (list string)) (e : exn) (w : world) :
  h5py_import w = Some e ->
  checkpoint.load_checkpoint (S fuel) h5file path exclude_names w = (Raise e, w).
Proof.
  intros H. simpl.
  unfold bind, Backend.h5py_missing, Backend.raise_h5py_import_error; rewrite H; simpl;
    rewrite H; reflexivity.
Qed.

(** ** Claims about the facades *)

(** C10.  A source object that has a [read] attribute and no [name]
    attribute makes [load] fail with an attribute-access error before any
    dispatch, whatever the format argument: the world is left untouched. *)
Theorem load_nameless_stream_fails
    (json_parse : string -> outcome pyval)
    (config_read : gmap string fdata -> string -> outcome pyval)
    (fuel : nat) (o : fileobj) (fmat : option string) (w : world) :
  fo_has_read o = true ->
  fo_name o = None ->
  checkpoint.load json_parse config_read fuel (FileObj o) fmat w
  = (Raise (AttributeError "name"), w).
Proof.
  intros Hread Hname.
  unfold checkpoint.load, checkpoint.open_source, checkpoint.hasattr_read.
  rewrite Hread. simpl.
  unfold bind, checkpoint.name_of, ret, raise. simpl. rewrite Hname. reflexivity.
Qed.

Lemma load_nameless_stream_fails_witness :
  checkpoint.load sample_json_parse sample_config_read 1 (FileObj string_io) (Some "json")
                  empty_world
  = (Raise (AttributeError "name"), empty_world).
Proof.
  apply (load_nameless_stream_fails sample_json_parse sample_config_read 1 string_io
                                    (Some "json") empty_world); reflexivity.
Defined.

(** C5, as stated, fails: an explicit format is lower-cased before it is
    compared and before it is put in the message, so that "XYZ" is reported
    as "xyz" and "JSON" is accepted; and the inferred format is the extension
    [os.path.splitext] finds, which is empty for a name such as ".xyz". *)
Lemma unknown_format_message_is_lowercased :
  checkpoint.dump sample_json_text sample_config_text DNil (FileName "out") "w" (Some "XYZ")
                  empty_world
  = (Raise (IOError "Unknown format xyz"), empty_world)
  /\ IOError "Unknown format xyz" <> IOError ("Unknown format " +:+ "XYZ")
  /\ fst (checkpoint.dump sample_json_text sample_config_text DNil (FileName "out") "w"
                          (Some "JSON") empty_world)
     = Ok tt
  /\ checkpoint.dump sample_json_text sample_config_text DNil (FileName ".xyz") "w" None
                     empty_world
     = (Raise (IOError "Unknown format "), empty_world).
Proof.
  split; [reflexivity|]. split; [discriminate|]. split; vm_compute; reflexivity.
Qed.

(** C5 (amended).  Let the format be the explicit argument when there is
    one and else the extension [os.path.splitext] finds in the file name,
    lower-cased in both cases.  When it is none of json, hdf5, h5, ini and
    cfg, [dump] fails with the I/O error "Unknown format " followed by that
    lower-cased format, and so does [load] once its source is resolved. *)
Theorem unknown_format_rejected
    (json_text : pyval -> option nat -> outcome string)
    (json_parse : string -> outcome pyval)
    (config_text : pyval -> outcome string)
    (config_read : gmap string fdata -> string -> outcome pyval)
    (ddict : pydict) (dfile : pyfile) (mode : string) (dfmat : option string)
    (dname : string) (wd : world)
    (fuel : nat) (lfile : pyfile) (lfmat : option string) (f : checkpoint.textio)
    (lname : string) (wl wl' : world) :
  (dfmat = None -> checkpoint.name_or_self dfile wd = (Ok dname, wd)) ->
  known_format (dispatch_format dfmat dname) = false ->
  checkpoint.open_source lfile wl = (Ok (f, lname), wl') ->
  known_format (dispatch_format lfmat lname) = false ->
  checkpoint.dump json_text config_text ddict dfile mode dfmat wd
  = (Raise (IOError ("Unknown format " +:+ dispatch_format dfmat dname)), wd)
  /\ checkpoint.load json_parse config_read fuel lfile lfmat wl
     = (Raise (IOError ("Unknown format " +:+ dispatch_format lfmat lname)), wl').
Proof.
  intros Hname Hd Hopen Hl. split.
  - apply dump_unknown_format; assumption.
  - eapply load_unknown_format; eassumption.
Qed.

Lemma unknown_format_rejected_witness :
  checkpoint.dump sample_json_text sample_config_text DNil (FileName "out.xyz") "w" None
                  empty_world
  = (Raise (IOError "Unknown format xyz"), empty_world)
  /\ checkpoint.load sample_json_parse sample_config_read 1 (FileName "in.XYZ") None
                     (text_world "in.XYZ" "")
     = (Raise (IOError "Unknown format xyz"),
        snd (checkpoint.open_source (FileName "in.XYZ") (text_world "in.XYZ" ""))).
Proof.
  apply (unknown_format_rejected sample_json_text sample_json_parse sample_config_text
           sample_config_read DNil (FileName "out.xyz") "w" None "out.xyz" empty_world
           1 (FileName "in.XYZ") None (checkpoint.TextHandle "in.XYZ") "in.XYZ"
           (text_world "in.XYZ" "")
           (snd (checkpoint.open_source (FileName "in.XYZ") (text_world "in.XYZ" "")))).
  - intros _. reflexivity.
  - reflexivity.
  - vm_compute. reflexivity.
  - reflexivity.
Defined.

(** C4, as stated, fails for [load]: a stream without a name stops [load]
    before the dispatch, with no import error and no log record. *)
Lemma missing_backend_load_nameless_stream :
  checkpoint.load sample_json_parse sample_config_read 1 (FileObj string_io) (Some "hdf5")
                  no_h5py_world
  = (Raise (AttributeError "name"), no_h5py_world)
  /\ trace no_h5py_world = [].
Proof. split; reflexivity. Qed.

(** C4 (amended).  When the backend is unavailable, [save_checkpoint],
    [load_checkpoint] and [dicttoh5] re-raise the import-time failure and
    touch nothing; [dump] with a container format logs an error record and
    re-raises it; and so does [load] with a container format once its source
    is resolved (the path opened for reading, or the name of the stream
    read). *)
Theorem missing_backend_reraised
    (json_text : pyval -> option nat -> outcome string)
    (json_parse : string -> outcome pyval)
    (config_text : pyval -> outcome string)
    (config_read : gmap string fdata -> string -> outcome pyval)
    (e : exn) (w : world)
    (treedict : pydict) (h5file : pyfile) (h5path mode : string) (overwrite_data : bool)
    (args : option pydict)
    (fuel : nat) (path : string) (exclude_names : option (list string))
    (dfile : pyfile) (dfmat : option string) (dname : string)
    (lfile : pyfile) (lfmat : option string) (f : checkpoint.textio) (lname : string)
    (w' : world) :
  h5py_import w = Some e ->
  (dfmat = None -> checkpoint.name_or_self dfile w = (Ok dname, w)) ->
  container_format (dispatch_format dfmat dname) = true ->
  checkpoint.open_source lfile w = (Ok (f, lname), w') ->
  container_format (dispatch_format lfmat lname) = true ->
  checkpoint.save_checkpoint treedict h5file h5path mode overwrite_data args w = (Raise e, w)
  /\ checkpoint.load_checkpoint (S fuel) h5file path exclude_names w = (Raise e, w)
  /\ dic_to_h5.dicttoh5 treedict h5file h5path mode overwrite_data args w = (Raise e, w)
  /\ checkpoint.dump json_text config_text treedict dfile mode dfmat w
     = (Raise e, emit (LogError "Cannot dump to HDF5 format, missing h5py library") w)
  /\ checkpoint.load json_parse config_read fuel lfile lfmat w
     = (Raise e, emit (LogError "Cannot load from HDF5 format, missing h5py library") w').
Proof.
  intros Hmiss Hname Hd Hopen Hl. repeat split.
  - apply save_checkpoint_missing_backend, Hmiss.
  - apply load_checkpoint_missing_backend, Hmiss.
  - apply dicttoh5_missing_backend, Hmiss.
  - eapply dump_missing_backend; eassumption.
  - eapply load_missing_backend; eassumption.
Qed.

Lemma missing_backend_reraised_witness :
  let w := no_h5py_text_world "in.h5" "" in
  let e := ImportError "No module named 'h5py'" in
  let w' := snd (checkpoint.open_source (FileName "in.h5") w) in
  checkpoint.save_checkpoint DNil (FileName "out.h5") "/" "w" false None w = (Raise e, w)
  /\ checkpoint.load_checkpoint 1 (FileName "out.h5") "/" None w = (Raise e, w)
  /\ dic_to_h5.dicttoh5 DNil (FileName "out.h5") "/" "w" false None w = (Raise e, w)
  /\ checkpoint.dump sample_json_text sample_config_text DNil (FileName "out.H5") "w" None w
     = (Raise e, emit (LogError "Cannot dump to HDF5 format, missing h5py library") w)
  /\ checkpoint.load sample_json_parse sample_config_read 0 (FileName "in.h5") (Some "hdf5") w
     = (Raise e, emit (LogError "Cannot load from HDF5 format, missing h5py library") w').
Proof.
  cbv zeta.
  apply (missing_backend_reraised sample_json_text sample_json_parse sample_config_text
           sample_config_read (ImportError "No module named 'h5py'")
           (no_h5py_text_world "in.h5" "")
           DNil (FileName "out.h5") "/" "w" false None 0 "/" None
           (FileName "out.H5") None "out.H5"
           (FileName "in.h5") (Some "hdf5") (checkpoint.TextHandle "in.h5") "in.h5"
           (snd (checkpoint.open_source (FileName "in.h5") (no_h5py_text_world "in.h5" "")))).
  - reflexivity.
  - intros _. reflexivity.
  - reflexivity.
  - vm_compute. reflexivity.
  - reflexivity.
Defined.

(** ** The leaf encoders *)

Lemma checkpoint_encoder_steps (v : pyval) :
  checkpoint._prepare_hdf5_dataset v
  = (get x <- simple_string v;
     get y <- (if negb (isinstance_int x) then cpu_numpy x else Ok x);
     ensure_array y).
Proof. reflexivity. Qed.

Lemma legacy_encoder_steps (v : pyval) :
  dic_to_h5._prepare_hdf5_dataset v
  = (get x <- simple_string v;
     get array <- ensure_array x;
     match array with
     | NpString _ => Ok array
     | NdArray a =>
       if checkpoint.in_list (PyStr.lower (kind (dtype_of a))) ["s"; "u"]
       then get a' <- astype_string a; Ok (NdArray a')
       else Ok array
     end).
Proof. reflexivity. Qed.

(** What the tensor-aware encoder returns, case by case: integers go to
    [numpy.array], a tensor to its host array, and every other value stops at
    the [cpu] attribute; a [str] is first encoded as ASCII, which can fail on
    its own. *)
Lemma checkpoint_encoder_cases (v : pyval) :
  checkpoint._prepare_hdf5_dataset v
  = match v with
    | PBool _ | PInt _ => get a <- np_array v; Ok (NdArray a)
    | PTensor t => get a <- Torch.numpy (Torch.cpu t); Ok (NdArray a)
    | PStr s => if PyStr.is_ascii s then Raise (AttributeError "cpu")
                else Raise UnicodeEncodeError
    | _ => Raise (AttributeError "cpu")
    end.
Proof.
  destruct v; try reflexivity.
  - unfold checkpoint._prepare_hdf5_dataset, string_. destruct (PyStr.is_ascii s); reflexivity.
  - unfold checkpoint._prepare_hdf5_dataset. simpl.
    destruct (Torch.numpy (Torch.cpu t)); reflexivity.
Qed.

Lemma encode_items_text (l : list string) :
  encode_items (map IStr l)
  = if forallb PyStr.is_ascii l then Ok (map IBytes l) else Raise UnicodeEncodeError.
Proof.
  induction l as [|s l IH]; [reflexivity|].
  simpl. destruct (PyStr.is_ascii s); simpl; [|reflexivity].
  rewrite IH. destruct (forallb PyStr.is_ascii l); reflexivity.
Qed.

Lemma textual_kind_test (d : dtype) :
  textual d = true -> checkpoint.in_list (PyStr.lower (kind d)) ["s"; "u"] = true.
Proof. destruct d; simpl; try discriminate; reflexivity. Qed.

(** C2 (the code departs from it).  A plain string never gets through the
    tensor-aware encoder: once it is a byte-string scalar, the detach step
    asks it for [cpu] and raises an attribute error, which is no failure of
    the array constructor.  The older encoder returns the scalar. *)
Theorem prepare_hdf5_dataset_rejects_strings (s : string) :
  checkpoint._prepare_hdf5_dataset (PStr s)
  = Raise (if PyStr.is_ascii s then AttributeError "cpu" else UnicodeEncodeError)
  /\ dic_to_h5._prepare_hdf5_dataset (PStr s)
     = (if PyStr.is_ascii s then Ok (NpString s) else Raise UnicodeEncodeError)
  /\ checkpoint._prepare_hdf5_dataset (PStr "hello") = Raise (AttributeError "cpu")
  /\ checkpoint._prepare_hdf5_dataset (PFloat 4609434218613702656)
     = Raise (AttributeError "cpu").
Proof.
  repeat split; try reflexivity.
  - rewrite checkpoint_encoder_cases. destruct (PyStr.is_ascii s); reflexivity.
  - unfold dic_to_h5._prepare_hdf5_dataset, string_. destruct (PyStr.is_ascii s); reflexivity.
Qed.

(** C8, as stated, fails: text outside ASCII makes the re-coercion itself
    fail, so the list is not turned into a byte-string array. *)
Lemma legacy_encoder_non_ascii_list :
  dic_to_h5._prepare_hdf5_dataset (PStrList [isere]) = Raise UnicodeEncodeError
  /\ np_array (PStrList [isere])
     = Ok (mk_ndarray (DUnicode 5) [1] [IStr isere]).
Proof. split; reflexivity. Qed.

(** C8 (amended).  Whenever the array built by the older encoder has a
    textual element kind, the encoder returns the re-coercion of the whole
    array to fixed-width byte strings, which is the byte-string array when
    all of the text is ASCII and the encoding error otherwise.  In
    particular a non-empty list of native strings is returned as the
    byte-string array of its entries when they are all ASCII, and fails with
    the encoding error when one is not. *)
Theorem legacy_textual_arrays_recoerced (v x : pyval) (a : ndarray) (l : list string) :
  simple_string v = Ok x ->
  ensure_array x = Ok (NdArray a) ->
  textual (dtype_of a) = true ->
  l <> [] ->
  dic_to_h5._prepare_hdf5_dataset v = (get a' <- astype_string a; Ok (NdArray a'))
  /\ (forall a', astype_string a = Ok a' ->
                 exists w, dtype_of a' = DBytes w /\ shape a' = shape a)
  /\ dic_to_h5._prepare_hdf5_dataset (PStrList l)
     = (if forallb PyStr.is_ascii l then Ok (NdArray (bytes_array l))
        else Raise UnicodeEncodeError).
Proof.
  intros Hx Ha Htext Hl. repeat split.
  - rewrite legacy_encoder_steps, Hx. cbn [and_then]. rewrite Ha. cbn [and_then].
    rewrite (textual_kind_test _ Htext). reflexivity.
  - intros a' Ha'. unfold astype_string in Ha'.
    destruct (dtype_of a) eqn:Hd; try discriminate Htext.
    + inversion Ha'; subst a'. eauto.
    + destruct (encode_items (items a)); simpl in Ha'; inversion Ha'; subst a'. simpl. eauto.
  - destruct l as [|s l]; [congruence|].
    unfold dic_to_h5._prepare_hdf5_dataset. simpl simple_string.
    cbn [and_then np_array]. cbn [dtype_of kind PyStr.lower].
    change (checkpoint.in_list (PyStr.lower "U") ["s"; "u"]) with true. cbv iota.
    unfold astype_string. cbn [dtype_of items shape].
    rewrite encode_items_text.
    destruct (forallb PyStr.is_ascii (s :: l)); reflexivity.
Qed.

Lemma legacy_textual_arrays_recoerced_witness :
  dic_to_h5._prepare_hdf5_dataset (PArray (mk_ndarray (DUnicode 2) [1] [IStr "ab"]))
  = Ok (NdArray (mk_ndarray (DBytes 2) [1] [IBytes "ab"]))
  /\ dic_to_h5._prepare_hdf5_dataset (PStrList ["ab"; "c"])
     = Ok (NdArray (mk_ndarray (DBytes 2) [2] [IBytes "ab"; IBytes "c"])).
Proof.
  pose proof (legacy_textual_arrays_recoerced
                (PArray (mk_ndarray (DUnicode 2) [1] [IStr "ab"]))
                (PArray (mk_ndarray (DUnicode 2) [1] [IStr "ab"]))
                (mk_ndarray (DUnicode 2) [1] [IStr "ab"]) ["ab"; "c"]
                eq_refl eq_refl eq_refl ltac:(discriminate)) as (H1 & _ & H2).
  split; [exact H1 | exact H2].
Defined.

(** ** The two writers follow one traversal *)

Lemma save_checkpoint_unfold (treedict : pydict) (h5file : pyfile) (h5path mode : string)
    (overwrite_data : bool) (args : option pydict) :
  checkpoint.save_checkpoint treedict h5file h5path mode overwrite_data args
  = (do missing <- Backend.h5py_missing;
     if missing then Backend.raise_h5py_import_error else
     do h5f <- match h5file with
               | H5File h => ret h
               | _ => h5py_File h5file mode
               end;
     run save_loop h5f (with_slash h5path) overwrite_data args treedict;
     match h5file with
     | FileName _ => Backend.close h5f
     | _ => ret tt
     end).
Proof. destruct treedict; reflexivity. Qed.

Lemma dicttoh5_unfold (treedict : pydict) (h5file : pyfile) (h5path mode : string)
    (overwrite_data : bool) (args : option pydict) :
  dic_to_h5.dicttoh5 treedict h5file h5path mode overwrite_data args
  = (do missing <- Backend.h5py_missing;
     if missing then Backend.raise_h5py_import_error else
     do h5f <- match h5file with
               | H5File h => ret h
               | _ => h5py_File h5file mode
               end;
     run dicttoh5_loop h5f (with_slash h5path) overwrite_data args treedict;
     match h5file with
     | FileName _ => Backend.close h5f
     | _ => ret tt
     end).
Proof. destruct treedict; reflexivity. Qed.

(** The prologue and epilogue of a writer around the shared traversal. *)
Lemma nested_call_steps (body : string -> M unit) (body' : M unit) (h5f : string) (w : world) :
  (forall w', body h5f w' = body' w') ->
  (do missing <- Backend.h5py_missing;
   if missing then Backend.raise_h5py_import_error else
   do h <- ret h5f;
   run body h;
   ret tt) w
  = (do missing <- Backend.h5py_missing;
     if missing then Backend.raise_h5py_import_error else
     run body';
     ret tt) w.
Proof.
  intros H. apply bind_ext; [reflexivity|]. intros [|] w'; [reflexivity|].
  unfold bind at 1. unfold ret at 1. cbv beta iota.
  apply bind_ext; [apply H|reflexivity].
Qed.

Lemma save_loop_items (d : pydict) :
  forall (h5f h5path : string) (overwrite_data : bool) (args : option pydict) (w : world),
    save_loop h5f h5path overwrite_data args d w
    = write_items checkpoint._prepare_hdf5_dataset d h5f h5path args w.
Proof.
  induction d as [| | | | | | | | |sub IHsub| |key value IHvalue rest IHrest]
    using pydict_mut
    with (P := fun v => match v with
                        | PDict sub =>
                          forall h5f h5path overwrite_data args w,
                            save_loop h5f h5path overwrite_data args sub w
                            = write_items checkpoint._prepare_hdf5_dataset sub h5f h5path args w
                        | _ => True
                        end); try exact I; try exact IHsub.
  - reflexivity.
  - intros h5f h5path overwrite_data args w.
    change (save_loop h5f h5path overwrite_data args (DCons key value rest))
      with (run match value with
                | PDict sub =>
                  if (0 <? dict_len sub)%nat then
                    checkpoint.save_checkpoint sub (H5File h5f) (h5path +:+ key) "w"
                                               overwrite_data args
                  else Backend.create_group h5f (h5path +:+ key)
                | PNone => Backend.create_group h5f (h5path +:+ key)
                | _ =>
                  do ds <- lift (checkpoint._prepare_hdf5_dataset value);
                  if bool_decide (np_shape ds = [])
                     || match args with None => true | Some _ => false end
                  then Backend.create_dataset h5f (h5path +:+ key) ds None
                  else Backend.create_dataset h5f (h5path +:+ key) ds args
                end;
            save_loop h5f h5path overwrite_data args rest).
    cbn [write_items].
    apply bind_ext; [|intros; apply IHrest].
    destruct value; try reflexivity.
    destruct (0 <? dict_len d)%nat; [|reflexivity].
    rewrite save_checkpoint_unfold.
    apply (nested_call_steps
             (fun h => save_loop h (with_slash (h5path +:+ key)) overwrite_data args d)).
    intros w'. apply IHvalue.
Qed.

Lemma dicttoh5_loop_items (d : pydict) :
  forall (h5f h5path : string) (overwrite_data : bool) (args : option pydict) (w : world),
    dicttoh5_loop h5f h5path overwrite_data args d w
    = write_items dic_to_h5._prepare_hdf5_dataset d h5f h5path args w.
Proof.
  induction d as [| | | | | | | | |sub IHsub| |key value IHvalue rest IHrest]
    using pydict_mut
    with (P := fun v => match v with
                        | PDict sub =>
                          forall h5f h5path overwrite_data args w,
                            dicttoh5_loop h5f h5path overwrite_data args sub w
                            = write_items dic_to_h5._prepare_hdf5_dataset sub h5f h5path args w
                        | _ => True
                        end); try exact I; try exact IHsub.
  - reflexivity.
  - intros h5f h5path overwrite_data args w.
    change (dicttoh5_loop h5f h5path overwrite_data args (DCons key value rest))
      with (run match value with
                | PDict sub =>
                  if (0 <? dict_len sub)%nat then
                    dic_to_h5.dicttoh5 sub (H5File h5f) (h5path +:+ key) "w"
                                       overwrite_data args
                  else Backend.create_group h5f (h5path +:+ key)
                | PNone => Backend.create_group h5f (h5path +:+ key)
                | _ =>
                  do ds <- lift (dic_to_h5._prepare_hdf5_dataset value);
                  if bool_decide (np_shape ds = [])
                     || match args with None => true | Some _ => false end
                  then Backend.create_dataset h5f (h5path +:+ key) ds None
                  else Backend.create_dataset h5f (h5path +:+ key) ds args
                end;
            dicttoh5_loop h5f h5path overwrite_data args rest).
    cbn [write_items].
    apply bind_ext; [|intros; apply IHrest].
    destruct value; try reflexivity.
    destruct (0 <? dict_len d)%nat; [|reflexivity].
    rewrite dicttoh5_unfold.
    apply (nested_call_steps
             (fun h => dicttoh5_loop h (with_slash (h5path +:+ key)) overwrite_data args d)).
    intros w'. apply IHvalue.
Qed.

Lemma save_checkpoint_writer (treedict : pydict) (h5file : pyfile) (h5path mode : string)
    (overwrite_data : bool) (args : option pydict) (w : world) :
  checkpoint.save_checkpoint treedict h5file h5path mode overwrite_data args w
  = writer_of checkpoint._prepare_hdf5_dataset treedict h5file h5path mode args w.
Proof.
  rewrite save_checkpoint_unfold. unfold writer_of.
  apply bind_ext; [reflexivity|]. intros [|] w1; [reflexivity|].
  apply bind_ext; [reflexivity|]. intros h5f w2.
  apply bind_ext; [apply save_loop_items|reflexivity].
Qed.

Lemma dicttoh5_writer (treedict : pydict) (h5file : pyfile) (h5path mode : string)
    (overwrite_data : bool) (args : option pydict) (w : world) :
  dic_to_h5.dicttoh5 treedict h5file h5path mode overwrite_data args w
  = writer_of dic_to_h5._prepare_hdf5_dataset treedict h5file h5path mode args w.
Proof.
  rewrite dicttoh5_unfold. unfold writer_of.
  apply bind_ext; [reflexivity|]. intros [|] w1; [reflexivity|].
  apply bind_ext; [reflexivity|]. intros h5f w2.
  apply bind_ext; [apply dicttoh5_loop_items|reflexivity].
Qed.

(** ** The two writers on the leaves both encoders accept *)

Lemma int64_or_wide (z : Z) :
  ((2 ^ 63 <=? z) && (z <? 2 ^ 64))%Z = false ->
  ((- 2 ^ 63 <=? z) && (z <? 2 ^ 63))%Z = false ->
  ((0 <=? z) && (z <? 2 ^ 64))%Z = false.
Proof.
  change (2 ^ 63)%Z with 9223372036854775808%Z.
  change (2 ^ 64)%Z with 18446744073709551616%Z.
  rewrite !andb_false_iff, !Z.leb_gt, !Z.ltb_ge. lia.
Qed.

Lemma encoders_agree (v : pyval) :
  agreeing_leaf v = true ->
  v <> PNone ->
  checkpoint._prepare_hdf5_dataset v = dic_to_h5._prepare_hdf5_dataset v.
Proof.
  intros Hv Hnone. destruct v; try discriminate Hv; try congruence.
  - reflexivity.
  - simpl in Hv. apply negb_true_iff in Hv.
    unfold checkpoint._prepare_hdf5_dataset, dic_to_h5._prepare_hdf5_dataset.
    cbn [simple_string isinstance_int negb and_then np_array].
    destruct ((- 2 ^ 63 <=? z) && (z <? 2 ^ 63))%Z eqn:H64; [reflexivity|].
    rewrite (int64_or_wide z Hv H64). reflexivity.
  - destruct t as [dev rg dt sh its]. simpl in Hv.
    destruct dev; [|discriminate Hv].
    unfold checkpoint._prepare_hdf5_dataset, dic_to_h5._prepare_hdf5_dataset.
    cbn [isinstance_int negb and_then np_array cpu_numpy].
    unfold Torch.cpu, Torch.numpy. cbn.
    destruct rg; [reflexivity|].
    destruct dt; try discriminate Hv; reflexivity.
Qed.

Lemma write_items_agree (d : pydict) :
  agreeing_tree d = true ->
  forall (h5f h5path : string) (args : option pydict) (w : world),
    write_items checkpoint._prepare_hdf5_dataset d h5f h5path args w
    = write_items dic_to_h5._prepare_hdf5_dataset d h5f h5path args w.
Proof.
  induction d as [| | | | | | | | |sub IHsub| |key value IHvalue rest IHrest]
    using pydict_mut
    with (P := fun v => match v with
                        | PDict sub =>
                          agreeing_tree sub = true ->
                          forall h5f h5path args w,
                            write_items checkpoint._prepare_hdf5_dataset sub h5f h5path args w
                            = write_items dic_to_h5._prepare_hdf5_dataset sub h5f h5path args w
                        | _ => True
                        end); try exact I; try exact IHsub.
  - reflexivity.
  - intros Hd h5f h5path args w. simpl in Hd. apply andb_true_iff in Hd as [Hv Hrest].
    cbn [write_items].
    apply bind_ext; [|intros; apply IHrest; assumption].
    destruct value; try reflexivity;
      try (rewrite (encoders_agree _ Hv) by discriminate; reflexivity);
      try discriminate Hv.
    destruct (0 <? dict_len d)%nat; [|reflexivity].
    apply bind_ext; [reflexivity|]. intros [|] w1; [reflexivity|].
    apply bind_ext; [|reflexivity]. apply IHvalue. exact Hv.
Qed.

(** C3, as stated, fails: a tensor in device memory is written by
    [save_checkpoint], which copies it to the host, and refused by
    [dicttoh5], which has no such step; a numeric array (and any numeric
    leaf that is neither an integer nor a tensor) is written by [dicttoh5]
    and stops [save_checkpoint] at the [cpu] attribute; and a tensor of
    unsigned bytes is stored as numbers by one and as text by the other. *)
Lemma writers_differ_on_numeric_array :
  let a := mk_ndarray (DInt 8) [3] [IInt 1; IInt 2; IInt 3] in
  let tree := DCons "x" (PArray a) DNil in
  let t := Torch.mk_tensor Torch.Cpu false Torch.TUInt8 [2] [IInt 1; IInt 2] in
  let tree' := DCons "m" (PTensor t) DNil in
  let c := Torch.mk_tensor (Torch.Cuda 0) false Torch.TFloat32 [1] [IFloat 0] in
  let tree'' := DCons "w" (PTensor c) DNil in
  fst (checkpoint.save_checkpoint tree'' (FileName "f.h5") "/" "w" false None empty_world)
  = Ok tt
  /\ fst (dic_to_h5.dicttoh5 tree'' (FileName "f.h5") "/" "w" false None empty_world)
     = Raise (TypeError "cannot convert a device tensor to numpy")
  /\ fst (checkpoint.save_checkpoint tree (FileName "f.h5") "/" "w" false None empty_world)
     = Raise (AttributeError "cpu")
  /\ fst (dic_to_h5.dicttoh5 tree (FileName "f.h5") "/" "w" false None empty_world) = Ok tt
  /\ files (snd (dic_to_h5.dicttoh5 tree (FileName "f.h5") "/" "w" false None empty_world))
       !! "f.h5"
     = Some (FContainer (Group {["x" := Dataset a DNil]}))
  /\ files (snd (checkpoint.save_checkpoint tree' (FileName "f.h5") "/" "w" false None
                                            empty_world)) !! "f.h5"
     = Some (FContainer (Group {["m" := Dataset (mk_ndarray (DUInt 1) [2] [IInt 1; IInt 2])
                                                DNil]}))
  /\ files (snd (dic_to_h5.dicttoh5 tree' (FileName "f.h5") "/" "w" false None empty_world))
       !! "f.h5"
     = Some (FContainer (Group {["m" := Dataset (mk_ndarray (DBytes 3) [2]
                                                            [IBytes "1"; IBytes "2"])
                                                DNil]})).
Proof. cbv zeta. repeat split; vm_compute; reflexivity. Qed.

(** C3 (amended).  On a dict tree whose leaves are integers outside the
    range that only an unsigned 64-bit element holds, booleans, or
    host-memory tensors that are not of an unsigned element type, [dicttoh5]
    and [save_checkpoint] are the same computation: the same outcome, the
    same backend calls, the same container. *)
Theorem writers_agree_on_integers_and_tensors (treedict : pydict) (h5file : pyfile)
    (h5path mode : string) (overwrite_data : bool) (args : option pydict) (w : world) :
  agreeing_tree treedict = true ->
  dic_to_h5.dicttoh5 treedict h5file h5path mode overwrite_data args w
  = checkpoint.save_checkpoint treedict h5file h5path mode overwrite_data args w.
Proof.
  intros H. rewrite dicttoh5_writer, save_checkpoint_writer. unfold writer_of.
  apply bind_ext; [reflexivity|]. intros [|] w1; [reflexivity|].
  apply bind_ext; [reflexivity|]. intros h5f w2.
  apply bind_ext; [|reflexivity]. symmetry. apply write_items_agree, H.
Qed.

Lemma writers_agree_on_integers_and_tensors_witness :
  let t := Torch.mk_tensor Torch.Cpu false Torch.TFloat32 [2] [IFloat 0; IFloat 1065353216] in
  let tree := DCons "epoch" (PInt 7)
                (DCons "model" (PDict (DCons "weight" (PTensor t) DNil)) DNil) in
  dic_to_h5.dicttoh5 tree (FileName "f.h5") "/" "w" false None empty_world
  = checkpoint.save_checkpoint tree (FileName "f.h5") "/" "w" false None empty_world.
Proof.
  cbv zeta.
  apply (writers_agree_on_integers_and_tensors
           (DCons "epoch" (PInt 7)
              (DCons "model"
                 (PDict (DCons "weight"
                           (PTensor (Torch.mk_tensor Torch.Cpu false Torch.TFloat32 [2]
                                                     [IFloat 0; IFloat 1065353216]))
                           DNil))
                 DNil))
           (FileName "f.h5") "/" "w" false None empty_world).
  reflexivity.
Defined.

(** ** The events a writer adds to the trace *)

Lemma extends_ret {A : Type} (good : event -> Prop) (a : A) : extends good (ret a).
Proof. intros w. exists []. split; [reflexivity|constructor]. Qed.

Lemma extends_raise {A : Type} (good : event -> Prop) (e : exn) : extends good (@raise A e).
Proof. intros w. exists []. split; [reflexivity|constructor]. Qed.

Lemma extends_lift {A : Type} (good : event -> Prop) (o : outcome A) : extends good (lift o).
Proof. intros w. exists []. split; [reflexivity|constructor]. Qed.

Lemma extends_log (good : event -> Prop) (e : event) : good e -> extends good (log e).
Proof. intros H w. exists [e]. split; [reflexivity|]. constructor; [exact H|constructor]. Qed.

Lemma extends_bind {A B : Type} (good : event -> Prop) (c : M A) (k : A -> M B) :
  extends good c -> (forall a, extends good (k a)) -> extends good (bind c k).
Proof.
  intros Hc Hk w. unfold bind. destruct (Hc w) as (new & Hnew & Hgood).
  destruct (c w) as [[a| |] w1]; simpl in *; try (exists new; split; assumption).
  destruct (Hk a w1) as (new' & Hnew' & Hgood').
  exists (new' ++ new). split.
  - rewrite Hnew', Hnew. apply app_assoc.
  - apply Forall_app. split; assumption.
Qed.

Lemma extends_silent {A : Type} (good : event -> Prop) (c : M A) :
  preserves trace c -> extends good c.
Proof. intros H w. exists []. split; [apply H|constructor]. Qed.

Lemma preserves_trace_root_of (h5f : string) : preserves trace (Backend.root_of h5f).
Proof. unfold Backend.root_of. by_cases_preserved. Qed.

Lemma preserves_trace_set_root (h5f : string) (root : node) :
  preserves trace (Backend.set_root h5f root).
Proof. intros w. reflexivity. Qed.

Lemma preserves_trace_h5py_missing : preserves trace Backend.h5py_missing.
Proof. intros w. reflexivity. Qed.

Lemma preserves_trace_raise_import {A : Type} :
  preserves trace (@Backend.raise_h5py_import_error A).
Proof. unfold Backend.raise_h5py_import_error. by_cases_preserved. Qed.

Lemma extends_create_group (good : event -> Prop) (h5f name : string) :
  good (CreateGroup h5f name) -> extends good (Backend.create_group h5f name).
Proof.
  intros H. unfold Backend.create_group.
  apply extends_bind; [apply extends_log, H|intros _].
  apply extends_bind; [apply extends_silent, preserves_trace_root_of|intros root].
  apply extends_bind; [apply extends_lift|intros root'].
  apply extends_silent, preserves_trace_set_root.
Qed.

Lemma extends_create_dataset (good : event -> Prop) (h5f name : string) (ds : npvalue)
    (kwargs : option pydict) :
  good (CreateDataset h5f name ds kwargs) ->
  extends good (Backend.create_dataset h5f name ds kwargs).
Proof.
  intros H. unfold Backend.create_dataset.
  apply extends_bind; [apply extends_log, H|intros _].
  apply extends_bind; [apply extends_silent, preserves_trace_root_of|intros root].
  apply extends_bind; [apply extends_lift|intros new].
  apply extends_bind; [apply extends_lift|intros root'].
  apply extends_silent, preserves_trace_set_root.
Qed.

Lemma extends_File (good : event -> Prop) (name mode : string) :
  good (FileOpen name mode) -> extends good (Backend.File name mode).
Proof.
  intros H w. exists [FileOpen name mode]. split; [|constructor; [exact H|constructor]].
  unfold Backend.File, Backend.open_container. repeat case_match; reflexivity.
Qed.

Lemma extends_close (good : event -> Prop) (h5f : string) :
  good (FileClose h5f) -> extends good (Backend.close h5f).
Proof.
  intros H w. exists [FileClose h5f]. split; [reflexivity|constructor; [exact H|constructor]].
Qed.

Lemma options_rule_scalar (args : option pydict) (h5f name : string) (ds : npvalue) :
  bool_decide (np_shape ds = []) || match args with None => true | Some _ => false end = true ->
  options_rule args (CreateDataset h5f name ds None).
Proof.
  intros H. simpl. split; [split|split].
  - intros [x Hx]. discriminate Hx.
  - intros [Hshape [a Ha]]. subst args. rewrite orb_false_r in H.
    apply bool_decide_eq_true in H. contradiction.
  - reflexivity.
  - intros [x Hx]. discriminate Hx.
Qed.

Lemma options_rule_array (args : option pydict) (h5f name : string) (ds : npvalue) :
  bool_decide (np_shape ds = []) || match args with None => true | Some _ => false end = false ->
  options_rule args (CreateDataset h5f name ds args).
Proof.
  intros H. apply orb_false_iff in H as [Hshape Hargs].
  apply bool_decide_eq_false in Hshape.
  destruct args as [a|]; [|discriminate Hargs].
  simpl. split; [split|split].
  - intros _. split; [exact Hshape|eauto].
  - intros _. eauto.
  - intros Hs. contradiction.
  - reflexivity.
Qed.

Lemma write_items_options_rule (enc : pyval -> outcome npvalue) (args : option pydict)
    (d : pydict) :
  forall h5f h5path, extends (options_rule args) (write_items enc d h5f h5path args).
Proof.
  induction d as [| | | | | | | | |sub IHsub| |key value IHvalue rest IHrest]
    using pydict_mut
    with (P := fun v => match v with
                        | PDict sub =>
                          forall h5f h5path,
                            extends (options_rule args) (write_items enc sub h5f h5path args)
                        | _ => True
                        end); try exact I; try exact IHsub.
  - intros. apply extends_ret.
  - intros h5f h5path. cbn [write_items].
    assert (Hleaf : extends (options_rule args)
              (do ds <- lift (enc value);
               if bool_decide (np_shape ds = [])
                  || match args with None => true | Some _ => false end
               then Backend.create_dataset h5f (h5path +:+ key) ds None
               else Backend.create_dataset h5f (h5path +:+ key) ds args)).
    { apply extends_bind; [apply extends_lift|intros ds].
      destruct (bool_decide (np_shape ds = [])
                || match args with None => true | Some _ => false end) eqn:Hc;
        apply extends_create_dataset.
      - apply options_rule_scalar, Hc.
      - apply options_rule_array, Hc. }
    apply extends_bind; [|intros _; apply IHrest].
    destruct value; try exact Hleaf.
    + apply extends_create_group. exact I.
    + destruct (0 <? dict_len d)%nat; [|apply extends_create_group; exact I].
      apply extends_bind; [apply extends_silent, preserves_trace_h5py_missing|].
      intros [|]; [apply extends_silent, preserves_trace_raise_import|].
      apply extends_bind; [apply IHvalue|intros _; apply extends_ret].
Qed.

Lemma writer_options_rule (enc : pyval -> outcome npvalue) (treedict : pydict)
    (h5file : pyfile) (h5path mode : string) (args : option pydict) :
  extends (options_rule args) (writer_of enc treedict h5file h5path mode args).
Proof.
  unfold writer_of.
  apply extends_bind; [apply extends_silent, preserves_trace_h5py_missing|].
  intros [|]; [apply extends_silent, preserves_trace_raise_import|].
  apply extends_bind.
  { destruct h5file; simpl; try apply extends_ret; try apply extends_raise.
    apply extends_File. exact I. }
  intros h5f. apply extends_bind; [apply write_items_options_rule|intros _].
  destruct h5file; try apply extends_ret. apply extends_close. exact I.
Qed.

(** ** The creation calls of a traversal *)















(** ** Text handles: what [load] leaves behind *)

Create HintDb text_frame.

Lemma text_state_h5py_missing : preserves text_state Backend.h5py_missing.
Proof. intros w. reflexivity. Qed.

Lemma text_state_raise_import {A : Type} :
  preserves text_state (@Backend.raise_h5py_import_error A).
Proof. unfold Backend.raise_h5py_import_error. by_cases_preserved. Qed.

Lemma text_state_logger_error (msg : string) : preserves text_state (Backend.logger_error msg).
Proof. intros w. reflexivity. Qed.

Lemma text_state_root_of (h5f : string) : preserves text_state (Backend.root_of h5f).
Proof. unfold Backend.root_of. by_cases_preserved. Qed.

Lemma text_state_getitem (h5f path : string) : preserves text_state (Backend.getitem h5f path).
Proof.
  unfold Backend.getitem. apply preserves_bind; [apply text_state_root_of|intros root].
  destruct (resolve (segments path) root); [apply preserves_ret|apply preserves_raise].
Qed.

Lemma text_state_iter_names (n : node) : preserves text_state (Backend.iter_names n).
Proof. unfold Backend.iter_names. by_cases_preserved. Qed.

Lemma text_state_read_all (n : node) : preserves text_state (Backend.read_all n).
Proof. unfold Backend.read_all. by_cases_preserved. Qed.

Lemma text_state_close (h5f : string) : preserves text_state (Backend.close h5f).
Proof. intros w. reflexivity. Qed.

Lemma text_state_h5open (x : pyfile) : preserves text_state (Utils.h5open x).
Proof. unfold Utils.h5open. by_cases_preserved. Qed.

Lemma text_state_as_handle (x : pyfile) : preserves text_state (checkpoint.as_handle x).
Proof. unfold checkpoint.as_handle. by_cases_preserved. Qed.

Lemma text_state_read_from (f : checkpoint.textio) : preserves text_state (checkpoint.read_from f).
Proof.
  unfold checkpoint.read_from, Backend.read_text, Backend.read_stream. by_cases_preserved.
Qed.

#[local] Hint Resolve text_state_h5py_missing text_state_raise_import text_state_logger_error
  text_state_root_of text_state_getitem text_state_iter_names text_state_read_all
  text_state_close text_state_h5open text_state_as_handle text_state_read_from : text_frame.

Ltac frame_steps db :=
  repeat first
    [ solve [auto with db]
    | apply preserves_ret | apply preserves_raise | apply preserves_lift
    | apply preserves_out_of_fuel
    | apply preserves_bind; [|intros ?]
    | match goal with
      | |- preserves _ (if ?b then _ else _) => destruct b
      end ].

Lemma text_state_load_checkpoint (fuel : nat) :
  forall (h5file : pyfile) (path : string) (exclude_names : option (list string)),
    preserves text_state (checkpoint.load_checkpoint fuel h5file path exclude_names).
Proof.
  induction fuel as [|fuel IH]; intros h5file path exclude_names; simpl.
  - apply preserves_out_of_fuel.
  - frame_steps text_frame.
    match goal with
    | |- preserves _ (_ ?keys) => induction keys as [|key rest IHkeys]
    end.
    + apply preserves_ret.
    + frame_steps text_frame; try apply IH; try exact IHkeys.
Qed.

Lemma open_source_opens (path : string) (w : world) :
  is_Some (files w !! path) ->
  exists w1, checkpoint.open_source (FileName path) w
             = (Ok (checkpoint.TextHandle path, path), w1)
             /\ text_state w1 = (path :: open_text w, text_closes (trace w)).
Proof.
  intros [x Hx]. eexists. split.
  - unfold checkpoint.open_source, checkpoint.builtin_open, checkpoint.as_name,
      Backend.open_, bind, ret. simpl. rewrite Hx. reflexivity.
  - reflexivity.
Qed.

(** C9 (the code departs from it).  When [load] is given a path that
    exists, the text handle it opened is still open when [load] completes,
    whatever the format and the outcome, and [load] closed no text handle. *)
Theorem load_leaves_its_handle_open
    (json_parse : string -> outcome pyval)
    (config_read : gmap string fdata -> string -> outcome pyval)
    (fuel : nat) (path : string) (fmat : option string) (w : world) :
  is_Some (files w !! path) ->
  let w' := snd (checkpoint.load json_parse config_read fuel (FileName path) fmat w) in
  open_text w' = path :: open_text w
  /\ text_closes (trace w') = text_closes (trace w).
Proof.
  intros Hfile. destruct (open_source_opens path w Hfile) as (w1 & Hopen & Hstate).
  cbv zeta. unfold checkpoint.load. rewrite (bind_ok _ _ _ _ _ Hopen).
  cbv zeta. cbn [fst snd].
  match goal with
  | |- open_text (snd (?c w1)) = _ /\ _ =>
    assert (Hp : preserves text_state c)
  end.
  { frame_steps text_frame. apply text_state_load_checkpoint. }
  specialize (Hp w1). rewrite Hstate in Hp. unfold text_state in Hp.
  inversion Hp. split; reflexivity.
Qed.

Lemma load_leaves_its_handle_open_witness :
  let w' := snd (checkpoint.load sample_json_parse sample_config_read 1 (FileName "d.json")
                                 None (text_world "d.json" "{}")) in
  open_text w' = ["d.json"] /\ text_closes (trace w') = 0.
Proof.
  apply (load_leaves_its_handle_open sample_json_parse sample_config_read 1 "d.json" None
                                     (text_world "d.json" "{}")).
  vm_compute. eauto.
Defined.

(** ** Paths *)

Lemma split_slash_cons (s : string) : exists seg segs, split_slash s = seg :: segs.
Proof.
  induction s as [|c r (seg & segs & IH)]; simpl; [eauto|].
  destruct (Ascii.eqb c "/"); [eauto|]. rewrite IH. eauto.
Qed.

Lemma split_slash_app (a b : string) :
  split_slash (a +:+ String "/" b) = split_slash a ++ split_slash b.
Proof.
  induction a as [|c r IH]; simpl; [reflexivity|].
  destruct (Ascii.eqb c "/"); [rewrite IH; reflexivity|].
  rewrite IH. destruct (split_slash_cons r) as (seg & segs & ->). reflexivity.
Qed.

Lemma no_slash_split (k : string) : no_slash k = true -> split_slash k = [k].
Proof.
  unfold no_slash. induction k as [|c r IH]; simpl; [reflexivity|].
  intros H. apply andb_true_iff in H as [Hc Hr].
  apply negb_true_iff in Hc. rewrite Hc, (IH Hr). reflexivity.
Qed.

Lemma segments_app (a b : string) :
  segments (a +:+ String "/" b) = segments a ++ segments b.
Proof. unfold segments. rewrite split_slash_app. apply List.filter_app. Qed.

Lemma segments_key (k : string) : valid_key k = true -> segments k = [k].
Proof.
  unfold valid_key, segments. intros H. apply andb_true_iff in H as [Hm Hs].
  rewrite (no_slash_split k Hs). simpl. rewrite Hm. reflexivity.
Qed.

Lemma ends_with_slash_inv (p : string) :
  PyStr.ends_with_slash p = true -> exists p', p = p' +:+ "/".
Proof.
  induction p as [|c r IH]; simpl; [discriminate|].
  destruct r as [|c' r'].
  - intros H. apply Ascii.eqb_eq in H. subst c. exists "". reflexivity.
  - intros H. destruct (IH H) as (p' & Hp'). exists (String c p').
    change (String c p' +:+ "/") with (String c (p' +:+ "/")). f_equal. exact Hp'.
Qed.

Lemma ends_with_slash_app (p : string) : PyStr.ends_with_slash (p +:+ "/") = true.
Proof.
  induction p as [|c r IH]; [reflexivity|].
  simpl. destruct (r +:+ "/") eqn:E; [destruct r; discriminate E|]. exact IH.
Qed.

Lemma with_slash_ends (p : string) : PyStr.ends_with_slash (with_slash p) = true.
Proof.
  unfold with_slash. destruct (PyStr.ends_with_slash p) eqn:E; [exact E|].
  apply ends_with_slash_app.
Qed.

Lemma segments_slash (p : string) : segments (p +:+ "/") = segments p.
Proof.
  change (p +:+ "/") with (p +:+ String "/" ""). rewrite segments_app.
  change (segments "") with (@nil string). apply app_nil_r.
Qed.

Lemma segments_with_slash (p : string) : segments (with_slash p) = segments p.
Proof.
  unfold with_slash. destruct (PyStr.ends_with_slash p); [reflexivity|apply segments_slash].
Qed.

Lemma append_assoc (a b c : string) : (a +:+ b) +:+ c = a +:+ (b +:+ c).
Proof.
  induction a as [|x a IH]; [reflexivity|].
  change (String x ((a +:+ b) +:+ c) = String x (a +:+ b +:+ c)). f_equal. exact IH.
Qed.

(** A key appended to a path that ends with the separator names the member
    [key] of the group at that path. *)
Lemma segments_child (p k : string) :
  PyStr.ends_with_slash p = true -> valid_key k = true ->
  segments (p +:+ k) = segments p ++ [k].
Proof.
  intros Hp Hk. destruct (ends_with_slash_inv p Hp) as (p' & ->).
  rewrite append_assoc. change ("/" +:+ k) with (String "/" k).
  rewrite segments_app, segments_slash, (segments_key k Hk). reflexivity.
Qed.

(** The same for the reader, which joins with a separator of its own. *)
Lemma segments_join (p k : string) :
  valid_key k = true -> segments (p +:+ "/" +:+ k) = segments p ++ [k].
Proof.
  intros Hk. change ("/" +:+ k) with (String "/" k).
  rewrite segments_app, (segments_key k Hk). reflexivity.
Qed.

(** ** Running the writers on an open container *)

Lemma and_then_ok {A B : Type} (o : outcome A) (k : A -> outcome B) (b : B) :
  and_then o k = Ok b -> exists a, o = Ok a /\ k a = Ok b.
Proof. destruct o as [a| |]; simpl; intros H; try discriminate H. eauto. Qed.

Lemma session_emit (h5f : string) (root : node) (e : event) (w : world) :
  session h5f root w -> session h5f root (emit e w).
Proof. intros H. exact H. Qed.

Lemma session_root_of (h5f : string) (root : node) (w : world) :
  session h5f root w -> Backend.root_of h5f w = (Ok root, w).
Proof.
  intros (_ & Hopen & Hfile). unfold Backend.root_of.
  rewrite (bool_decide_eq_true_2 _ Hopen), Hfile. reflexivity.
Qed.

Lemma session_set_root (h5f : string) (root root' : node) (w : world) :
  session h5f root w ->
  session h5f root' (set_files (<[h5f := FContainer root']> (files w)) w).
Proof.
  intros (Himp & Hopen & _). repeat split; [exact Himp|exact Hopen|].
  simpl. apply lookup_insert_eq.
Qed.

Lemma session_h5py_missing (h5f : string) (root : node) (w : world) :
  session h5f root w -> Backend.h5py_missing w = (Ok false, w).
Proof. intros (Himp & _). unfold Backend.h5py_missing. rewrite Himp. reflexivity. Qed.

Lemma create_group_run (h5f name : string) (root root' : node) (w : world) :
  session h5f root w ->
  create_at (segments name) (Group ∅) root = Ok root' ->
  exists w', Backend.create_group h5f name w = (Ok tt, w') /\ session h5f root' w'.
Proof.
  intros Hs Hc. eexists. split.
  - unfold Backend.create_group.
    unfold bind at 1. unfold log at 1.
    rewrite (bind_ok _ _ _ _ _ (session_root_of _ _ _ (session_emit _ _ _ _ Hs))).
    unfold bind at 1, lift at 1. rewrite Hc. reflexivity.
  - apply session_set_root with (root := root). apply session_emit, Hs.
Qed.

Lemma create_dataset_run (h5f name : string) (ds : npvalue) (kwargs : option pydict)
    (new root root' : node) (w : world) :
  session h5f root w ->
  Backend.dataset_node ds kwargs = Ok new ->
  create_at (segments name) new root = Ok root' ->
  exists w', Backend.create_dataset h5f name ds kwargs w = (Ok tt, w') /\ session h5f root' w'.
Proof.
  intros Hs Hn Hc. eexists. split.
  - unfold Backend.create_dataset.
    unfold bind at 1. unfold log at 1.
    rewrite (bind_ok _ _ _ _ _ (session_root_of _ _ _ (session_emit _ _ _ _ Hs))).
    unfold bind at 1, lift at 1. rewrite Hn.
    unfold bind at 1, lift at 1. rewrite Hc. reflexivity.
  - apply session_set_root with (root := root). apply session_emit, Hs.
Qed.

(** The options either branch of the scalar test hands to the backend. *)
Lemma passed_options (h5f name : string) (ds : npvalue) (args : option pydict) :
  (if bool_decide (np_shape ds = []) || match args with None => true | Some _ => false end
   then Backend.create_dataset h5f name ds None
   else Backend.create_dataset h5f name ds args)
  = Backend.create_dataset h5f name ds (options_for ds args).
Proof.
  unfold options_for. destruct (bool_decide (np_shape ds = [])); simpl; [reflexivity|].
  destruct args; reflexivity.
Qed.

Lemma write_items_run (enc : pyval -> outcome npvalue) (args : option pydict) (d : pydict) :
  forall (h5f h5path : string) (root root' : node) (w : world),
    session h5f root w ->
    write_into enc args d h5path root = Ok root' ->
    exists w', write_items enc d h5f h5path args w = (Ok tt, w') /\ session h5f root' w'.
Proof.
  induction d as [| | | | | | | | |sub IHsub| |key value IHvalue rest IHrest]
    using pydict_mut
    with (P := fun v => match v with
                        | PDict sub =>
                          forall h5f h5path root root' w,
                            session h5f root w ->
                            write_into enc args sub h5path root = Ok root' ->
                            exists w', write_items enc sub h5f h5path args w = (Ok tt, w')
                                       /\ session h5f root' w'
                        | _ => True
                        end); try exact I; try exact IHsub.
  - intros h5f h5path root root' w Hs H. inversion H; subst. eauto.
  - intros h5f h5path root root' w Hs H. cbn [write_into] in H.
    apply and_then_ok in H as (root1 & Hstep & Hrest).
    cbn [write_items].
    assert (Hfirst : exists w1,
      match value with
      | PDict sub =>
        if (0 <? dict_len sub)%nat then
          do missing <- Backend.h5py_missing;
          if missing then Backend.raise_h5py_import_error else
          run write_items enc sub h5f (with_slash (h5path +:+ key)) args;
          ret tt
        else Backend.create_group h5f (h5path +:+ key)
      | PNone => Backend.create_group h5f (h5path +:+ key)
      | _ =>
        do ds <- lift (enc value);
        if bool_decide (np_shape ds = [])
           || match args with None => true | Some _ => false end
        then Backend.create_dataset h5f (h5path +:+ key) ds None
        else Backend.create_dataset h5f (h5path +:+ key) ds args
      end w = (Ok tt, w1) /\ session h5f root1 w1).
    { assert (Hleaf : forall v,
        (get ds <- enc v;
         get new <- Backend.dataset_node ds (options_for ds args);
         create_at (segments (h5path +:+ key)) new root) = Ok root1 ->
        exists w1,
          (do ds <- lift (enc v);
           if bool_decide (np_shape ds = [])
              || match args with None => true | Some _ => false end
           then Backend.create_dataset h5f (h5path +:+ key) ds None
           else Backend.create_dataset h5f (h5path +:+ key) ds args) w = (Ok tt, w1)
          /\ session h5f root1 w1).
      { intros v Hv. apply and_then_ok in Hv as (ds & Henc & Hv).
        apply and_then_ok in Hv as (new & Hnew & Hcreate).
        destruct (create_dataset_run h5f (h5path +:+ key) ds (options_for ds args)
                    new root root1 w Hs Hnew Hcreate) as (w1 & Hrun & Hs1).
        exists w1. split; [|exact Hs1].
        unfold bind at 1, lift at 1. rewrite Henc. rewrite passed_options. exact Hrun. }
      destruct value; try (apply Hleaf; exact Hstep).
      - apply create_group_run with (root := root); assumption.
      - destruct (0 <? dict_len d)%nat.
        + destruct (IHvalue h5f _ root root1 w Hs Hstep) as (w1 & Hrun & Hs1).
          exists w1. split; [|exact Hs1].
          rewrite (bind_ok _ _ _ _ _ (session_h5py_missing _ _ _ Hs)).
          rewrite (bind_ok _ _ _ _ _ Hrun). reflexivity.
        + apply create_group_run with (root := root); assumption. }
    destruct Hfirst as (w1 & Hrun1 & Hs1).
    destruct (IHrest h5f h5path root1 root' w1 Hs1 Hrest) as (w' & Hrun & Hs').
    exists w'. split; [|exact Hs'].
    rewrite (bind_ok _ _ _ _ _ Hrun1). exact Hrun.
Qed.

(** A writer given a file name and mode "w": the container it leaves in the
    file is what the traversal builds from the empty root. *)
Lemma writer_run (enc : pyval -> outcome npvalue) (treedict : pydict) (name h5path : string)
    (args : option pydict) (root' : node) (w : world) :
  h5py_import w = None ->
  name ∉ open_h5 w ->
  write_into enc args treedict (with_slash h5path) (Group ∅) = Ok root' ->
  exists w', writer_of enc treedict (FileName name) h5path "w" args w = (Ok tt, w')
             /\ h5py_import w' = None
             /\ files w' !! name = Some (FContainer root').
Proof.
  intros Himp Hclosed Hinto. unfold writer_of.
  assert (Hmiss : Backend.h5py_missing w = (Ok false, w)).
  { unfold Backend.h5py_missing. rewrite Himp. reflexivity. }
  rewrite (bind_ok _ _ _ _ _ Hmiss).
  set (w1 := set_open_h5 (name :: open_h5 (emit (FileOpen name "w") w))
               (set_files (<[name := FContainer (Group ∅)]> (files (emit (FileOpen name "w") w)))
                          (emit (FileOpen name "w") w))).
  assert (Hopen : h5py_File (FileName name) "w" w = (Ok name, w1)).
  { unfold h5py_File, Backend.File. cbn [String.eqb Ascii.eqb Bool.eqb orb].
    change (open_h5 (emit (FileOpen name "w") w)) with (open_h5 w).
    rewrite (bool_decide_eq_false_2 _ Hclosed). reflexivity. }
  rewrite (bind_ok _ _ _ _ _ Hopen).
  assert (Hs1 : session name (Group ∅) w1).
  { repeat split; [exact Himp|apply list_elem_of_here|apply lookup_insert_eq]. }
  destruct (write_items_run enc args treedict name (with_slash h5path) (Group ∅) root' w1
              Hs1 Hinto) as (w2 & Hrun & (Himp2 & _ & Hfile2)).
  rewrite (bind_ok _ _ _ _ _ Hrun).
  eexists. split; [reflexivity|]. split; [exact Himp2|exact Hfile2].
Qed.

(** ** Running the reader on an open container *)

Lemma load_checkpoint_unfold (fuel : nat) (h5file : pyfile) (path : string)
    (exclude_names : option (list string)) :
  checkpoint.load_checkpoint (S fuel) h5file path exclude_names
  = (do missing <- Backend.h5py_missing;
     if missing then Backend.raise_h5py_import_error else
     do h5f <- (if negb (Utils.is_file h5file) then Utils.h5open h5file
                else checkpoint.as_handle h5file);
     do here <- Backend.getitem h5f path;
     do keys <- Backend.iter_names here;
     do ddict <- load_loop fuel h5f path exclude_names keys;
     run (if negb (Utils.is_file h5file) then Backend.close h5f else ret tt);
     ret ddict).
Proof. reflexivity. Qed.

Lemma read_tree_unfold (fuel : nat) (root : node) (path : string)
    (exclude_names : option (list string)) :
  read_tree (S fuel) root path exclude_names
  = (get here <- match resolve (segments path) root with
                 | Some n => Ok n
                 | None => Raise (KeyError path)
                 end;
     get keys <- Backend.names_of here;
     read_loop fuel root path exclude_names keys).
Proof. reflexivity. Qed.

Lemma and_then_ret {A : Type} (o : outcome A) : and_then o Ok = o.
Proof. destruct o; reflexivity. Qed.

(** A step that leaves the world alone, followed by steps that do. *)
Lemma bind_pure {A B : Type} (c : M A) (k : A -> M B) (o : outcome A) (k' : A -> outcome B)
    (w : world) :
  c w = (o, w) -> (forall a, k a w = (k' a, w)) -> bind c k w = (and_then o k', w).
Proof.
  intros Hc Hk. unfold bind. rewrite Hc. destruct o as [a| |]; simpl; [apply Hk| |]; reflexivity.
Qed.

Lemma session_getitem (h5f path : string) (root : node) (w : world) :
  session h5f root w ->
  Backend.getitem h5f path w
  = (match resolve (segments path) root with
     | Some n => Ok n
     | None => Raise (KeyError path)
     end, w).
Proof.
  intros Hs. unfold Backend.getitem.
  rewrite (bind_ok _ _ _ _ _ (session_root_of _ _ _ Hs)).
  destruct (resolve (segments path) root); reflexivity.
Qed.

Lemma load_loop_run (fuel : nat) (h5f path : string) (exclude_names : option (list string))
    (root : node) (w : world) (keys : list string) :
  session h5f root w ->
  (forall path', checkpoint.load_checkpoint fuel (H5File h5f) path' exclude_names w
                 = (read_tree fuel root path' exclude_names, w)) ->
  load_loop fuel h5f path exclude_names keys w
  = (read_loop fuel root path exclude_names keys, w).
Proof.
  intros Hs Hrec. induction keys as [|key rest IH]; [reflexivity|].
  cbn [load_loop read_loop].
  destruct (checkpoint._name_contains_string_in_list key exclude_names); [exact IH|].
  apply bind_pure; [apply session_getitem, Hs|]. intros child.
  apply bind_pure.
  - destruct (Utils.is_group child).
    + apply bind_pure; [apply Hrec|]. reflexivity.
    + apply bind_pure; [reflexivity|]. intros a.
      apply bind_pure; [reflexivity|]. reflexivity.
  - intros value. apply bind_pure; [exact IH|]. reflexivity.
Qed.

Lemma load_on_handle (fuel : nat) :
  forall (h5f path : string) (exclude_names : option (list string)) (root : node) (w : world),
    session h5f root w ->
    checkpoint.load_checkpoint fuel (H5File h5f) path exclude_names w
    = (read_tree fuel root path exclude_names, w).
Proof.
  induction fuel as [|fuel IH]; intros h5f path exclude_names root w Hs; [reflexivity|].
  rewrite load_checkpoint_unfold, read_tree_unfold.
  rewrite (bind_ok _ _ _ _ _ (session_h5py_missing _ _ _ Hs)).
  cbn [Utils.is_file negb checkpoint.as_handle].
  unfold bind at 1. unfold ret at 1. cbv beta iota.
  apply bind_pure; [apply session_getitem, Hs|]. intros here.
  apply bind_pure; [reflexivity|]. intros keys.
  rewrite <- (and_then_ret (read_loop fuel root path exclude_names keys)).
  apply bind_pure.
  - apply load_loop_run; [exact Hs|]. intros path'. apply IH, Hs.
  - intros ddict. reflexivity.
Qed.

(** Read from a file name: the outcome is that of [read_tree] on the root
    stored in the file. *)
Lemma load_from_name (fuel : nat) (name path : string) (exclude_names : option (list string))
    (root : node) (w : world) :
  h5py_import w = None ->
  files w !! name = Some (FContainer root) ->
  fst (checkpoint.load_checkpoint fuel (FileName name) path exclude_names w)
  = read_tree fuel root path exclude_names.
Proof.
  intros Himp Hfile. destruct fuel as [|fuel]; [reflexivity|].
  rewrite load_checkpoint_unfold, read_tree_unfold.
  assert (Hmiss : Backend.h5py_missing w = (Ok false, w)).
  { unfold Backend.h5py_missing. rewrite Himp. reflexivity. }
  rewrite (bind_ok _ _ _ _ _ Hmiss).
  cbn [Utils.is_file negb].
  set (w1 := set_open_h5 (name :: open_h5 (emit (FileOpen name "r") w))
                         (emit (FileOpen name "r") w)).
  assert (Hopen : Utils.h5open (FileName name) w = (Ok name, w1)).
  { unfold Utils.h5open. simpl. rewrite Hfile. reflexivity. }
  rewrite (bind_ok _ _ _ _ _ Hopen).
  assert (Hs : session name root w1).
  { repeat split; [exact Himp|apply list_elem_of_here|exact Hfile]. }
  rewrite (bind_step _ _ _ _ _ (session_getitem _ path _ _ Hs)).
  destruct (resolve (segments path) root) as [here|]; [|reflexivity].
  cbn [and_then]. unfold bind at 1, Backend.iter_names at 1, lift at 1.
  destruct (Backend.names_of here) as [keys| |]; [|reflexivity|reflexivity].
  cbn [and_then].
  rewrite (bind_step _ _ _ _ _
             (load_loop_run fuel name path exclude_names root w1 keys Hs
                (fun path' => load_on_handle fuel name path' exclude_names root w1 Hs))).
  destruct (read_loop fuel root path exclude_names keys); reflexivity.
Qed.

(** C7.  Writing [{"a": {}, "b": None}] from the root of a file that is not
    open leaves exactly two empty groups [a] and [b] in it, with either
    writer, and [load_checkpoint] reads the file back as
    [{"a": {}, "b": {}}]. *)
Theorem empty_groups_preserved (name : string) (overwrite_data : bool)
    (args : option pydict) (fuel : nat) (w : world) :
  h5py_import w = None ->
  name ∉ open_h5 w ->
  let tree := DCons "a" (PDict DNil) (DCons "b" PNone DNil) in
  let image := Group {["a" := Group ∅; "b" := Group ∅]} in
  let back := DCons "a" (PDict DNil) (DCons "b" (PDict DNil) DNil) in
  let saved := checkpoint.save_checkpoint tree (FileName name) "/" "w" overwrite_data args w in
  let written := dic_to_h5.dicttoh5 tree (FileName name) "/" "w" overwrite_data args w in
  (fst saved = Ok tt
   /\ files (snd saved) !! name = Some (FContainer image)
   /\ fst (checkpoint.load_checkpoint (S (S fuel)) (FileName name) "/" None (snd saved))
      = Ok back)
  /\ (fst written = Ok tt
      /\ files (snd written) !! name = Some (FContainer image)
      /\ fst (checkpoint.load_checkpoint (S (S fuel)) (FileName name) "/" None (snd written))
         = Ok back).
Proof.
  intros Himp Hclosed. cbv zeta.
  assert (Hgen : forall enc,
    let r := writer_of enc (DCons "a" (PDict DNil) (DCons "b" PNone DNil)) (FileName name)
                       "/" "w" args w in
    fst r = Ok tt
    /\ files (snd r) !! name = Some (FContainer (Group {["a" := Group ∅; "b" := Group ∅]}))
    /\ fst (checkpoint.load_checkpoint (S (S fuel)) (FileName name) "/" None (snd r))
       = Ok (DCons "a" (PDict DNil) (DCons "b" (PDict DNil) DNil))).
  { intros enc.
    destruct (writer_run enc (DCons "a" (PDict DNil) (DCons "b" PNone DNil)) name "/" args
                (Group {["a" := Group ∅; "b" := Group ∅]}) w Himp Hclosed)
      as (w' & Hrun & Himp' & Hfile').
    { vm_compute. reflexivity. }
    cbv zeta. rewrite Hrun. cbn [fst snd]. split; [reflexivity|]. split; [exact Hfile'|].
    rewrite (load_from_name _ _ _ _ _ _ Himp' Hfile'). vm_compute. reflexivity. }
  split.
  - rewrite save_checkpoint_writer. apply Hgen.
  - rewrite dicttoh5_writer. apply Hgen.
Qed.

Lemma empty_groups_preserved_witness :
  let tree := DCons "a" (PDict DNil) (DCons "b" PNone DNil) in
  let saved := checkpoint.save_checkpoint tree (FileName "f.h5") "/" "w" false None
                                          empty_world in
  fst saved = Ok tt
  /\ fst (checkpoint.load_checkpoint 2 (FileName "f.h5") "/" None (snd saved))
     = Ok (DCons "a" (PDict DNil) (DCons "b" (PDict DNil) DNil)).
Proof.
  pose proof (empty_groups_preserved "f.h5" false None 0 empty_world eq_refl
                                     (not_elem_of_nil "f.h5")) as H.
  cbv zeta in H. destruct H as ((H1 & _ & H3) & _). split; [exact H1|exact H3].
Defined.

(** ** The container a tree is written to *)

Lemma create_at_member (k : string) (new : node) (g : gmap string node) :
  g !! k = None -> create_at [k] new (Group g) = Ok (Group (<[k := new]> g)).
Proof. intros H. simpl. rewrite H. reflexivity. Qed.

Lemma create_at_under (k : string) (rest : list string) (new : node) (g : gmap string node) :
  rest <> [] ->
  create_at (k :: rest) new (Group g)
  = and_then (create_at rest new (default (Group ∅) (g !! k)))
             (fun c => Ok (Group (<[k := c]> g))).
Proof. intros H. destruct rest; [congruence|reflexivity]. Qed.

Lemma and_then_assoc {A B C : Type} (o : outcome A) (f : A -> outcome B) (g : B -> outcome C) :
  and_then (and_then o f) g = and_then o (fun a => and_then (f a) g).
Proof. destruct o; reflexivity. Qed.

Lemma and_then_ext {A B : Type} (o : outcome A) (f g : A -> outcome B) :
  (forall a, f a = g a) -> and_then o f = and_then o g.
Proof. intros H. destruct o; simpl; auto. Qed.

Lemma dict_len_positive (d : pydict) : (0 <? dict_len d)%nat = true -> d <> DNil.
Proof. destruct d; [discriminate|congruence]. Qed.

Lemma dict_len_zero (d : pydict) : (0 <? dict_len d)%nat = false -> d = DNil.
Proof. destruct d; [reflexivity|discriminate]. Qed.

(** Writing below the member [k] of a group is writing into that member:
    the member is created on the way if the group does not have it. *)
Lemma write_into_under (enc : pyval -> outcome npvalue) (args : option pydict) (d : pydict) :
  forall (p p' k : string) (pre : list string) (g : gmap string node),
    keys_ok d = true ->
    PyStr.ends_with_slash p = true -> PyStr.ends_with_slash p' = true ->
    segments p = k :: pre -> segments p' = pre ->
    d <> DNil \/ is_Some (g !! k) ->
    write_into enc args d p (Group g)
    = and_then (write_into enc args d p' (default (Group ∅) (g !! k)))
               (fun c => Ok (Group (<[k := c]> g))).
Proof.
  induction d as [| | | | | | | | |sub IHsub| |key value IHvalue rest IHrest]
    using pydict_mut
    with (P := fun v => match v with
                        | PDict sub =>
                          forall p p' k pre g,
                            keys_ok sub = true ->
                            PyStr.ends_with_slash p = true -> PyStr.ends_with_slash p' = true ->
                            segments p = k :: pre -> segments p' = pre ->
                            sub <> DNil \/ is_Some (g !! k) ->
                            write_into enc args sub p (Group g)
                            = and_then (write_into enc args sub p'
                                                   (default (Group ∅) (g !! k)))
                                       (fun c => Ok (Group (<[k := c]> g)))
                        | _ => True
                        end); try exact I; try exact IHsub.
  - intros p p' k pre g _ _ _ _ _ [H|[c Hc]]; [congruence|].
    simpl. rewrite Hc. simpl. rewrite (insert_id _ _ _ Hc). reflexivity.
  - intros p p' k pre g Hkeys Hp Hp' Hseg Hseg' _.
    simpl in Hkeys. apply andb_true_iff in Hkeys as [Hkeys Hkrest].
    apply andb_true_iff in Hkeys as [Hkey Hkvalue].
    assert (Hpath : segments (p +:+ key) = k :: (pre ++ [key])).
    { rewrite (segments_child p key Hp Hkey), Hseg. reflexivity. }
    assert (Hpath' : segments (p' +:+ key) = pre ++ [key]).
    { rewrite (segments_child p' key Hp' Hkey), Hseg'. reflexivity. }
    assert (Hne : pre ++ [key] <> []) by (destruct pre; discriminate).
    cbn [write_into].
    (* the first item *)
    assert (Hstep :
      match value with
      | PDict sub =>
        if (0 <? dict_len sub)%nat
        then write_into enc args sub (with_slash (p +:+ key)) (Group g)
        else create_at (segments (p +:+ key)) (Group ∅) (Group g)
      | PNone => create_at (segments (p +:+ key)) (Group ∅) (Group g)
      | _ =>
        get ds <- enc value;
        get new <- Backend.dataset_node ds (options_for ds args);
        create_at (segments (p +:+ key)) new (Group g)
      end
      = and_then
          match value with
          | PDict sub =>
            if (0 <? dict_len sub)%nat
            then write_into enc args sub (with_slash (p' +:+ key)) (default (Group ∅) (g !! k))
            else create_at (segments (p' +:+ key)) (Group ∅) (default (Group ∅) (g !! k))
          | PNone => create_at (segments (p' +:+ key)) (Group ∅) (default (Group ∅) (g !! k))
          | _ =>
            get ds <- enc value;
            get new <- Backend.dataset_node ds (options_for ds args);
            create_at (segments (p' +:+ key)) new (default (Group ∅) (g !! k))
          end
          (fun c => Ok (Group (<[k := c]> g)))).
    { assert (Hcreate : forall new,
        create_at (segments (p +:+ key)) new (Group g)
        = and_then (create_at (segments (p' +:+ key)) new (default (Group ∅) (g !! k)))
                   (fun c => Ok (Group (<[k := c]> g)))).
      { intros new. rewrite Hpath, Hpath'. apply create_at_under, Hne. }
      assert (Hleaf : forall v,
        (get ds <- enc v;
         get new <- Backend.dataset_node ds (options_for ds args);
         create_at (segments (p +:+ key)) new (Group g))
        = and_then (get ds <- enc v;
                    get new <- Backend.dataset_node ds (options_for ds args);
                    create_at (segments (p' +:+ key)) new (default (Group ∅) (g !! k)))
                   (fun c => Ok (Group (<[k := c]> g)))).
      { intros v. rewrite and_then_assoc. apply and_then_ext. intros ds.
        rewrite and_then_assoc. apply and_then_ext. intros new. apply Hcreate. }
      destruct value; try apply Hleaf; try apply Hcreate.
      destruct (0 <? dict_len d)%nat eqn:Hlen; [|apply Hcreate].
      apply (IHvalue _ _ k (pre ++ [key]) g Hkvalue (with_slash_ends _) (with_slash_ends _)).
      - rewrite segments_with_slash. exact Hpath.
      - rewrite segments_with_slash. exact Hpath'.
      - left. apply dict_len_positive, Hlen. }
    rewrite Hstep. rewrite !and_then_assoc. apply and_then_ext. intros c1. simpl.
    rewrite (IHrest p p' k pre (<[k := c1]> g) Hkrest Hp Hp' Hseg Hseg').
    + rewrite lookup_insert_eq. simpl. apply and_then_ext. intros c.
      rewrite insert_insert_eq. reflexivity.
    + right. rewrite lookup_insert_eq. eauto.
Qed.

Lemma dict_keys_get (d : pydict) (k : string) : k ∈ dict_keys d <-> is_Some (dict_get d k).
Proof.
  induction d as [|key value rest IH]; simpl.
  - split; [intros H; inversion H|intros [x Hx]; discriminate Hx].
  - unfold dict_keys in *. simpl. rewrite elem_of_cons.
    destruct (String.eqb_spec key k) as [->|Hne].
    + split; eauto.
    + rewrite IH. split; [intros [Heq|H]; [congruence|exact H]|intros H; right; exact H].
Qed.

Lemma fresh_key_get (d : pydict) (k : string) : fresh_key k d = true -> dict_get d k = None.
Proof.
  unfold fresh_key. intros H. apply negb_true_iff in H.
  destruct (dict_get d k) eqn:E; [|reflexivity]. exfalso.
  assert (Hin : k ∈ dict_keys d) by (apply dict_keys_get; eauto).
  assert (Hex : existsb (String.eqb k) (dict_keys d) = true).
  { apply existsb_exists. exists k. split; [apply list_elem_of_In, Hin|apply String.eqb_refl]. }
  congruence.
Qed.

Lemma members_of_lookup (enc : pyval -> outcome npvalue) (args : option pydict) (d : pydict)
    (k : string) :
  members_of enc args d !! k = node_of enc args <$> dict_get d k.
Proof.
  induction d as [|key value rest IH]; simpl; [apply lookup_empty|].
  destruct (String.eqb_spec key k) as [->|Hne].
  - apply lookup_insert_eq.
  - rewrite lookup_insert_ne by exact Hne. exact IH.
Qed.

Lemma tree_key_valid (k : string) : tree_key k = true -> valid_key k = true.
Proof. unfold tree_key. intros H. apply andb_true_iff in H as [H _]. exact H. Qed.

Lemma roundtrip_keys_ok (d : pydict) : roundtrip_tree d = true -> keys_ok d = true.
Proof.
  induction d as [| | | | | | | | |sub IHsub| |key value IHvalue rest IHrest]
    using pydict_mut
    with (P := fun v => roundtrip_value v = true -> keys_ok_value v = true);
    try (intros; reflexivity).
  - exact IHsub.
  - cbn [roundtrip_tree keys_ok]. intros H.
    apply andb_true_iff in H as [H Hrest]. apply andb_true_iff in H as [H Hvalue].
    apply andb_true_iff in H as [Hkey _]. apply tree_key_valid in Hkey.
    rewrite Hkey, (IHvalue Hvalue), (IHrest Hrest). reflexivity.
Qed.

Lemma torch_dtype_inv (d : dtype) (td : Torch.tdtype) :
  Torch.torch_dtype d = Some td -> Torch.numpy_dtype td = Some d.
Proof.
  destruct d as [|n|n|n| | |]; simpl; try discriminate;
    repeat (destruct n as [|n]; try discriminate);
    intros H; inversion H; reflexivity.
Qed.

Lemma torch_dtype_numpy (td : Torch.tdtype) (d : dtype) :
  Torch.numpy_dtype td = Some d -> Torch.torch_dtype d = Some td.
Proof. destruct td; simpl; intros H; inversion H; reflexivity. Qed.

Lemma torch_dtype_storable (d : dtype) (td : Torch.tdtype) :
  Torch.torch_dtype d = Some td -> storable d = true.
Proof. destruct d; simpl; try discriminate; reflexivity. Qed.

(** A leaf of a round-trip tree is encoded as an array of an element type
    torch knows, and that array is the array form of the leaf. *)
Lemma roundtrip_leaf_encoded (v : pyval) :
  roundtrip_value v = true -> is_mapping v = false ->
  exists a td, checkpoint._prepare_hdf5_dataset v = Ok (NdArray a)
               /\ array_form v = Ok a
               /\ Torch.torch_dtype (dtype_of a) = Some td.
Proof.
  intros Hv Hm. destruct v; try discriminate Hv; try discriminate Hm.
  - eexists _, _. repeat split; reflexivity.
  - simpl in Hv. unfold fits_int64 in Hv.
    rewrite checkpoint_encoder_cases. unfold array_form, np_array. rewrite Hv.
    eexists _, _. repeat split; reflexivity.
  - simpl in Hv. apply andb_true_iff in Hv as [Hv Hd]. apply negb_true_iff in Hv.
    rewrite checkpoint_encoder_cases. unfold array_form, Torch.numpy, Torch.cpu. simpl.
    rewrite Hv. destruct (Torch.numpy_dtype (Torch.tdtype_of t)) as [d|] eqn:E; [|discriminate Hd].
    eexists _, _. repeat split; try reflexivity. simpl. apply torch_dtype_numpy, E.
Qed.

Lemma dataset_node_ok (a : ndarray) (args : option pydict) :
  storable (dtype_of a) = true ->
  Backend.dataset_node (NdArray a) (options_for (NdArray a) args)
  = Ok (Dataset a (default DNil (options_for (NdArray a) args))).
Proof.
  intros Hs. unfold Backend.dataset_node, options_for. simpl. rewrite Hs. simpl.
  destruct (bool_decide (shape a = [])); reflexivity.
Qed.

Lemma node_of_leaf (args : option pydict) (v : pyval) (a : ndarray) :
  is_mapping v = false -> v <> PNone ->
  checkpoint._prepare_hdf5_dataset v = Ok (NdArray a) ->
  node_of checkpoint._prepare_hdf5_dataset args v
  = Dataset a (default DNil (options_for (NdArray a) args)).
Proof.
  intros Hm Hn He. destruct v; try discriminate Hm; try congruence;
    cbn [node_of]; rewrite He; reflexivity.
Qed.

Lemma roundtrip_not_none (v : pyval) : roundtrip_value v = true -> v <> PNone.
Proof. intros H ->. discriminate H. Qed.

(** Written at the root of a group that has none of its keys, a round-trip
    tree adds exactly its container image to the group. *)
Lemma write_into_roundtrip (args : option pydict) (d : pydict) :
  forall (p : string) (g : gmap string node),
    PyStr.ends_with_slash p = true -> segments p = [] ->
    roundtrip_tree d = true ->
    (forall k, k ∈ dict_keys d -> g !! k = None) ->
    write_into checkpoint._prepare_hdf5_dataset args d p (Group g)
    = Ok (Group (members_of checkpoint._prepare_hdf5_dataset args d ∪ g)).
Proof.
  induction d as [| | | | | | | | |sub IHsub| |key value IHvalue rest IHrest]
    using pydict_mut
    with (P := fun v => match v with
                        | PDict sub =>
                          forall p g,
                            PyStr.ends_with_slash p = true -> segments p = [] ->
                            roundtrip_tree sub = true ->
                            (forall k, k ∈ dict_keys sub -> g !! k = None) ->
                            write_into checkpoint._prepare_hdf5_dataset args sub p (Group g)
                            = Ok (Group (members_of checkpoint._prepare_hdf5_dataset args sub
                                         ∪ g))
                        | _ => True
                        end); try exact I; try exact IHsub.
  - intros p g _ _ _ _. simpl. rewrite (left_id_L ∅ (∪)). reflexivity.
  - intros p g Hp Hseg Hd Hfresh.
    simpl in Hd. apply andb_true_iff in Hd as [Hd Hrest].
    apply andb_true_iff in Hd as [Hd Hvalue].
    apply andb_true_iff in Hd as [Hkey Hkfresh]. apply tree_key_valid in Hkey.
    assert (Hgk : g !! key = None).
    { apply Hfresh. unfold dict_keys. simpl. apply list_elem_of_here. }
    assert (Hpath : segments (p +:+ key) = [key]).
    { rewrite (segments_child p key Hp Hkey), Hseg. reflexivity. }
    cbn [write_into members_of].
    assert (Hstep :
      match value with
      | PDict sub =>
        if (0 <? dict_len sub)%nat
        then write_into checkpoint._prepare_hdf5_dataset args sub (with_slash (p +:+ key))
                        (Group g)
        else create_at (segments (p +:+ key)) (Group ∅) (Group g)
      | PNone => create_at (segments (p +:+ key)) (Group ∅) (Group g)
      | _ =>
        get ds <- checkpoint._prepare_hdf5_dataset value;
        get new <- Backend.dataset_node ds (options_for ds args);
        create_at (segments (p +:+ key)) new (Group g)
      end
      = Ok (Group (<[key := node_of checkpoint._prepare_hdf5_dataset args value]> g))).
    { assert (Hleaf : is_mapping value = false ->
        (get ds <- checkpoint._prepare_hdf5_dataset value;
         get new <- Backend.dataset_node ds (options_for ds args);
         create_at (segments (p +:+ key)) new (Group g))
        = Ok (Group (<[key := node_of checkpoint._prepare_hdf5_dataset args value]> g))).
      { intros Hm.
        destruct (roundtrip_leaf_encoded value Hvalue Hm) as (a & td & Henc & _ & Htd).
        rewrite Henc. cbn [and_then].
        rewrite (dataset_node_ok a args (torch_dtype_storable _ _ Htd)). cbn [and_then].
        rewrite Hpath, (create_at_member key _ g Hgk).
        rewrite (node_of_leaf args value a Hm (roundtrip_not_none _ Hvalue) Henc).
        reflexivity. }
      destruct value; try (apply Hleaf; reflexivity); try discriminate Hvalue.
      destruct (0 <? dict_len d)%nat eqn:Hlen.
      - rewrite (write_into_under _ args d (with_slash (p +:+ key)) p key [] g
                   (roundtrip_keys_ok d Hvalue) (with_slash_ends _) Hp).
        + rewrite Hgk. cbn [default].
          rewrite (IHvalue p ∅ Hp Hseg Hvalue) by (intros; apply lookup_empty).
          cbn [and_then node_of]. rewrite (right_id_L ∅ (∪)). reflexivity.
        + rewrite segments_with_slash. exact Hpath.
        + exact Hseg.
        + left. apply dict_len_positive, Hlen.
      - rewrite Hpath, (create_at_member key _ g Hgk).
        rewrite (dict_len_zero d Hlen). reflexivity. }
    rewrite Hstep. cbn [and_then].
    rewrite (IHrest p _ Hp Hseg Hrest).
    + f_equal. f_equal.
      rewrite <- insert_union_r.
      * rewrite insert_union_l. reflexivity.
      * rewrite members_of_lookup, (fresh_key_get rest key Hkfresh). reflexivity.
    + intros k Hk. rewrite lookup_insert_ne.
      * apply Hfresh. unfold dict_keys in *. simpl. apply list_elem_of_further, Hk.
      * intros ->. apply dict_keys_get in Hk as [x Hx].
        rewrite (fresh_key_get rest k Hkfresh) in Hx. discriminate Hx.
Qed.

(** ** Reading a written tree back *)

Lemma resolve_app (a : list string) (k : string) (root : node) :
  resolve (a ++ [k]) root
  = match resolve a root with
    | Some (Group g) => g !! k
    | _ => None
    end.
Proof.
  revert root. induction a as [|x a IH]; intros root; simpl.
  - destruct root as [g|]; [|reflexivity]. destruct (g !! k); reflexivity.
  - destruct root as [g|]; [|reflexivity]. destruct (g !! x); [apply IH|reflexivity].
Qed.

Lemma member_names_elem (g : gmap string node) (k : string) :
  k ∈ member_names g <-> is_Some (g !! k).
Proof.
  unfold member_names. rewrite merge_sort_Permutation, list_elem_of_fmap. split.
  - intros ([k' n] & -> & Hin). apply elem_of_map_to_list in Hin. eauto.
  - intros [n Hn]. exists (k, n). split; [reflexivity|]. apply elem_of_map_to_list, Hn.
Qed.

Lemma member_names_NoDup (g : gmap string node) : NoDup (member_names g).
Proof.
  unfold member_names. rewrite merge_sort_Permutation. apply NoDup_fst_map_to_list.
Qed.

Lemma roundtrip_get (d : pydict) (k : string) (v : pyval) :
  roundtrip_tree d = true -> dict_get d k = Some v ->
  valid_key k = true /\ roundtrip_value v = true /\ depth_value v <= depth_tree d.
Proof.
  induction d as [|key value rest IH]; simpl; [discriminate|].
  intros Hd Hget.
  apply andb_true_iff in Hd as [Hd Hrest]. apply andb_true_iff in Hd as [Hd Hvalue].
  apply andb_true_iff in Hd as [Hkey _]. apply tree_key_valid in Hkey.
  destruct (String.eqb_spec key k) as [->|Hne].
  - inversion Hget; subst. repeat split; [exact Hkey|exact Hvalue|lia].
  - destruct (IH Hrest Hget) as (? & ? & ?). repeat split; [assumption|assumption|lia].
Qed.

Lemma from_numpy_numpy (a : ndarray) (td : Torch.tdtype) :
  Torch.torch_dtype (dtype_of a) = Some td ->
  exists t, Torch.from_numpy a = Ok t /\ Torch.numpy t = Ok a.
Proof.
  intros H. unfold Torch.from_numpy. rewrite H. eexists. split; [reflexivity|].
  unfold Torch.numpy. simpl. rewrite (torch_dtype_inv _ _ H). destruct a; reflexivity.
Qed.

Lemma read_roundtrip (args : option pydict) (fuel : nat) :
  forall (d : pydict) (path : string) (root : node),
    resolve (segments path) root
    = Some (Group (members_of checkpoint._prepare_hdf5_dataset args d)) ->
    roundtrip_tree d = true ->
    depth_tree d < fuel ->
    exists d', read_tree fuel root path None = Ok d' /\ same_tree d d'.
Proof.
  induction fuel as [|fuel IH]; intros d path root Hres Hd Hdepth; [lia|].
  rewrite read_tree_unfold, Hres. cbn [and_then Backend.names_of].
  set (m := members_of checkpoint._prepare_hdf5_dataset args d) in *.
  assert (Hloop : forall keys,
    (forall k, k ∈ keys -> k ∈ dict_keys d) ->
    exists dl, read_loop fuel root path None keys = Ok dl
               /\ dict_keys dl = keys
               /\ (forall k v, k ∈ keys -> dict_get d k = Some v ->
                               exists v', dict_get dl k = Some v' /\ same_value v v')).
  { induction keys as [|key rest IHkeys]; intros Hin.
    - exists DNil. repeat split. intros k v Hk. inversion Hk.
    - destruct IHkeys as (others & Hothers & Hkeys & Hvals).
      { intros k Hk. apply Hin. right. exact Hk. }
      assert (Hkey : key ∈ dict_keys d) by (apply Hin; left).
      apply dict_keys_get in Hkey as [v Hv].
      destruct (roundtrip_get d key v Hd Hv) as (Hvalid & Hrv & Hdv).
      assert (Hchild : resolve (segments (path +:+ "/" +:+ key)) root
                       = Some (node_of checkpoint._prepare_hdf5_dataset args v)).
      { rewrite (segments_join path key Hvalid), resolve_app, Hres.
        unfold m. rewrite members_of_lookup, Hv. reflexivity. }
      assert (Hvalue : exists v',
        (if Utils.is_group (node_of checkpoint._prepare_hdf5_dataset args v) then
           get sub <- read_tree fuel root (path +:+ "/" +:+ key) None; Ok (PDict sub)
         else
           get a <- Backend.slice_all (node_of checkpoint._prepare_hdf5_dataset args v);
           get t <- Torch.from_numpy a;
           Ok (PTensor t)) = Ok v' /\ same_value v v').
      { destruct (is_mapping v) eqn:Hm.
        - destruct v; try discriminate Hm. cbn [node_of Utils.is_group].
          destruct (IH d0 (path +:+ "/" +:+ key) root) as (sub' & Hsub & Hsame).
          + rewrite Hchild. reflexivity.
          + exact Hrv.
          + simpl in Hdv. lia.
          + rewrite Hsub. exists (PDict sub'). split; [reflexivity|].
            constructor. exact Hsame.
        - destruct (roundtrip_leaf_encoded v Hrv Hm) as (a & td & Henc & Hform & Htd).
          rewrite (node_of_leaf args v a Hm (roundtrip_not_none _ Hrv) Henc).
          cbn [Utils.is_group Backend.slice_all and_then].
          destruct (from_numpy_numpy a td Htd) as (t & Ht & Hnumpy).
          rewrite Ht. exists (PTensor t). split; [reflexivity|].
          apply same_leaf with (a := a); assumption. }
      destruct Hvalue as (v' & Hv' & Hsame).
      exists (DCons key v' others). split; [|split].
      + cbn [read_loop].
        change (checkpoint._name_contains_string_in_list key None) with false. cbv iota.
        rewrite Hchild. cbn [and_then]. rewrite Hv'. cbn [and_then].
        fold (read_loop fuel root path None rest). rewrite Hothers. reflexivity.
      + change (dict_keys (DCons key v' others)) with (key :: dict_keys others).
        rewrite Hkeys. reflexivity.
      + intros k v0 Hk Hget. simpl.
        destruct (String.eqb_spec key k) as [->|Hne].
        * rewrite Hv in Hget. inversion Hget; subst. eauto.
        * apply Hvals; [|exact Hget]. apply elem_of_cons in Hk as [->|Hk]; [congruence|exact Hk]. }
  destruct (Hloop (member_names m)) as (dl & Hdl & Hkeys & Hvals).
  { intros k Hk. apply member_names_elem in Hk as [n Hn].
    unfold m in Hn. rewrite members_of_lookup in Hn.
    apply dict_keys_get. destruct (dict_get d k); [eauto|discriminate Hn]. }
  exists dl. split; [exact Hdl|]. constructor.
  - rewrite Hkeys. apply member_names_NoDup.
  - intros k. rewrite Hkeys, member_names_elem. unfold m. rewrite members_of_lookup.
    rewrite dict_keys_get. destruct (dict_get d k); simpl; split; intros [x Hx]; eauto;
      discriminate Hx.
  - intros k v Hget. apply Hvals; [|exact Hget].
    apply member_names_elem. unfold m. rewrite members_of_lookup, Hget. simpl. eauto.
Qed.




(** ** The name filter *)

Lemma startswith_spec (p s : string) :
  PyStr.startswith p s = true <-> exists post, s = p +:+ post.
Proof.
  revert s. induction p as [|a p IH]; intros s; simpl.
  - split; [intros _; exists s; reflexivity|reflexivity].
  - destruct s as [|b s]; [split; [discriminate|intros [post H]; discriminate H]|].
    destruct (Ascii.eqb_spec a b) as [->|Hne].
    + rewrite IH. split; intros [post H]; exists post; [rewrite H; reflexivity|].
      inversion H. reflexivity.
    + split; [discriminate|]. intros [post H]. inversion H. congruence.
Qed.

Lemma contains_unfold (needle hay : string) :
  PyStr.contains needle hay
  = if PyStr.startswith needle hay then true
    else match hay with
         | EmptyString => false
         | String _ r => PyStr.contains needle r
         end.
Proof. destruct hay; reflexivity. Qed.

Lemma contains_spec (needle hay : string) :
  PyStr.contains needle hay = true <-> exists pre post, hay = pre +:+ needle +:+ post.
Proof.
  split.
  - induction hay as [|c r IH]; rewrite contains_unfold;
      destruct (PyStr.startswith needle _) eqn:E.
    + intros _. apply startswith_spec in E as [post E]. exists "", post. exact E.
    + discriminate.
    + intros _. apply startswith_spec in E as [post E]. exists "", post. exact E.
    + intros H. destruct (IH H) as (pre & post & ->). exists (String c pre), post. reflexivity.
  - intros (pre & post & ->). induction pre as [|c pre IH]; rewrite contains_unfold.
    + assert (E : PyStr.startswith needle ("" +:+ needle +:+ post) = true).
      { apply startswith_spec. exists post. reflexivity. }
      rewrite E. reflexivity.
    + destruct (PyStr.startswith needle _); [reflexivity|]. exact IH.
Qed.

(** X1.  [_name_contains_string_in_list] is true exactly when a list is
    given and one of its entries occurs inside the name; the copy in the
    older module is the same function. *)
Theorem name_filter_spec (name : string) (strlist : option (list string)) :
  (checkpoint._name_contains_string_in_list name strlist = true
   <-> exists l f pre post, strlist = Some l /\ f ∈ l /\ name = pre +:+ f +:+ post)
  /\ dic_to_h5._name_contains_string_in_list name strlist
     = checkpoint._name_contains_string_in_list name strlist.
Proof.
  split; [|reflexivity].
  destruct strlist as [l|]; simpl.
  - induction l as [|f l IH].
    + split; [discriminate|]. intros (l' & f & pre & post & H & Hin & _).
      inversion H; subst. inversion Hin.
    + destruct (PyStr.contains f name) eqn:E.
      * split; [intros _|reflexivity].
        apply contains_spec in E as (pre & post & E).
        exists (f :: l), f, pre, post. repeat split; [left|exact E].
      * rewrite IH. split.
        -- intros (l' & f' & pre & post & H & Hin & Hname). inversion H; subst l'.
           exists (f :: l), f', pre, post. repeat split; [right; exact Hin|exact Hname].
        -- intros (l' & f' & pre & post & H & Hin & Hname). inversion H; subst l'.
           apply elem_of_cons in Hin as [->|Hin].
           ++ assert (PyStr.contains f name = true) by (apply contains_spec; eauto).
              congruence.
           ++ exists l, f', pre, post. repeat split; assumption.
  - split; [discriminate|]. intros (l & f & pre & post & H & _). discriminate H.
Qed.

(** ** What the reader skips *)

Lemma read_loop_keys (fuel : nat) (root : node) (path : string)
    (exclude_names : option (list string)) (keys : list string) (dl : pydict) :
  read_loop fuel root path exclude_names keys = Ok dl ->
  dict_keys dl
  = List.filter (fun k => negb (checkpoint._name_contains_string_in_list k exclude_names)) keys.
Proof.
  revert dl. induction keys as [|key rest IH]; intros dl H.
  - inversion H. reflexivity.
  - cbn [read_loop] in H. cbn [List.filter].
    destruct (checkpoint._name_contains_string_in_list key exclude_names); cbn [negb].
    + apply IH, H.
    + apply and_then_ok in H as (child & _ & H).
      apply and_then_ok in H as (value & _ & H).
      apply and_then_ok in H as (others & Hothers & H).
      inversion H; subst dl.
      change (dict_keys (DCons key value others)) with (key :: dict_keys others).
      rewrite (IH others Hothers). reflexivity.
Qed.

(** X2.  The keys [load_checkpoint] returns for a group are its member
    names, in name order, without those that contain an excluded substring:
    an excluded child is left out whole. *)
Theorem load_checkpoint_skips_excluded (fuel : nat) (name path : string)
    (exclude_names : option (list string)) (root : node) (g : gmap string node)
    (w : world) (ddict : pydict) :
  h5py_import w = None ->
  files w !! name = Some (FContainer root) ->
  resolve (segments path) root = Some (Group g) ->
  fst (checkpoint.load_checkpoint fuel (FileName name) path exclude_names w) = Ok ddict ->
  dict_keys ddict
  = List.filter (fun k => negb (checkpoint._name_contains_string_in_list k exclude_names))
                (member_names g).
Proof.
  intros Himp Hfile Hres Hload.
  rewrite (load_from_name _ _ _ _ _ _ Himp Hfile) in Hload.
  destruct fuel as [|fuel]; [discriminate Hload|].
  rewrite read_tree_unfold, Hres in Hload. cbn [and_then Backend.names_of] in Hload.
  apply (read_loop_keys _ _ _ _ _ _ Hload).
Qed.

Lemma load_checkpoint_skips_excluded_witness :
  dict_keys (DCons "counter"
               (PTensor (Torch.mk_tensor Torch.Cpu false Torch.TInt64 [2] [IInt 1; IInt 2]))
               DNil)
  = List.filter (fun k => negb (checkpoint._name_contains_string_in_list k (Some ["mca_"])))
                (member_names scan_root).
Proof.
  apply (load_checkpoint_skips_excluded 2 "scan.h5" "/" (Some ["mca_"]) (Group scan_root)
           scan_root scan_world).
  - reflexivity.
  - reflexivity.
  - reflexivity.
  - vm_compute. reflexivity.
Defined.

(** ** Keys that contain the separator *)

Lemma ends_with_slash_append (p a : string) :
  a <> "" -> PyStr.ends_with_slash (p +:+ a) = PyStr.ends_with_slash a.
Proof.
  intros Ha. induction p as [|c p IH]; [reflexivity|].
  change (String c p +:+ a) with (String c (p +:+ a)).
  cbn [PyStr.ends_with_slash]. destruct (p +:+ a) eqn:E; [|exact IH].
  destruct p as [|c' p].
  - change (a = "") in E. congruence.
  - change (String c' (p +:+ a) = "") in E. discriminate E.
Qed.

Lemma nested_key_path (p a b : string) :
  a <> "" -> PyStr.ends_with_slash a = false ->
  with_slash (p +:+ a) +:+ b = p +:+ (a +:+ "/" +:+ b).
Proof.
  intros Ha Hs. unfold with_slash. rewrite (ends_with_slash_append p a Ha), Hs.
  rewrite !append_assoc. reflexivity.
Qed.

Lemma preserves_h5py_File (h5file : pyfile) (mode : string) :
  preserves h5py_import (h5py_File h5file mode).
Proof.
  destruct h5file; try apply preserves_raise.
  unfold h5py_File, Backend.File, Backend.open_container. by_cases_preserved.
Qed.

Lemma nested_single_step (c : M unit) (w : world) :
  h5py_import w = None ->
  (run (do missing <- Backend.h5py_missing;
        if missing then Backend.raise_h5py_import_error else
        run (run c; ret tt);
        ret tt);
   ret tt) w
  = (run c; ret tt) w.
Proof.
  intros Himp. unfold bind, Backend.h5py_missing. rewrite Himp.
  destruct (c w) as [[[]| |] w1]; reflexivity.
Qed.

Lemma write_items_conflates (enc : pyval -> outcome npvalue) (a b : string) (v : pyval)
    (h5f h5path : string) (args : option pydict) (w : world) :
  a <> "" -> PyStr.ends_with_slash a = false ->
  h5py_import w = None ->
  write_items enc (DCons (a +:+ "/" +:+ b) v DNil) h5f h5path args w
  = write_items enc (DCons a (PDict (DCons b v DNil)) DNil) h5f h5path args w.
Proof.
  intros Ha Hs Himp. cbn [write_items dict_len Nat.ltb Nat.leb].
  rewrite (nested_key_path h5path a b Ha Hs).
  symmetry. apply nested_single_step, Himp.
Qed.

(** X3.  A key that contains the separator is not rejected: written by
    either writer, the tree [{a/b: v}] is treated exactly as the nested tree
    [{a: {b: v}}]. *)
Theorem key_separator_conflates_levels (a b : string) (v : pyval) (h5file : pyfile)
    (h5path mode : string) (overwrite_data : bool) (args : option pydict) (w : world) :
  a <> "" ->
  PyStr.ends_with_slash a = false ->
  checkpoint.save_checkpoint (DCons (a +:+ "/" +:+ b) v DNil) h5file h5path mode
                             overwrite_data args w
  = checkpoint.save_checkpoint (DCons a (PDict (DCons b v DNil)) DNil) h5file h5path mode
                               overwrite_data args w
  /\ dic_to_h5.dicttoh5 (DCons (a +:+ "/" +:+ b) v DNil) h5file h5path mode
                        overwrite_data args w
     = dic_to_h5.dicttoh5 (DCons a (PDict (DCons b v DNil)) DNil) h5file h5path mode
                          overwrite_data args w.
Proof.
  intros Ha Hs.
  assert (Hgen : forall enc,
    writer_of enc (DCons (a +:+ "/" +:+ b) v DNil) h5file h5path mode args w
    = writer_of enc (DCons a (PDict (DCons b v DNil)) DNil) h5file h5path mode args w).
  { intros enc. unfold writer_of.
    destruct (h5py_import w) as [e|] eqn:Himp.
    - assert (Hmiss : Backend.h5py_missing w = (Ok true, w)).
      { unfold Backend.h5py_missing. rewrite Himp. reflexivity. }
      rewrite !(bind_ok _ _ _ _ _ Hmiss). reflexivity.
    - assert (Hmiss : Backend.h5py_missing w = (Ok false, w)).
      { unfold Backend.h5py_missing. rewrite Himp. reflexivity. }
      rewrite !(bind_ok _ _ _ _ _ Hmiss).
      assert (Hopen : forall r w1,
        match h5file with
        | H5File h => ret h
        | _ => h5py_File h5file mode
        end w = (r, w1) -> h5py_import w1 = None).
      { intros r w1 H. rewrite <- Himp.
        destruct h5file as [path|o|h].
        - pose proof (preserves_h5py_File (FileName path) mode w) as Hp.
          rewrite H in Hp. exact Hp.
        - pose proof (preserves_h5py_File (FileObj o) mode w) as Hp.
          rewrite H in Hp. exact Hp.
        - inversion H. reflexivity. }
      apply bind_cont. intros h5f w1 E.
      apply bind_ext; [|reflexivity].
      apply write_items_conflates; [exact Ha|exact Hs|]. apply (Hopen _ _ E). }
  split.
  - rewrite !save_checkpoint_writer. apply Hgen.
  - rewrite !dicttoh5_writer. apply Hgen.
Qed.

Lemma key_separator_conflates_levels_witness :
  checkpoint.save_checkpoint (DCons "a/b" (PInt 1) DNil) (FileName "f.h5") "/" "w" false None
                             empty_world
  = checkpoint.save_checkpoint (DCons "a" (PDict (DCons "b" (PInt 1) DNil)) DNil)
                               (FileName "f.h5") "/" "w" false None empty_world.
Proof.
  apply (key_separator_conflates_levels "a" "b" (PInt 1) (FileName "f.h5") "/" "w" false None
                                        empty_world).
  - discriminate.
  - reflexivity.
Defined.

(** ** The container handle a writer opens *)

Create HintDb handle_frame.

Lemma open_h5_h5py_missing : preserves open_h5 Backend.h5py_missing.
Proof. intros w. reflexivity. Qed.

Lemma open_h5_raise_import {A : Type} : preserves open_h5 (@Backend.raise_h5py_import_error A).
Proof. unfold Backend.raise_h5py_import_error. by_cases_preserved. Qed.

Lemma open_h5_log (e : event) : preserves open_h5 (log e).
Proof. intros w. reflexivity. Qed.

Lemma open_h5_root_of (h5f : string) : preserves open_h5 (Backend.root_of h5f).
Proof. unfold Backend.root_of. by_cases_preserved. Qed.

Lemma open_h5_set_root (h5f : string) (root : node) :
  preserves open_h5 (Backend.set_root h5f root).
Proof. intros w. reflexivity. Qed.

#[local] Hint Resolve open_h5_h5py_missing open_h5_raise_import open_h5_log open_h5_root_of
  open_h5_set_root : handle_frame.

Lemma open_h5_create_group (h5f name : string) :
  preserves open_h5 (Backend.create_group h5f name).
Proof. unfold Backend.create_group. frame_steps handle_frame. Qed.

Lemma open_h5_create_dataset (h5f name : string) (ds : npvalue) (kwargs : option pydict) :
  preserves open_h5 (Backend.create_dataset h5f name ds kwargs).
Proof. unfold Backend.create_dataset. frame_steps handle_frame. Qed.

#[local] Hint Resolve open_h5_create_group open_h5_create_dataset : handle_frame.

Lemma open_h5_write_items (enc : pyval -> outcome npvalue) (args : option pydict) (d : pydict) :
  forall h5f h5path, preserves open_h5 (write_items enc d h5f h5path args).
Proof.
  induction d as [| | | | | | | | |sub IHsub| |key value IHvalue rest IHrest]
    using pydict_mut
    with (P := fun v => match v with
                        | PDict sub =>
                          forall h5f h5path,
                            preserves open_h5 (write_items enc sub h5f h5path args)
                        | _ => True
                        end); try exact I; try exact IHsub.
  - intros. apply preserves_ret.
  - intros h5f h5path. cbn [write_items].
    apply preserves_bind; [|intros _; apply IHrest].
    destruct value; frame_steps handle_frame.
Qed.

Lemma remove_one_head (name : string) (l : list string) : remove_one name (name :: l) = l.
Proof. simpl. rewrite String.eqb_refl. reflexivity. Qed.

Lemma writer_handle (enc : pyval -> outcome npvalue) (treedict : pydict) (name h5path : string)
    (args : option pydict) (w : world) :
  h5py_import w = None ->
  name ∉ open_h5 w ->
  let r := writer_of enc treedict (FileName name) h5path "w" args w in
  open_h5 (snd r) = match fst r with
                    | Ok _ => open_h5 w
                    | _ => name :: open_h5 w
                    end.
Proof.
  intros Himp Hclosed. cbv zeta. unfold writer_of.
  assert (Hmiss : Backend.h5py_missing w = (Ok false, w)).
  { unfold Backend.h5py_missing. rewrite Himp. reflexivity. }
  rewrite (bind_ok _ _ _ _ _ Hmiss).
  set (w1 := set_open_h5 (name :: open_h5 (emit (FileOpen name "w") w))
               (set_files (<[name := FContainer (Group ∅)]> (files (emit (FileOpen name "w") w)))
                          (emit (FileOpen name "w") w))).
  assert (Hopen : h5py_File (FileName name) "w" w = (Ok name, w1)).
  { unfold h5py_File, Backend.File. cbn [String.eqb Ascii.eqb Bool.eqb orb].
    change (open_h5 (emit (FileOpen name "w") w)) with (open_h5 w).
    rewrite (bool_decide_eq_false_2 _ Hclosed). reflexivity. }
  rewrite (bind_ok _ _ _ _ _ Hopen).
  pose proof (open_h5_write_items enc args treedict name (with_slash h5path) w1) as Hp.
  unfold bind.
  destruct (write_items enc treedict name (with_slash h5path) args w1) as [[[]| |] w2];
    simpl in *; rewrite Hp.
  - apply remove_one_head.
  - reflexivity.
  - reflexivity.
Qed.

Lemma writer_given_handle (enc : pyval -> outcome npvalue) (treedict : pydict)
    (h5f h5path mode : string) (args : option pydict) (w : world) :
  open_h5 (snd (writer_of enc treedict (H5File h5f) h5path mode args w)) = open_h5 w.
Proof.
  assert (Hp : preserves open_h5 (writer_of enc treedict (H5File h5f) h5path mode args)).
  { unfold writer_of. frame_steps handle_frame. apply open_h5_write_items. }
  apply Hp.
Qed.

(** X4.  A writer that opened the destination from a file name closes it
    when the traversal completes and leaves it open when the traversal
    raises; a handle that was passed in is never closed. *)
Theorem writer_closes_what_it_opened (treedict : pydict) (name h5f h5path mode : string)
    (overwrite_data : bool) (args : option pydict) (w : world) :
  h5py_import w = None ->
  name ∉ open_h5 w ->
  let saved := checkpoint.save_checkpoint treedict (FileName name) h5path "w"
                                          overwrite_data args w in
  let written := dic_to_h5.dicttoh5 treedict (FileName name) h5path "w" overwrite_data args w in
  open_h5 (snd saved) = match fst saved with
                        | Ok _ => open_h5 w
                        | _ => name :: open_h5 w
                        end
  /\ open_h5 (snd written) = match fst written with
                             | Ok _ => open_h5 w
                             | _ => name :: open_h5 w
                             end
  /\ open_h5 (snd (checkpoint.save_checkpoint treedict (H5File h5f) h5path mode
                                              overwrite_data args w)) = open_h5 w
  /\ open_h5 (snd (dic_to_h5.dicttoh5 treedict (H5File h5f) h5path mode
                                      overwrite_data args w)) = open_h5 w.
Proof.
  intros Himp Hclosed. cbv zeta.
  rewrite !save_checkpoint_writer, !dicttoh5_writer. repeat split.
  - apply writer_handle; assumption.
  - apply writer_handle; assumption.
  - apply writer_given_handle.
  - apply writer_given_handle.
Qed.

Lemma writer_closes_what_it_opened_witness :
  let failed := checkpoint.save_checkpoint
                  (DCons "epoch" (PInt 3) (DCons "name" (PStr "run") DNil))
                  (FileName "f.h5") "/" "w" false None empty_world in
  open_h5 (snd failed) = match fst failed with
                         | Ok _ => []
                         | _ => ["f.h5"]
                         end.
Proof.
  cbv zeta.
  destruct (writer_closes_what_it_opened
              (DCons "epoch" (PInt 3) (DCons "name" (PStr "run") DNil))
              "f.h5" "f.h5" "/" "w" false None empty_world eq_refl (not_elem_of_nil "f.h5"))
    as (H & _).
  exact H.
Defined.

(** ** Arguments the writers do not consult *)

(** X5.  Both writers accept [overwrite_data] and never consult it, and
    neither consults [mode] when the destination is an open handle: the call
    does the same whatever these two arguments are. *)
Theorem overwrite_data_and_mode_unused (treedict : pydict) (h5file : pyfile)
    (h5f h5path mode mode' : string) (overwrite_data overwrite_data' : bool)
    (args : option pydict) (w : world) :
  checkpoint.save_checkpoint treedict h5file h5path mode overwrite_data args w
  = checkpoint.save_checkpoint treedict h5file h5path mode overwrite_data' args w
  /\ dic_to_h5.dicttoh5 treedict h5file h5path mode overwrite_data args w
     = dic_to_h5.dicttoh5 treedict h5file h5path mode overwrite_data' args w
  /\ checkpoint.save_checkpoint treedict (H5File h5f) h5path mode overwrite_data args w
     = checkpoint.save_checkpoint treedict (H5File h5f) h5path mode' overwrite_data' args w
  /\ dic_to_h5.dicttoh5 treedict (H5File h5f) h5path mode overwrite_data args w
     = dic_to_h5.dicttoh5 treedict (H5File h5f) h5path mode' overwrite_data' args w.
Proof.
  rewrite !save_checkpoint_writer, !dicttoh5_writer. repeat split; reflexivity.
Qed.

(** ** Names that exist already *)

Lemma create_at_existing (segs : list string) (new : node) :
  forall (cur n : node),
    resolve segs cur = Some n -> exists e, create_at segs new cur = Raise e.
Proof.
  induction segs as [|k rest IH]; intros cur n H.
  - destruct cur; simpl; eauto.
  - destruct cur as [g|a o]; [|discriminate H].
    cbn [resolve] in H. cbn [create_at].
    destruct (g !! k) as [child|] eqn:E; [|discriminate H].
    destruct rest as [|k' rest']; [eauto|].
    cbn [default from_option]. unfold id.
    destruct (IH child n H) as [e He]. rewrite He. simpl. eauto.
Qed.

Lemma create_group_refused (h5f name : string) (root n : node) (w : world) :
  session h5f root w ->
  resolve (segments name) root = Some n ->
  exists e, Backend.create_group h5f name w = (Raise e, emit (CreateGroup h5f name) w).
Proof.
  intros Hs Hn. destruct (create_at_existing _ (Group ∅) _ _ Hn) as [e He].
  exists e. unfold Backend.create_group.
  unfold bind at 1. unfold log at 1.
  rewrite (bind_ok _ _ _ _ _ (session_root_of _ _ _ (session_emit _ _ _ _ Hs))).
  unfold bind at 1, lift at 1. rewrite He. reflexivity.
Qed.

Lemma create_dataset_refused (h5f name : string) (ds : npvalue) (kwargs : option pydict)
    (root n : node) (w : world) :
  session h5f root w ->
  resolve (segments name) root = Some n ->
  exists e, Backend.create_dataset h5f name ds kwargs w
            = (Raise e, emit (CreateDataset h5f name ds kwargs) w).
Proof.
  intros Hs Hn. unfold Backend.create_dataset.
  unfold bind at 1. unfold log at 1.
  rewrite (bind_ok _ _ _ _ _ (session_root_of _ _ _ (session_emit _ _ _ _ Hs))).
  unfold bind at 1, lift at 1.
  destruct (Backend.dataset_node ds kwargs) as [new|e|] eqn:E.
  - destruct (create_at_existing _ new _ _ Hn) as [e He].
    exists e. unfold bind at 1, lift at 1. rewrite He. reflexivity.
  - eauto.
  - unfold Backend.dataset_node in E. repeat case_match; discriminate E.
Qed.

Lemma checkpoint_encoder_answers (v : pyval) :
  checkpoint._prepare_hdf5_dataset v <> OutOfFuel.
Proof.
  rewrite checkpoint_encoder_cases.
  destruct v; simpl; unfold Torch.numpy; repeat case_match; simpl; discriminate.
Qed.

Lemma legacy_encoder_answers (v : pyval) :
  dic_to_h5._prepare_hdf5_dataset v <> OutOfFuel.
Proof.
  assert (Hitems : forall l, encode_items l <> OutOfFuel).
  { induction l as [|x r IH]; simpl; [discriminate|].
    destruct x; simpl; repeat case_match; simpl; try discriminate;
      destruct (encode_items r); simpl; congruence. }
  assert (Hastype : forall a, (get a' <- astype_string a; Ok (NdArray a')) <> OutOfFuel).
  { intros a. unfold astype_string.
    destruct (dtype_of a); simpl; try discriminate;
      specialize (Hitems (items a)); destruct (encode_items (items a)); simpl; congruence. }
  assert (Hlast : forall array,
    match array with
    | NpString _ => Ok array
    | NdArray a =>
      if checkpoint.in_list (PyStr.lower (kind (dtype_of a))) ["s"; "u"]
      then get a' <- astype_string a; Ok (NdArray a')
      else Ok array
    end <> OutOfFuel).
  { intros [a|b]; [|discriminate].
    destruct (checkpoint.in_list _ _); [apply Hastype|discriminate]. }
  rewrite legacy_encoder_steps.
  destruct (simple_string v) as [x|e|] eqn:E1; cbn [and_then]; [|discriminate|].
  - destruct (ensure_array x) as [array|e|] eqn:E2; cbn [and_then];
      [apply Hlast|discriminate|].
    destruct x; simpl in E2; unfold Torch.numpy in E2; repeat case_match; discriminate E2.
  - destruct v; simpl in E1; unfold string_ in E1; repeat case_match; discriminate E1.
Qed.

Lemma write_items_existing (enc : pyval -> outcome npvalue) (key : string) (value : pyval)
    (rest : pydict) (h5f h5path : string) (args : option pydict) (root n : node) (w : world) :
  session h5f root w ->
  resolve (segments (h5path +:+ key)) root = Some n ->
  nonempty_mapping value = false ->
  enc value <> OutOfFuel ->
  exists e w', write_items enc (DCons key value rest) h5f h5path args w = (Raise e, w')
               /\ files w' = files w.
Proof.
  intros Hs Hn Hv Henc. cbn [write_items].
  assert (Hgroup : exists e w',
    Backend.create_group h5f (h5path +:+ key) w = (Raise e, w') /\ files w' = files w).
  { destruct (create_group_refused _ _ _ _ _ Hs Hn) as [e He]. eauto. }
  assert (Hleaf : exists e w',
    (do ds <- lift (enc value);
     if bool_decide (np_shape ds = []) || match args with None => true | Some _ => false end
     then Backend.create_dataset h5f (h5path +:+ key) ds None
     else Backend.create_dataset h5f (h5path +:+ key) ds args) w = (Raise e, w')
    /\ files w' = files w).
  { unfold bind at 1, lift at 1. destruct (enc value) as [ds|e|]; [|eauto|congruence].
    rewrite passed_options.
    destruct (create_dataset_refused h5f (h5path +:+ key) ds (options_for ds args) _ _ _ Hs Hn)
      as [e He].
    rewrite He. eauto. }
  assert (Hfirst : exists e w',
    match value with
    | PDict sub =>
      if (0 <? dict_len sub)%nat then
        do missing <- Backend.h5py_missing;
        if missing then Backend.raise_h5py_import_error else
        run write_items enc sub h5f (with_slash (h5path +:+ key)) args;
        ret tt
      else Backend.create_group h5f (h5path +:+ key)
    | PNone => Backend.create_group h5f (h5path +:+ key)
    | _ =>
      do ds <- lift (enc value);
      if bool_decide (np_shape ds = []) || match args with None => true | Some _ => false end
      then Backend.create_dataset h5f (h5path +:+ key) ds None
      else Backend.create_dataset h5f (h5path +:+ key) ds args
    end w = (Raise e, w') /\ files w' = files w).
  { destruct value; try exact Hleaf; try exact Hgroup.
    simpl in Hv. rewrite Hv. exact Hgroup. }
  destruct Hfirst as (e & w' & H1 & H2). exists e, w'. split; [|exact H2].
  apply bind_raise. exact H1.
Qed.

Lemma writer_existing (enc : pyval -> outcome npvalue) (key : string) (value : pyval)
    (rest : pydict) (h5f h5path mode : string) (args : option pydict) (root n : node)
    (w : world) :
  session h5f root w ->
  resolve (segments (with_slash h5path +:+ key)) root = Some n ->
  nonempty_mapping value = false ->
  enc value <> OutOfFuel ->
  let r := writer_of enc (DCons key value rest) (H5File h5f) h5path mode args w in
  (exists e, fst r = Raise e) /\ files (snd r) = files w.
Proof.
  intros Hs Hn Hv Henc. cbv zeta.
  destruct (write_items_existing enc key value rest h5f (with_slash h5path) args root n w
              Hs Hn Hv Henc) as (e & w' & Hrun & Hfiles).
  assert (Hr : writer_of enc (DCons key value rest) (H5File h5f) h5path mode args w
               = (Raise e, w')).
  { unfold writer_of.
    rewrite (bind_ok _ _ _ _ _ (session_h5py_missing _ _ _ Hs)).
    unfold bind at 1. unfold ret at 1. cbv beta iota.
    apply bind_raise, Hrun. }
  rewrite Hr. cbn [fst snd]. split; [eauto|exact Hfiles].
Qed.

(** X6.  A name that exists in the container is never overwritten.  When
    the destination is an open handle and the first key of the tree, under
    [h5path], names something that is there already, both writers raise and
    leave every file as it was, whatever [overwrite_data] says; the one
    exception is a non-empty sub-mapping, whose items are written below the
    existing name. *)
Theorem existing_member_is_not_overwritten (key : string) (value : pyval) (rest : pydict)
    (h5f h5path mode : string) (overwrite_data : bool) (args : option pydict)
    (root existing : node) (w : world) :
  h5py_import w = None ->
  h5f ∈ open_h5 w ->
  files w !! h5f = Some (FContainer root) ->
  resolve (segments (with_slash h5path +:+ key)) root = Some existing ->
  nonempty_mapping value = false ->
  let saved := checkpoint.save_checkpoint (DCons key value rest) (H5File h5f) h5path mode
                                          overwrite_data args w in
  let written := dic_to_h5.dicttoh5 (DCons key value rest) (H5File h5f) h5path mode
                                    overwrite_data args w in
  ((exists e, fst saved = Raise e) /\ files (snd saved) = files w)
  /\ ((exists e, fst written = Raise e) /\ files (snd written) = files w).
Proof.
  intros Himp Hopen Hfile Hthere Hvalue. cbv zeta.
  assert (Hs : session h5f root w) by (repeat split; assumption).
  rewrite save_checkpoint_writer, dicttoh5_writer. split.
  - apply (writer_existing _ key value rest h5f h5path mode args root existing w Hs Hthere Hvalue).
    apply checkpoint_encoder_answers.
  - apply (writer_existing _ key value rest h5f h5path mode args root existing w Hs Hthere Hvalue).
    apply legacy_encoder_answers.
Qed.

Lemma existing_member_is_not_overwritten_witness :
  let saved := checkpoint.save_checkpoint (DCons "counter" (PInt 0) DNil) (H5File "scan.h5")
                                          "/" "a" true None open_scan_world in
  (exists e, fst saved = Raise e) /\ files (snd saved) = files open_scan_world.
Proof.
  cbv zeta.
  apply (existing_member_is_not_overwritten "counter" (PInt 0) DNil "scan.h5" "/" "a" true None
           (Group scan_root) (Dataset (mk_ndarray (DInt 8) [2] [IInt 1; IInt 2]) DNil)
           open_scan_world).
  - reflexivity.
  - apply list_elem_of_here.
  - reflexivity.
  - reflexivity.
  - reflexivity.
Defined.

(** ** What the reader leaves alone *)

Create HintDb store_frame.

Lemma stored_h5py_missing : preserves stored Backend.h5py_missing.
Proof. intros w. reflexivity. Qed.

Lemma stored_raise_import {A : Type} : preserves stored (@Backend.raise_h5py_import_error A).
Proof. unfold Backend.raise_h5py_import_error. by_cases_preserved. Qed.

Lemma stored_root_of (h5f : string) : preserves stored (Backend.root_of h5f).
Proof. unfold Backend.root_of. by_cases_preserved. Qed.

Lemma stored_iter_names (n : node) : preserves stored (Backend.iter_names n).
Proof. unfold Backend.iter_names. by_cases_preserved. Qed.

Lemma stored_read_all (n : node) : preserves stored (Backend.read_all n).
Proof. unfold Backend.read_all. by_cases_preserved. Qed.

Lemma stored_close (h5f : string) : preserves stored (Backend.close h5f).
Proof. intros w. reflexivity. Qed.

Lemma stored_h5open (x : pyfile) : preserves stored (Utils.h5open x).
Proof. unfold Utils.h5open. by_cases_preserved. Qed.

Lemma stored_as_handle (x : pyfile) : preserves stored (checkpoint.as_handle x).
Proof. unfold checkpoint.as_handle. by_cases_preserved. Qed.

#[local] Hint Resolve stored_h5py_missing stored_raise_import stored_root_of stored_iter_names
  stored_read_all stored_close stored_h5open stored_as_handle : store_frame.

Lemma stored_getitem (h5f path : string) : preserves stored (Backend.getitem h5f path).
Proof.
  unfold Backend.getitem. apply preserves_bind; [apply stored_root_of|intros root].
  destruct (resolve (segments path) root); [apply preserves_ret|apply preserves_raise].
Qed.

#[local] Hint Resolve stored_getitem : store_frame.

Lemma stored_load_checkpoint (fuel : nat) :
  forall (h5file : pyfile) (path : string) (exclude_names : option (list string)),
    preserves stored (checkpoint.load_checkpoint fuel h5file path exclude_names).
Proof.
  induction fuel as [|fuel IH]; intros h5file path exclude_names; simpl.
  - apply preserves_out_of_fuel.
  - frame_steps store_frame.
    match goal with
    | |- preserves _ (_ ?keys) => induction keys as [|key rest IHkeys]
    end.
    + apply preserves_ret.
    + frame_steps store_frame; try apply IH; try exact IHkeys.
Qed.

Lemma open_h5_iter_names (n : node) : preserves open_h5 (Backend.iter_names n).
Proof. unfold Backend.iter_names. by_cases_preserved. Qed.

Lemma open_h5_read_all (n : node) : preserves open_h5 (Backend.read_all n).
Proof. unfold Backend.read_all. by_cases_preserved. Qed.

Lemma open_h5_as_handle (x : pyfile) : preserves open_h5 (checkpoint.as_handle x).
Proof. unfold checkpoint.as_handle. by_cases_preserved. Qed.

Lemma open_h5_getitem (h5f path : string) : preserves open_h5 (Backend.getitem h5f path).
Proof.
  unfold Backend.getitem. apply preserves_bind; [apply open_h5_root_of|intros root].
  destruct (resolve (segments path) root); [apply preserves_ret|apply preserves_raise].
Qed.

#[local] Hint Resolve open_h5_iter_names open_h5_read_all open_h5_as_handle open_h5_getitem
  : handle_frame.

Lemma open_h5_load_on_handle (fuel : nat) :
  forall (h5f path : string) (exclude_names : option (list string)),
    preserves open_h5 (checkpoint.load_checkpoint fuel (H5File h5f) path exclude_names).
Proof.
  induction fuel as [|fuel IH]; intros h5f path exclude_names; simpl.
  - apply preserves_out_of_fuel.
  - frame_steps handle_frame.
    match goal with
    | |- preserves _ (_ ?keys) => induction keys as [|key rest IHkeys]
    end.
    + apply preserves_ret.
    + frame_steps handle_frame; try apply IH; try exact IHkeys.
Qed.

Lemma open_h5_load_loop (fuel : nat) (h5f path : string) (exclude_names : option (list string))
    (keys : list string) :
  preserves open_h5 (load_loop fuel h5f path exclude_names keys).
Proof.
  induction keys as [|key rest IH]; cbn [load_loop].
  - apply preserves_ret.
  - frame_steps handle_frame; try apply open_h5_load_on_handle; try exact IH.
Qed.

(** X7.  [load_checkpoint] only reads: whatever its arguments and its
    outcome, every file, every stream buffer and the set of open text
    handles are as they were before the call, and a container handle that
    was passed in is still open (or still closed) afterwards. *)
Theorem load_checkpoint_is_read_only (fuel : nat) (h5file : pyfile) (h5f path : string)
    (exclude_names : option (list string)) (w : world) :
  let r := checkpoint.load_checkpoint fuel h5file path exclude_names w in
  files (snd r) = files w
  /\ streams (snd r) = streams w
  /\ open_text (snd r) = open_text w
  /\ open_h5 (snd (checkpoint.load_checkpoint fuel (H5File h5f) path exclude_names w))
     = open_h5 w.
Proof.
  cbv zeta.
  pose proof (stored_load_checkpoint fuel h5file path exclude_names w) as Hstored.
  pose proof (text_state_load_checkpoint fuel h5file path exclude_names w) as Htext.
  unfold stored in Hstored. unfold text_state in Htext.
  inversion Hstored as [[Hfiles Hstreams]]. inversion Htext as [[Hopen Hcloses]].
  repeat split; try reflexivity.
  apply open_h5_load_on_handle.
Qed.

(** X8.  Given the name of a container file, [load_checkpoint] closes the
    handle it opened only when the read completes: after a successful call
    the open container handles are those open before it, and after any
    failure the file is still open.  A path that names nothing in the
    container is such a failure, raised as the backend's [KeyError]. *)
Theorem load_checkpoint_closes_on_success_only (fuel : nat) (name path : string)
    (exclude_names : option (list string)) (root : node) (w : world) :
  h5py_import w = None ->
  files w !! name = Some (FContainer root) ->
  let r := checkpoint.load_checkpoint (S fuel) (FileName name) path exclude_names w in
  open_h5 (snd r) = match fst r with
                    | Ok _ => open_h5 w
                    | _ => name :: open_h5 w
                    end
  /\ (resolve (segments path) root = None -> fst r = Raise (KeyError path)).
Proof.
  intros Himp Hfile. cbv zeta. split.
  - rewrite load_checkpoint_unfold.
    assert (Hmiss : Backend.h5py_missing w = (Ok false, w)).
    { unfold Backend.h5py_missing. rewrite Himp. reflexivity. }
    rewrite (bind_ok _ _ _ _ _ Hmiss). cbn [Utils.is_file negb].
    set (w1 := set_open_h5 (name :: open_h5 (emit (FileOpen name "r") w))
                 (emit (FileOpen name "r") w)).
    assert (Hopen : Utils.h5open (FileName name) w = (Ok name, w1)).
    { unfold Utils.h5open. change (files (emit (FileOpen name "r") w)) with (files w).
      rewrite Hfile. reflexivity. }
    rewrite (bind_ok _ _ _ _ _ Hopen).
    assert (P0 : open_h5 w1 = name :: open_h5 w) by reflexivity.
    pose proof (open_h5_getitem name path w1) as P1.
    unfold bind.
    destruct (Backend.getitem name path w1) as [[here| |] w2]; cbn [fst snd] in *;
      [|congruence|congruence].
    pose proof (open_h5_iter_names here w2) as P2.
    destruct (Backend.iter_names here w2) as [[keys| |] w3]; cbn [fst snd] in *;
      [|congruence|congruence].
    pose proof (open_h5_load_loop fuel name path exclude_names keys w3) as P3.
    destruct (load_loop fuel name path exclude_names keys w3) as [[d| |] w4];
      cbn [fst snd] in *; [|congruence|congruence].
    unfold Backend.close, ret. cbn [fst snd].
    change (open_h5 (emit (FileClose name) w4)) with (open_h5 w4).
    rewrite P3, P2, P1, P0. apply remove_one_head.
  - intros Hnone. rewrite (load_from_name _ _ _ _ _ _ Himp Hfile).
    rewrite read_tree_unfold, Hnone. reflexivity.
Qed.

Lemma load_checkpoint_closes_on_success_only_witness :
  let r := checkpoint.load_checkpoint 2 (FileName "scan.h5") "/measurement" None scan_world in
  open_h5 (snd r) = match fst r with
                    | Ok _ => []
                    | _ => ["scan.h5"]
                    end
  /\ fst r = Raise (KeyError "/measurement").
Proof.
  cbv zeta.
  destruct (load_checkpoint_closes_on_success_only 1 "scan.h5" "/measurement" None
              (Group scan_root) scan_world eq_refl eq_refl) as (H1 & H2).
  split; [exact H1|apply H2; reflexivity].
Defined.

(** ** What the reader returns *)

Lemma bind_inv {A B : Type} (c : M A) (k : A -> M B) (w w' : world) (b : B) :
  bind c k w = (Ok b, w') -> exists a w1, c w = (Ok a, w1) /\ k a w1 = (Ok b, w').
Proof.
  unfold bind. destruct (c w) as [[a| |] w1]; intros H; try discriminate H. eauto.
Qed.

Lemma load_loop_host_tensors (fuel : nat) (h5f path : string)
    (exclude_names : option (list string)) :
  (forall h5file path' w d w',
      checkpoint.load_checkpoint fuel h5file path' exclude_names w = (Ok d, w') ->
      host_tensors d = true) ->
  forall keys w d w',
    load_loop fuel h5f path exclude_names keys w = (Ok d, w') -> host_tensors d = true.
Proof.
  intros Hrec. induction keys as [|key rest IH]; intros w d w' H; cbn [load_loop] in H.
  - inversion H. reflexivity.
  - destruct (checkpoint._name_contains_string_in_list key exclude_names); [exact (IH _ _ _ H)|].
    apply bind_inv in H as (child & w1 & _ & H).
    apply bind_inv in H as (value & w2 & Hvalue & H).
    apply bind_inv in H as (others & w3 & Hothers & H).
    inversion H; subst. cbn [host_tensors].
    rewrite (IH _ _ _ Hothers), andb_true_r.
    destruct (Utils.is_group child).
    + apply bind_inv in Hvalue as (sub & w4 & Hsub & Hvalue).
      inversion Hvalue; subst. exact (Hrec _ _ _ _ _ Hsub).
    + apply bind_inv in Hvalue as (a & w4 & _ & Hvalue).
      apply bind_inv in Hvalue as (t & w5 & Ht & Hvalue).
      inversion Hvalue; subst.
      unfold lift, Torch.from_numpy in Ht.
      destruct (Torch.torch_dtype (dtype_of a)); inversion Ht. reflexivity.
Qed.

Lemma load_checkpoint_host_tensors (fuel : nat) (exclude_names : option (list string)) :
  forall h5file path w d w',
    checkpoint.load_checkpoint fuel h5file path exclude_names w = (Ok d, w') ->
    host_tensors d = true.
Proof.
  induction fuel as [|fuel IH]; intros h5file path w d w' H; [discriminate H|].
  rewrite load_checkpoint_unfold in H.
  apply bind_inv in H as (missing & w1 & _ & H).
  destruct missing.
  { unfold Backend.raise_h5py_import_error in H. destruct (h5py_import w1); discriminate H. }
  apply bind_inv in H as (h5f & w2 & _ & H).
  apply bind_inv in H as (here & w3 & _ & H).
  apply bind_inv in H as (keys & w4 & _ & H).
  apply bind_inv in H as (ddict & w5 & Hloop & H).
  apply bind_inv in H as (u & w6 & _ & H).
  inversion H; subst.
  exact (load_loop_host_tensors fuel h5f path exclude_names IH keys _ _ _ Hloop).
Qed.

(** X9.  Whatever [load_checkpoint] returns holds nothing but tensors: at
    every level a value is either a mapping or a tensor in host memory that
    records no gradient; no scalar, string, array or [None] comes back. *)
Theorem loaded_leaves_are_host_tensors (fuel : nat) (h5file : pyfile) (path : string)
    (exclude_names : option (list string)) (w : world) (ddict : pydict) :
  fst (checkpoint.load_checkpoint fuel h5file path exclude_names w) = Ok ddict ->
  host_tensors ddict = true.
Proof.
  intros H.
  destruct (checkpoint.load_checkpoint fuel h5file path exclude_names w) as [o w'] eqn:E.
  cbn [fst] in H. subst o.
  exact (load_checkpoint_host_tensors fuel exclude_names h5file path w ddict w' E).
Qed.

Lemma loaded_leaves_are_host_tensors_witness :
  host_tensors
    (DCons "counter"
       (PTensor (Torch.mk_tensor Torch.Cpu false Torch.TInt64 [2] [IInt 1; IInt 2]))
       (DCons "mca_detector"
          (PDict (DCons "spectrum"
                    (PTensor (Torch.mk_tensor Torch.Cpu false Torch.TInt64 [1] [IInt 5]))
                    DNil))
          DNil))
  = true.
Proof.
  apply (loaded_leaves_are_host_tensors 2 (FileName "scan.h5") "/" None scan_world).
  vm_compute. reflexivity.
Defined.

Lemma read_loop_member (fuel : nat) (root : node) (path : string)
    (exclude_names : option (list string)) (key : string) (sub : pydict) :
  forall keys d,
    read_loop fuel root path exclude_names keys = Ok d ->
    dict_get d key = Some (PDict sub) ->
    read_tree fuel root (path +:+ "/" +:+ key) exclude_names = Ok sub.
Proof.
  induction keys as [|k rest IH]; intros d H Hget; cbn [read_loop] in H.
  - inversion H; subst. discriminate Hget.
  - destruct (checkpoint._name_contains_string_in_list k exclude_names); [exact (IH _ H Hget)|].
    apply and_then_ok in H as (child & _ & H).
    apply and_then_ok in H as (value & Hvalue & H).
    apply and_then_ok in H as (others & Hothers & H).
    inversion H; subst. cbn [dict_get] in Hget.
    destruct (String.eqb_spec k key) as [->|Hne]; [|exact (IH _ Hothers Hget)].
    inversion Hget; subst.
    destruct (Utils.is_group child).
    + apply and_then_ok in Hvalue as (sub' & Hsub & Hvalue). inversion Hvalue; subst. exact Hsub.
    + apply and_then_ok in Hvalue as (a & _ & Hvalue).
      apply and_then_ok in Hvalue as (t & _ & Hvalue). discriminate Hvalue.
Qed.

(** X10.  The mapping found under a key of the result is what
    [load_checkpoint] returns when it is called on that subgroup's own path,
    with the same exclusions. *)
Theorem load_checkpoint_of_subgroup (fuel : nat) (name path : string)
    (exclude_names : option (list string)) (root : node) (w : world)
    (ddict sub : pydict) (key : string) :
  h5py_import w = None ->
  files w !! name = Some (FContainer root) ->
  fst (checkpoint.load_checkpoint (S fuel) (FileName name) path exclude_names w) = Ok ddict ->
  dict_get ddict key = Some (PDict sub) ->
  fst (checkpoint.load_checkpoint fuel (FileName name) (path +:+ "/" +:+ key) exclude_names w)
  = Ok sub.
Proof.
  intros Himp Hfile Hload Hget.
  rewrite (load_from_name _ _ _ _ _ _ Himp Hfile) in Hload.
  rewrite (load_from_name _ _ _ _ _ _ Himp Hfile).
  rewrite read_tree_unfold in Hload.
  apply and_then_ok in Hload as (here & _ & Hload).
  apply and_then_ok in Hload as (keys & _ & Hload).
  exact (read_loop_member fuel root path exclude_names key sub keys ddict Hload Hget).
Qed.

Lemma load_checkpoint_of_subgroup_witness :
  fst (checkpoint.load_checkpoint 1 (FileName "scan.h5") ("/" +:+ "/" +:+ "mca_detector") None
                                  scan_world)
  = Ok (DCons "spectrum"
          (PTensor (Torch.mk_tensor Torch.Cpu false Torch.TInt64 [1] [IInt 5])) DNil).
Proof.
  apply (load_checkpoint_of_subgroup 1 "scan.h5" "/" None (Group scan_root) scan_world
           (DCons "counter"
              (PTensor (Torch.mk_tensor Torch.Cpu false Torch.TInt64 [2] [IInt 1; IInt 2]))
              (DCons "mca_detector"
                 (PDict (DCons "spectrum"
                           (PTensor (Torch.mk_tensor Torch.Cpu false Torch.TInt64 [1] [IInt 5]))
                           DNil))
                 DNil))).
  - reflexivity.
  - reflexivity.
  - vm_compute. reflexivity.
  - reflexivity.
Defined.

Lemma and_then_not_ok {A B : Type} (o : outcome A) (k : A -> outcome B) :
  (forall a, o = Ok a -> forall b, k a <> Ok b) -> forall b, and_then o k <> Ok b.
Proof. intros H b. destruct o as [a| |]; simpl; [exact (H a eq_refl b)|discriminate..]. Qed.

Lemma read_loop_blocked (fuel : nat) (root : node) (path : string)
    (exclude_names : option (list string)) (key : string) (a : ndarray) (opts : pydict) :
  resolve (segments (path +:+ "/" +:+ key)) root = Some (Dataset a opts) ->
  Torch.torch_dtype (dtype_of a) = None ->
  checkpoint._name_contains_string_in_list key exclude_names = false ->
  forall keys, key ∈ keys ->
    forall d, read_loop fuel root path exclude_names keys <> Ok d.
Proof.
  intros Hchild Hdtype Hkept. induction keys as [|k rest IH]; intros Hin d.
  - inversion Hin.
  - cbn [read_loop].
    destruct (String.eqb_spec k key) as [->|Hne].
    + rewrite Hkept, Hchild. cbn [and_then Utils.is_group Backend.slice_all].
      unfold Torch.from_numpy. rewrite Hdtype. discriminate.
    + assert (Hrest : key ∈ rest).
      { apply elem_of_cons in Hin as [->|Hin]; [congruence|exact Hin]. }
      destruct (checkpoint._name_contains_string_in_list k exclude_names); [exact (IH Hrest d)|].
      apply and_then_not_ok. intros child _.
      apply and_then_not_ok. intros value _.
      apply and_then_not_ok. intros others Hothers. exfalso. exact (IH Hrest others Hothers).
Qed.

(** X11.  [load_checkpoint] converts every dataset it meets with
    [torch.from_numpy]: when the group it reads has a member, not excluded by
    name, that is a dataset of an element type torch does not have (byte
    strings, for one), the call does not return a mapping. *)
Theorem load_checkpoint_needs_torch_dtypes (fuel : nat) (name path key : string)
    (exclude_names : option (list string)) (root : node) (g : gmap string node)
    (a : ndarray) (opts : pydict) (w : world) :
  h5py_import w = None ->
  files w !! name = Some (FContainer root) ->
  resolve (segments path) root = Some (Group g) ->
  g !! key = Some (Dataset a opts) ->
  valid_key key = true ->
  Torch.torch_dtype (dtype_of a) = None ->
  checkpoint._name_contains_string_in_list key exclude_names = false ->
  forall ddict,
    fst (checkpoint.load_checkpoint fuel (FileName name) path exclude_names w) <> Ok ddict.
Proof.
  intros Himp Hfile Hgroup Hmember Hkey Hdtype Hkept ddict.
  rewrite (load_from_name _ _ _ _ _ _ Himp Hfile).
  destruct fuel as [|fuel]; [discriminate|].
  rewrite read_tree_unfold, Hgroup. cbn [and_then Backend.names_of].
  apply (read_loop_blocked fuel root path exclude_names key a opts); try assumption.
  - rewrite (segments_join path key Hkey), resolve_app, Hgroup. exact Hmember.
  - apply member_names_elem. rewrite Hmember. eauto.
Qed.

Lemma load_checkpoint_needs_torch_dtypes_witness :
  fst (checkpoint.load_checkpoint 2 (FileName "names.h5") "/" None names_world) <> Ok DNil.
Proof.
  apply (load_checkpoint_needs_torch_dtypes 2 "names.h5" "/" "label" None (Group names_root)
           names_root (mk_ndarray (DBytes 5) [] [IBytes "hello"]) DNil names_world).
  - reflexivity.
  - reflexivity.
  - reflexivity.
  - reflexivity.
  - reflexivity.
  - reflexivity.
  - reflexivity.
Defined.

(** ** The text writers *)

Lemma dicttojson_text_writer (json_text : pyval -> option nat -> outcome string)
    (ddict : pyval) (jsonfile : pyfile) (indent : option nat) (mode : string) :
  checkpoint.dicttojson json_text ddict jsonfile indent mode
  = text_writer (json_text ddict indent) jsonfile mode.
Proof. reflexivity. Qed.

Lemma dicttoini_text_writer (config_text : pyval -> outcome string)
    (ddict : pyval) (inifile : pyfile) (mode : string) :
  checkpoint.dicttoini config_text ddict inifile mode
  = text_writer (config_text ddict) inifile mode.
Proof. reflexivity. Qed.

(** Written to a file name in mode "w". *)
Lemma text_writer_to_name (encoded : outcome string) (path : string) (w : world) :
  exists w',
    text_writer encoded (FileName path) "w" w = (unit_of encoded, w')
    /\ files w' = <[path := FText (text_of encoded)]> (files w)
    /\ open_text w' = match encoded with
                      | Ok _ => open_text w
                      | _ => path :: open_text w
                      end
    /\ h5py_import w' = h5py_import w
    /\ open_h5 w' = open_h5 w
    /\ streams w' = streams w.
Proof.
  unfold text_writer, checkpoint.builtin_open, Backend.open_, checkpoint.write_to,
    Backend.write_text, checkpoint.close_io, Backend.close_text, bind, lift, ret.
  cbn [checkpoint.hasattr_write negb].
  destruct encoded as [text| |]; cbn [fst snd files emit set_files set_open_text open_text].
  - rewrite lookup_insert_eq. eexists. split; [reflexivity|].
    cbn [files set_files set_open_text emit open_text h5py_import open_h5 streams].
    rewrite insert_insert_eq, remove_one_head. repeat split; reflexivity.
  - eexists. split; [reflexivity|]. repeat split; reflexivity.
  - eexists. split; [reflexivity|]. repeat split; reflexivity.
Qed.

(** X12.  Given a file name and mode "w", [dicttojson] and [dicttoini]
    replace the file by the text their encoder produced and close the handle
    they opened.  When the encoder raises, the error propagates and the
    handle is left open: the closing statement is not reached. *)
Theorem text_writers_close_what_they_open
    (json_text : pyval -> option nat -> outcome string)
    (config_text : pyval -> outcome string)
    (ddict : pyval) (path : string) (indent : option nat) (w : world) :
  let tojson := checkpoint.dicttojson json_text ddict (FileName path) indent "w" w in
  let toini := checkpoint.dicttoini config_text ddict (FileName path) "w" w in
  (fst tojson = unit_of (json_text ddict indent)
   /\ match json_text ddict indent with
      | Ok text => files (snd tojson) = <[path := FText text]> (files w)
                   /\ open_text (snd tojson) = open_text w
      | _ => open_text (snd tojson) = path :: open_text w
      end)
  /\ (fst toini = unit_of (config_text ddict)
      /\ match config_text ddict with
         | Ok text => files (snd toini) = <[path := FText text]> (files w)
                      /\ open_text (snd toini) = open_text w
         | _ => open_text (snd toini) = path :: open_text w
         end).
Proof.
  cbv zeta. rewrite dicttojson_text_writer, dicttoini_text_writer. split.
  - destruct (text_writer_to_name (json_text ddict indent) path w)
      as (w' & -> & Hfiles & Hopen & _). cbn [fst snd].
    split; [reflexivity|]. destruct (json_text ddict indent); auto.
  - destruct (text_writer_to_name (config_text ddict) path w)
      as (w' & -> & Hfiles & Hopen & _). cbn [fst snd].
    split; [reflexivity|]. destruct (config_text ddict); auto.
Qed.

(** X13.  Given an object that has a [write] attribute, [dicttojson] and
    [dicttoini] write the encoded text to it and neither open nor close
    anything, whatever [mode] is: files, handles and the record of backend
    calls are as they were. *)
Theorem text_writers_use_a_given_stream
    (json_text : pyval -> option nat -> outcome string)
    (config_text : pyval -> outcome string)
    (ddict : pyval) (id : nat) (has_read : bool) (name : option string)
    (indent : option nat) (mode : string) (w : world) :
  let o := mk_fileobj id has_read true name in
  let given (encoded : outcome string) (r : outcome unit * world) :=
    fst r = unit_of encoded
    /\ files (snd r) = files w
    /\ open_text (snd r) = open_text w
    /\ trace (snd r) = trace w
    /\ match encoded with
       | Ok text => streams (snd r)
                    = <[id := default "" (streams w !! id) +:+ text]> (streams w)
       | _ => True
       end in
  given (json_text ddict indent)
        (checkpoint.dicttojson json_text ddict (FileObj o) indent mode w)
  /\ given (config_text ddict) (checkpoint.dicttoini config_text ddict (FileObj o) mode w).
Proof.
  cbv zeta. rewrite dicttojson_text_writer, dicttoini_text_writer.
  unfold text_writer, checkpoint.as_stream, checkpoint.write_to, Backend.write_stream,
    checkpoint.close_io, bind, lift, ret.
  cbn [checkpoint.hasattr_write fo_has_write negb fo_id].
  split.
  - destruct (json_text ddict indent); repeat split; reflexivity.
  - destruct (config_text ddict); repeat split; reflexivity.
Qed.

(** ** Dump and load through the text formats *)

Lemma dump_explicit (json_text : pyval -> option nat -> outcome string)
    (config_text : pyval -> outcome string)
    (ddict : pydict) (ffile : pyfile) (mode fmat : string) (w : world) :
  checkpoint.dump json_text config_text ddict ffile mode (Some fmat) w
  = dump_as json_text config_text (PyStr.lower fmat) ddict ffile mode w.
Proof. reflexivity. Qed.

Lemma dump_inferred (json_text : pyval -> option nat -> outcome string)
    (config_text : pyval -> outcome string)
    (ddict : pydict) (path mode : string) (w : world) :
  checkpoint.dump json_text config_text ddict (FileName path) mode None w
  = dump_as json_text config_text (PyStr.lower (PyStr.extension path)) ddict (FileName path)
            mode w.
Proof. reflexivity. Qed.

Lemma load_dispatch (json_parse : string -> outcome pyval)
    (config_read : gmap string fdata -> string -> outcome pyval)
    (fuel : nat) (ffile : pyfile) (fmat : option string) (w : world) :
  checkpoint.load json_parse config_read fuel ffile fmat w
  = (do opened <- checkpoint.open_source ffile;
     load_as json_parse config_read (dispatch_format fmat (snd opened)) fuel
             (fst opened) (snd opened)) w.
Proof.
  unfold checkpoint.load, load_as, dispatch_format. apply bind_ext; [reflexivity|].
  intros [f fname] w'. cbn [fst snd]. destruct fmat; reflexivity.
Qed.

(** Opening a source that is the name of an existing file. *)
Lemma open_source_named (path : string) (w : world) :
  is_Some (files w !! path) ->
  exists w1, checkpoint.open_source (FileName path) w
             = (Ok (checkpoint.TextHandle path, path), w1)
             /\ files w1 = files w
             /\ streams w1 = streams w
             /\ h5py_import w1 = h5py_import w
             /\ open_h5 w1 = open_h5 w.
Proof.
  intros [x Hx]. eexists. split.
  - unfold checkpoint.open_source, checkpoint.builtin_open, checkpoint.as_name,
      Backend.open_, bind, ret. simpl. rewrite Hx. reflexivity.
  - repeat split; reflexivity.
Qed.

(** X14.  A mapping dumped as JSON to a file name and loaded back from that
    name comes back as the JSON parse of the text the encoder wrote: [dump]
    leaves exactly that text in the file, and [load] parses exactly what the
    file holds. *)
Theorem dump_then_load_json
    (json_text : pyval -> option nat -> outcome string)
    (json_parse : string -> outcome pyval)
    (config_text : pyval -> outcome string)
    (config_read : gmap string fdata -> string -> outcome pyval)
    (ddict : pydict) (path fmat text : string) (fuel : nat) (w : world) :
  PyStr.lower fmat = "json" ->
  json_text (PDict ddict) (Some 2) = Ok text ->
  let dumped := checkpoint.dump json_text config_text ddict (FileName path) "w" (Some fmat) w in
  fst dumped = Ok tt
  /\ fst (checkpoint.load json_parse config_read fuel (FileName path) (Some fmat) (snd dumped))
     = json_parse text.
Proof.
  intros Hfmt Htext. cbv zeta. rewrite dump_explicit, Hfmt.
  change (dump_as json_text config_text "json" ddict (FileName path) "w")
    with (checkpoint.dicttojson json_text (PDict ddict) (FileName path) (Some 2) "w").
  rewrite dicttojson_text_writer.
  destruct (text_writer_to_name (json_text (PDict ddict) (Some 2)) path w)
    as (w' & -> & Hfiles & _).
  rewrite Htext in *. cbn [fst snd text_of] in *. split; [reflexivity|].
  destruct (open_source_named path w') as (w1 & Hopen & Hfiles1 & _).
  { rewrite Hfiles, lookup_insert_eq. eauto. }
  rewrite load_dispatch, (bind_ok _ _ _ _ _ Hopen). cbn [fst snd].
  unfold dispatch_format. rewrite Hfmt.
  change (load_as json_parse config_read "json" fuel (checkpoint.TextHandle path) path)
    with (do text <- checkpoint.read_from (checkpoint.TextHandle path); lift (json_parse text)).
  unfold bind, checkpoint.read_from, Backend.read_text, lift.
  rewrite Hfiles1, Hfiles, lookup_insert_eq. reflexivity.
Qed.

Lemma dump_then_load_json_witness :
  let dumped := checkpoint.dump sample_json_text sample_config_text DNil (FileName "d.json") "w"
                                (Some "JSON") empty_world in
  fst dumped = Ok tt
  /\ fst (checkpoint.load sample_json_parse sample_config_read 1 (FileName "d.json")
                          (Some "JSON") (snd dumped))
     = Ok (PDict DNil).
Proof.
  apply (dump_then_load_json sample_json_text sample_json_parse sample_config_text
           sample_config_read DNil "d.json" "JSON" "{}" 1 empty_world).
  - reflexivity.
  - reflexivity.
Defined.

Lemma config_format_cases (f : string) :
  checkpoint.in_list f ["ini"; "cfg"] = true -> f = "ini" \/ f = "cfg".
Proof.
  unfold checkpoint.in_list. simpl.
  destruct (String.eqb_spec f "ini"); [auto|].
  destruct (String.eqb_spec f "cfg"); [auto|]. discriminate.
Qed.

(** X15.  A mapping dumped in the configuration format to a file name is
    loaded back as the configuration document built from that file, which
    holds exactly the text the encoder wrote; [load] hands the file's name,
    not the handle it opened, to the document. *)
Theorem dump_then_load_config
    (json_text : pyval -> option nat -> outcome string)
    (json_parse : string -> outcome pyval)
    (config_text : pyval -> outcome string)
    (config_read : gmap string fdata -> string -> outcome pyval)
    (ddict : pydict) (path fmat text : string) (fuel : nat) (w : world) :
  checkpoint.in_list (PyStr.lower fmat) ["ini"; "cfg"] = true ->
  config_text (PDict ddict) = Ok text ->
  let dumped := checkpoint.dump json_text config_text ddict (FileName path) "w" (Some fmat) w in
  fst dumped = Ok tt
  /\ fst (checkpoint.load json_parse config_read fuel (FileName path) (Some fmat) (snd dumped))
     = config_read (<[path := FText text]> (files w)) path.
Proof.
  intros Hfmt Htext. cbv zeta. rewrite dump_explicit.
  assert (Hdump : dump_as json_text config_text (PyStr.lower fmat) ddict (FileName path) "w"
                  = checkpoint.dicttoini config_text (PDict ddict) (FileName path) "w").
  { destruct (config_format_cases _ Hfmt) as [-> | ->]; reflexivity. }
  assert (Hload : forall f,
    load_as json_parse config_read (PyStr.lower fmat) fuel f path
    = fun w0 => (config_read (files w0) path, w0)).
  { intros f. destruct (config_format_cases _ Hfmt) as [-> | ->]; reflexivity. }
  rewrite Hdump, dicttoini_text_writer.
  destruct (text_writer_to_name (config_text (PDict ddict)) path w)
    as (w' & -> & Hfiles & _).
  rewrite Htext in *. cbn [fst snd text_of] in *. split; [reflexivity|].
  destruct (open_source_named path w') as (w1 & Hopen & Hfiles1 & _).
  { rewrite Hfiles, lookup_insert_eq. eauto. }
  rewrite load_dispatch, (bind_ok _ _ _ _ _ Hopen). cbn [fst snd].
  unfold dispatch_format. rewrite Hload. cbn [fst]. rewrite Hfiles1, Hfiles. reflexivity.
Qed.

Lemma dump_then_load_config_witness :
  let dumped := checkpoint.dump sample_json_text sample_config_text DNil (FileName "d.ini") "w"
                                (Some "ini") empty_world in
  fst dumped = Ok tt
  /\ fst (checkpoint.load sample_json_parse sample_config_read 1 (FileName "d.ini")
                          (Some "ini") (snd dumped))
     = Ok (PDict DNil).
Proof.
  apply (dump_then_load_config sample_json_text sample_json_parse sample_config_text
           sample_config_read DNil "d.ini" "ini" "" 1 empty_world).
  - reflexivity.
  - reflexivity.
Defined.

(** ** The format argument *)

Lemma lower_char_idempotent (c : ascii) :
  PyStr.lower_char (PyStr.lower_char c) = PyStr.lower_char c.
Proof. destruct c as [[] [] [] [] [] [] [] []]; vm_compute; reflexivity. Qed.

Lemma lower_idempotent (s : string) : PyStr.lower (PyStr.lower s) = PyStr.lower s.
Proof.
  induction s as [|c r IH]; [reflexivity|].
  cbn [PyStr.lower]. rewrite lower_char_idempotent, IH. reflexivity.
Qed.

(** X16.  The format argument of [dump] and [load] is matched without regard
    to case: a format and its lower-cased spelling select the same branch
    and give the same result. *)
Theorem format_argument_ignores_case
    (json_text : pyval -> option nat -> outcome string)
    (json_parse : string -> outcome pyval)
    (config_text : pyval -> outcome string)
    (config_read : gmap string fdata -> string -> outcome pyval)
    (ddict : pydict) (ffile : pyfile) (mode fmat : string) (fuel : nat) (w : world) :
  checkpoint.dump json_text config_text ddict ffile mode (Some fmat) w
  = checkpoint.dump json_text config_text ddict ffile mode (Some (PyStr.lower fmat)) w
  /\ checkpoint.load json_parse config_read fuel ffile (Some fmat) w
     = checkpoint.load json_parse config_read fuel ffile (Some (PyStr.lower fmat)) w.
Proof.
  split.
  - rewrite !dump_explicit, lower_idempotent. reflexivity.
  - rewrite !load_dispatch. unfold dispatch_format. rewrite lower_idempotent. reflexivity.
Qed.

(** ** The extension of a file name *)

Lemma append_cons (c : ascii) (r b : string) : String c r +:+ b = String c (r +:+ b).
Proof. reflexivity. Qed.

Lemma rfind_from_app (c : ascii) (a b : string) :
  forall (i found : Z),
    PyStr.rfind_from c (a +:+ b) i found
    = PyStr.rfind_from c b (i + Z.of_nat (String.length a)) (PyStr.rfind_from c a i found).
Proof.
  induction a as [|x r IH]; intros i found.
  - change ("" +:+ b) with b. cbn [String.length PyStr.rfind_from]. f_equal. lia.
  - rewrite append_cons. cbn [PyStr.rfind_from String.length]. rewrite IH. f_equal. lia.
Qed.

Lemma rfind_from_absent (c : ascii) (s : string) :
  forallb (fun x => negb (Ascii.eqb x c)) (list_ascii_of_string s) = true ->
  forall (i found : Z), PyStr.rfind_from c s i found = found.
Proof.
  induction s as [|x r IH]; intros H i found; [reflexivity|].
  cbn [list_ascii_of_string forallb] in H. apply andb_true_iff in H as [Hx Hr].
  cbn [PyStr.rfind_from]. apply negb_true_iff in Hx. rewrite Hx. apply IH, Hr.
Qed.

Lemma rfind_from_below (c : ascii) (s : string) :
  forall (i found : Z),
    (found < i)%Z -> (PyStr.rfind_from c s i found < i + Z.of_nat (String.length s))%Z.
Proof.
  induction s as [|x r IH]; intros i found H; cbn [PyStr.rfind_from String.length].
  - lia.
  - specialize (IH (i + 1)%Z (if Ascii.eqb x c then i else found)).
    destruct (Ascii.eqb x c); lia.
Qed.

Lemma rfind_from_above (c : ascii) (s : string) :
  forall (i found : Z), (-1 <= found)%Z -> (0 <= i)%Z -> (-1 <= PyStr.rfind_from c s i found)%Z.
Proof.
  induction s as [|x r IH]; intros i found H Hi; cbn [PyStr.rfind_from]; [exact H|].
  apply IH; [destruct (Ascii.eqb x c); lia|lia].
Qed.

Lemma plain_extension_absent (ext : string) :
  plain_extension ext = true ->
  forallb (fun x => negb (Ascii.eqb x ".")) (list_ascii_of_string ext) = true
  /\ forallb (fun x => negb (Ascii.eqb x "/")) (list_ascii_of_string ext) = true.
Proof.
  unfold plain_extension. induction (list_ascii_of_string ext) as [|x l IH]; [auto|].
  cbn [forallb]. rewrite !andb_true_iff. intros [[H1 H2] Hl]. destruct (IH Hl). auto.
Qed.

Lemma drop_app (s rest : string) :
  forall k, k <= String.length s -> PyStr.drop k (s +:+ rest) = PyStr.drop k s +:+ rest.
Proof.
  induction s as [|x r IH]; intros k Hk.
  - cbn [String.length] in Hk. replace k with 0 by lia. reflexivity.
  - destruct k as [|k]; [reflexivity|].
    rewrite append_cons. cbn [PyStr.drop]. apply IH. cbn [String.length] in Hk. lia.
Qed.

Lemma drop_all (s rest : string) : PyStr.drop (String.length s) (s +:+ rest) = rest.
Proof.
  induction s as [|x r IH]; [destruct rest; reflexivity|].
  rewrite append_cons. cbn [String.length PyStr.drop]. exact IH.
Qed.

Lemma take_app (s rest : string) :
  forall n, n <= String.length s -> PyStr.take n (s +:+ rest) = PyStr.take n s.
Proof.
  induction s as [|x r IH]; intros n Hn.
  - cbn [String.length] in Hn. replace n with 0 by lia. reflexivity.
  - destruct n as [|n]; [reflexivity|].
    rewrite append_cons. cbn [PyStr.take]. f_equal. apply IH. cbn [String.length] in Hn. lia.
Qed.

Lemma drop_length (s : string) :
  forall k, String.length (PyStr.drop k s) = String.length s - k.
Proof.
  induction s as [|x r IH]; intros k; destruct k as [|k]; cbn [PyStr.drop String.length];
    try reflexivity.
  apply IH.
Qed.

Lemma has_non_dot_app (stem rest : string) (lo : nat) :
  lo <= String.length stem ->
  PyStr.has_non_dot (stem +:+ rest) lo (String.length stem)
  = PyStr.has_non_dot stem lo (String.length stem).
Proof.
  intros Hlo. unfold PyStr.has_non_dot.
  rewrite (drop_app stem rest lo Hlo).
  rewrite (take_app (PyStr.drop lo stem) rest); [reflexivity|].
  rewrite drop_length. lia.
Qed.

(** The extension of a name that ends in a dot and a plain extension, when
    the last component has a name before that dot. *)
Lemma extension_of_name (stem ext : string) :
  plain_extension ext = true ->
  last_component_named stem = true ->
  PyStr.extension (stem +:+ "." +:+ ext) = ext.
Proof.
  intros Hext Hstem. destruct (plain_extension_absent ext Hext) as [Hdot Hslash].
  set (n := String.length stem).
  assert (Hd : PyStr.rfind "." (stem +:+ "." +:+ ext) = Z.of_nat n).
  { unfold PyStr.rfind. rewrite rfind_from_app.
    change ("." +:+ ext) with (String "." ext). cbn [PyStr.rfind_from Ascii.eqb Bool.eqb].
    rewrite (rfind_from_absent "." ext Hdot). fold n. lia. }
  assert (Hs : PyStr.rfind "/" (stem +:+ "." +:+ ext) = PyStr.rfind "/" stem).
  { unfold PyStr.rfind. rewrite rfind_from_app.
    change ("." +:+ ext) with (String "." ext). cbn [PyStr.rfind_from Ascii.eqb Bool.eqb].
    apply (rfind_from_absent "/" ext Hslash). }
  assert (Hlt : (PyStr.rfind "/" stem < Z.of_nat n)%Z).
  { unfold PyStr.rfind. pose proof (rfind_from_below "/" stem 0 (-1)) as H. fold n in H. lia. }
  assert (Hge : (-1 <= PyStr.rfind "/" stem)%Z).
  { unfold PyStr.rfind. apply rfind_from_above; lia. }
  unfold PyStr.extension, PyStr.splitext. rewrite Hd, Hs.
  destruct (Z.ltb_spec (PyStr.rfind "/" stem) (Z.of_nat n)) as [_|Hcontra]; [|lia].
  rewrite Nat2Z.id. unfold n at 1.
  rewrite has_non_dot_app by (fold n; lia).
  unfold last_component_named in Hstem. rewrite Hstem.
  cbn [snd]. unfold n. rewrite drop_all. reflexivity.
Qed.

(** X17.  When no format is given, [dump] and [load] take it from the file
    name: for a name that ends in a dot followed by an extension free of dots
    and separators, and whose last component has a name before that dot, the
    call does what it does with that extension given as the format. *)
Theorem format_inferred_from_extension
    (json_text : pyval -> option nat -> outcome string)
    (json_parse : string -> outcome pyval)
    (config_text : pyval -> outcome string)
    (config_read : gmap string fdata -> string -> outcome pyval)
    (ddict : pydict) (stem ext mode : string) (fuel : nat) (w : world) :
  plain_extension ext = true ->
  last_component_named stem = true ->
  let name := stem +:+ "." +:+ ext in
  checkpoint.dump json_text config_text ddict (FileName name) mode None w
  = checkpoint.dump json_text config_text ddict (FileName name) mode (Some ext) w
  /\ checkpoint.load json_parse config_read fuel (FileName name) None w
     = checkpoint.load json_parse config_read fuel (FileName name) (Some ext) w.
Proof.
  intros Hext Hstem. cbv zeta. split.
  - rewrite dump_inferred, dump_explicit, (extension_of_name stem ext Hext Hstem). reflexivity.
  - rewrite !load_dispatch. apply bind_cont. intros [f fname] w' Hopen. cbn [fst snd].
    assert (Hname : fname = stem +:+ "." +:+ ext).
    { unfold checkpoint.open_source, checkpoint.builtin_open, checkpoint.as_name in Hopen.
      cbn [checkpoint.hasattr_read negb] in Hopen.
      apply bind_inv in Hopen as (h & w1 & _ & Hopen).
      unfold bind, ret in Hopen. inversion Hopen. reflexivity. }
    unfold dispatch_format. rewrite Hname, (extension_of_name stem ext Hext Hstem). reflexivity.
Qed.

Lemma format_inferred_from_extension_witness :
  checkpoint.dump sample_json_text sample_config_text DNil (FileName "runs/ckpt.JSON") "w" None
                  empty_world
  = checkpoint.dump sample_json_text sample_config_text DNil (FileName "runs/ckpt.JSON") "w"
                    (Some "JSON") empty_world.
Proof.
  apply (format_inferred_from_extension sample_json_text sample_json_parse sample_config_text
           sample_config_read DNil "runs/ckpt" "JSON" "w" 1 empty_world).
  - reflexivity.
  - reflexivity.
Defined.

(** ** Dump and load through the container format *)

(** X18.  With the container format, [dump] followed by [load] is the round
    trip of [save_checkpoint] and [load_checkpoint]: a tree of the round trip
    (keys the container stores as they are, so without NUL; leaves that are
    integers, booleans and gradient-free tensors of an element type numpy
    has), dumped to the name of a file that is not open, is loaded back as a
    mapping with the same keys and nesting whose leaves are the tensors of
    the original leaves. *)
Theorem dump_then_load_container
    (json_text : pyval -> option nat -> outcome string)
    (json_parse : string -> outcome pyval)
    (config_text : pyval -> outcome string)
    (config_read : gmap string fdata -> string -> outcome pyval)
    (ddict : pydict) (name fmat : string) (fuel : nat) (w : world) :
  h5py_import w = None ->
  name ∉ open_h5 w ->
  container_format (PyStr.lower fmat) = true ->
  roundtrip_tree ddict = true ->
  depth_tree ddict < fuel ->
  let dumped := checkpoint.dump json_text config_text ddict (FileName name) "w" (Some fmat) w in
  fst dumped = Ok tt
  /\ exists back,
       fst (checkpoint.load json_parse config_read fuel (FileName name) (Some fmat) (snd dumped))
       = Ok (PDict back)
       /\ same_tree ddict back.
Proof.
  intros Himp Hclosed Hfmt Htree Hdepth. cbv zeta.
  destruct (container_format_branches _ Hfmt) as (Hj & Hh).
  assert (Hmiss : forall w0, h5py_import w0 = None -> Backend.h5py_missing w0 = (Ok false, w0)).
  { intros w0 H0. unfold Backend.h5py_missing. rewrite H0. reflexivity. }
  destruct (writer_run checkpoint._prepare_hdf5_dataset ddict name "/" None
              (Group (members_of checkpoint._prepare_hdf5_dataset None ddict)) w
              Himp Hclosed)
    as (w' & Hrun & Himp' & Hfile').
  { change (with_slash "/") with "/".
    rewrite (write_into_roundtrip None ddict "/" ∅ eq_refl eq_refl Htree)
      by (intros; apply lookup_empty).
    rewrite (right_id_L ∅ (∪)). reflexivity. }
  assert (Hdump : checkpoint.dump json_text config_text ddict (FileName name) "w" (Some fmat) w
                  = (Ok tt, w')).
  { rewrite dump_explicit. unfold dump_as. rewrite Hj, Hh.
    rewrite (bind_ok _ _ _ _ _ (Hmiss w Himp)).
    unfold bind at 1. unfold ret at 1. cbv beta iota.
    rewrite save_checkpoint_writer. exact Hrun. }
  rewrite Hdump. cbn [fst snd]. split; [reflexivity|].
  destruct (open_source_named name w') as (w1 & Hopen & Hfiles1 & _ & Himp1 & _).
  { rewrite Hfile'. eauto. }
  destruct (read_roundtrip None fuel ddict "/" _ eq_refl Htree Hdepth) as (back & Hread & Hsame).
  exists back. split; [|exact Hsame].
  rewrite load_dispatch, (bind_ok _ _ _ _ _ Hopen). cbn [fst snd].
  unfold dispatch_format, load_as. rewrite Hj, Hh.
  assert (Himp1' : h5py_import w1 = None) by congruence.
  rewrite (bind_ok _ _ _ _ _ (Hmiss w1 Himp1')).
  unfold bind at 1. unfold ret at 1. cbv beta iota.
  assert (Hfile1 : files w1 !! name
                   = Some (FContainer (Group (members_of checkpoint._prepare_hdf5_dataset
                                                         None ddict)))).
  { rewrite Hfiles1. exact Hfile'. }
  pose proof (load_from_name fuel name "/" None _ w1 Himp1' Hfile1) as Hload.
  rewrite Hread in Hload.
  unfold bind.
  destruct (checkpoint.load_checkpoint fuel (FileName name) "/" None w1) as [o w2].
  cbn [fst] in Hload. subst o. reflexivity.
Qed.

Lemma dump_then_load_container_witness :
  let t := Torch.mk_tensor (Torch.Cuda 0) false Torch.TFloat32 [2]
                           [IFloat 0; IFloat 1065353216] in
  let tree := DCons "epoch" (PInt 7)
                (DCons "model" (PDict (DCons "weight" (PTensor t) DNil)) DNil) in
  let dumped := checkpoint.dump sample_json_text sample_config_text tree (FileName "ckpt.h5")
                                "w" (Some "H5") empty_world in
  fst dumped = Ok tt
  /\ exists back,
       fst (checkpoint.load sample_json_parse sample_config_read 2 (FileName "ckpt.h5")
                            (Some "H5") (snd dumped))
       = Ok (PDict back)
       /\ same_tree tree back.
Proof.
  cbv zeta.
  apply (dump_then_load_container sample_json_text sample_json_parse sample_config_text
           sample_config_read
           (DCons "epoch" (PInt 7)
              (DCons "model"
                 (PDict (DCons "weight"
                           (PTensor (Torch.mk_tensor (Torch.Cuda 0) false Torch.TFloat32 [2]
                                                     [IFloat 0; IFloat 1065353216]))
                           DNil))
                 DNil))
           "ckpt.h5" "H5" 2 empty_world).
  - reflexivity.
  - apply not_elem_of_nil.
  - reflexivity.
  - reflexivity.
  - simpl. lia.
Defined.

(** ** Sources that are streams *)

(** X19.  Given a readable object that has a name, [load] with the JSON
    format parses what the object yields and touches nothing else: no file is
    opened, and the world is left as it was.  The name serves only to infer
    the format. *)
Theorem load_json_from_a_named_stream
    (json_parse : string -> outcome pyval)
    (config_read : gmap string fdata -> string -> outcome pyval)
    (fuel id : nat) (has_write : bool) (name : string) (fmat : option string) (w : world) :
  dispatch_format fmat name = "json" ->
  checkpoint.load json_parse config_read fuel
                  (FileObj (mk_fileobj id true has_write (Some name))) fmat w
  = (json_parse (default "" (streams w !! id)), w).
Proof.
  intros Hfmt. rewrite load_dispatch.
  unfold checkpoint.open_source, checkpoint.as_stream, checkpoint.name_of.
  cbn [checkpoint.hasattr_read fo_has_read negb fo_name].
  unfold bind at 1. unfold bind at 1. unfold ret at 1. cbv beta iota.
  unfold bind at 1. unfold ret at 1. cbv beta iota.
  unfold ret at 1. cbv beta iota. cbn [fst snd]. rewrite Hfmt.
  reflexivity.
Qed.

Lemma load_json_from_a_named_stream_witness :
  checkpoint.load sample_json_parse sample_config_read 1
                  (FileObj (mk_fileobj 0 true false (Some "state.json"))) None
                  (mk_world None ∅ {[0 := "{}"]} [] [] [])
  = (Ok (PDict DNil), mk_world None ∅ {[0 := "{}"]} [] [] []).
Proof.
  rewrite (load_json_from_a_named_stream sample_json_parse sample_config_read 1 0 false
             "state.json" None (mk_world None ∅ {[0 := "{}"]} [] [] []) eq_refl).
  reflexivity.
Defined.

(** ** Tensors in device memory *)

Lemma dict_len_to_host (d : pydict) : dict_len (to_host d) = dict_len d.
Proof. induction d as [|key value rest IH]; [reflexivity|]. simpl. rewrite IH. reflexivity. Qed.

Lemma write_items_to_host (args : option pydict) (d : pydict) :
  forall (h5f h5path : string) (w : world),
    write_items checkpoint._prepare_hdf5_dataset (to_host d) h5f h5path args w
    = write_items checkpoint._prepare_hdf5_dataset d h5f h5path args w.
Proof.
  induction d as [| | | | | | | | |sub IHsub| |key value IHvalue rest IHrest]
    using pydict_mut
    with (P := fun v => match v with
                        | PDict sub =>
                          forall h5f h5path w,
                            write_items checkpoint._prepare_hdf5_dataset (to_host sub)
                                        h5f h5path args w
                            = write_items checkpoint._prepare_hdf5_dataset sub h5f h5path args w
                        | _ => True
                        end); try exact I; try exact IHsub.
  - reflexivity.
  - intros h5f h5path w. cbn [to_host write_items].
    apply bind_ext; [|intros; apply IHrest].
    destruct value; try reflexivity.
    cbn [to_host_value]. rewrite dict_len_to_host.
    destruct (0 <? dict_len d)%nat; [|reflexivity].
    apply bind_ext; [reflexivity|]. intros missing w1.
    destruct missing; [reflexivity|].
    apply bind_ext; [apply IHvalue|reflexivity].
Qed.

(** X20.  [save_checkpoint] writes a tensor through its host copy, so the
    device a tensor lives on leaves no mark: a tree is written exactly as
    the same tree with every tensor moved to host memory. *)
Theorem save_checkpoint_ignores_device (treedict : pydict) (h5file : pyfile)
    (h5path mode : string) (overwrite_data : bool) (args : option pydict) (w : world) :
  checkpoint.save_checkpoint (to_host treedict) h5file h5path mode overwrite_data args w
  = checkpoint.save_checkpoint treedict h5file h5path mode overwrite_data args w.
Proof.
  rewrite !save_checkpoint_writer. unfold writer_of.
  apply bind_ext; [reflexivity|]. intros missing w1.
  destruct missing; [reflexivity|].
  apply bind_ext; [reflexivity|]. intros h5f w2.
  apply bind_ext; [apply write_items_to_host|reflexivity].
Qed.

(** ** What the encoders accept and return *)

(** X21.  The encoder of the checkpoint module returns an array exactly for
    the integers (booleans among them) and for the tensors that record no
    gradient and whose element type numpy has; every other value makes it
    raise, a tensor of an element type numpy lacks among them. *)
Theorem checkpoint_encoder_domain (v : pyval) :
  if encodable v
  then exists a, checkpoint._prepare_hdf5_dataset v = Ok (NdArray a)
  else exists e, checkpoint._prepare_hdf5_dataset v = Raise e.
Proof.
  rewrite checkpoint_encoder_cases.
  destruct v; cbn [encodable]; try (eexists; reflexivity).
  - simpl. repeat case_match; eexists; reflexivity.
  - destruct (PyStr.is_ascii s); eexists; reflexivity.
  - unfold Torch.numpy. cbn [Torch.cpu Torch.requires_grad Torch.device_of Torch.tdtype_of].
    destruct (Torch.requires_grad t); [eexists; reflexivity|].
    destruct (Torch.numpy_dtype (Torch.tdtype_of t)); eexists; reflexivity.
Qed.

(** X22.  The encoder of the older module never returns an array of
    unicode text or of unsigned integers: whenever the array it built has
    one of these element kinds, what it returns is the byte-string
    re-coercion of that array. *)
Theorem legacy_encoder_output_kinds (v : pyval) (a : ndarray) :
  dic_to_h5._prepare_hdf5_dataset v = Ok (NdArray a) ->
  kind (dtype_of a) <> "U" /\ kind (dtype_of a) <> "u".
Proof.
  rewrite legacy_encoder_steps. intros H.
  apply and_then_ok in H as (x & _ & H).
  apply and_then_ok in H as ([a0|b] & _ & H); [|discriminate H].
  destruct (checkpoint.in_list (PyStr.lower (kind (dtype_of a0))) ["s"; "u"]) eqn:E.
  - apply and_then_ok in H as (a' & Ha' & H). injection H as <-.
    unfold astype_string in Ha'.
    destruct (dtype_of a0) eqn:E0; try discriminate Ha';
      first [ injection Ha' as <-; rewrite E0
            | apply and_then_ok in Ha' as (l & _ & Ha'); injection Ha' as <- ];
      split; discriminate.
  - injection H as <-.
    destruct (dtype_of a0); simpl in E; try discriminate E; split; discriminate.
Qed.

Lemma legacy_encoder_output_kinds_witness :
  kind (DBytes 2) <> "U" /\ kind (DBytes 2) <> "u".
Proof.
  apply (legacy_encoder_output_kinds (PStrList ["a"; "bc"]) (bytes_array ["a"; "bc"])).
  reflexivity.
Defined.

(** ** Datasets that exist already *)

Lemma still_refl (n : node) : still n n.
Proof. destruct n; reflexivity. Qed.

Lemma still_trans (n1 n2 n3 : node) : still n1 n2 -> still n2 n3 -> still n1 n3.
Proof.
  destruct n1 as [g|a o]; cbn [still].
  - destruct n2 as [g2|a2 o2]; [|discriminate]. intros _ H. exact H.
  - intros ->. cbn [still]. intros H. exact H.
Qed.

Lemma keeps_members_refl (root : node) : keeps_members root root.
Proof. intros segs n H. exists n. split; [exact H|apply still_refl]. Qed.

Lemma keeps_members_trans (r1 r2 r3 : node) :
  keeps_members r1 r2 -> keeps_members r2 r3 -> keeps_members r1 r3.
Proof.
  intros H12 H23 segs n H.
  destruct (H12 segs n H) as (n2 & H2 & S2).
  destruct (H23 segs n2 H2) as (n3 & H3 & S3).
  exists n3. split; [exact H3|exact (still_trans _ _ _ S2 S3)].
Qed.

Lemma create_at_keeps (segs : list string) (new : node) :
  forall cur cur', create_at segs new cur = Ok cur' -> keeps_members cur cur'.
Proof.
  induction segs as [|k rest IH]; intros cur cur' H; destruct cur as [g|a o];
    cbn [create_at] in H; try discriminate H.
  destruct rest as [|k2 r2].
  - destruct (g !! k) eqn:E; [discriminate H|]. injection H as <-.
    intros [|k' r'] n Hres.
    + injection Hres as <-. eexists. split; reflexivity.
    + cbn [resolve] in *.
      destruct (decide (k = k')) as [->|Hne].
      * rewrite E in Hres. discriminate Hres.
      * rewrite lookup_insert_ne by exact Hne.
        exists n. split; [exact Hres|apply still_refl].
  - apply and_then_ok in H as (child' & Hchild & H). injection H as <-.
    intros [|k' r'] n Hres.
    + injection Hres as <-. eexists. split; reflexivity.
    + cbn [resolve] in *.
      destruct (decide (k = k')) as [->|Hne].
      * rewrite lookup_insert_eq.
        destruct (g !! k') as [child|] eqn:E; [|discriminate Hres].
        cbn [default from_option] in Hchild. unfold id in Hchild.
        exact (IH child child' Hchild r' n Hres).
      * rewrite lookup_insert_ne by exact Hne.
        exists n. split; [exact Hres|apply still_refl].
Qed.

Lemma evolves_ret {A : Type} (h5f : string) (a : A) : evolves h5f (ret a).
Proof. intros w root Hs. exists root. split; [exact Hs|apply keeps_members_refl]. Qed.

Lemma evolves_lift {A : Type} (h5f : string) (o : outcome A) : evolves h5f (lift o).
Proof. intros w root Hs. exists root. split; [exact Hs|apply keeps_members_refl]. Qed.

Lemma evolves_h5py_missing (h5f : string) : evolves h5f Backend.h5py_missing.
Proof. intros w root Hs. exists root. split; [exact Hs|apply keeps_members_refl]. Qed.

Lemma evolves_raise_import {A : Type} (h5f : string) :
  evolves h5f (@Backend.raise_h5py_import_error A).
Proof.
  intros w root Hs. exists root. split; [|apply keeps_members_refl].
  unfold Backend.raise_h5py_import_error. destruct (h5py_import w); exact Hs.
Qed.

Lemma evolves_bind {A B : Type} (h5f : string) (c : M A) (k : A -> M B) :
  evolves h5f c -> (forall a, evolves h5f (k a)) -> evolves h5f (bind c k).
Proof.
  intros Hc Hk w root Hs. destruct (Hc w root Hs) as (root1 & Hs1 & H1).
  unfold bind. destruct (c w) as [[a| |] w1]; cbn [snd] in *; [|eauto|eauto].
  destruct (Hk a w1 root1 Hs1) as (root2 & Hs2 & H2).
  exists root2. split; [exact Hs2|exact (keeps_members_trans _ _ _ H1 H2)].
Qed.

Lemma evolves_create (h5f name : string) (e : event) (new : outcome node) :
  evolves h5f (run log e;
               do root <- Backend.root_of h5f;
               do new' <- lift new;
               do root' <- lift (create_at (segments name) new' root);
               Backend.set_root h5f root').
Proof.
  intros w root Hs.
  unfold bind at 1. unfold log at 1.
  rewrite (bind_ok _ _ _ _ _ (session_root_of _ _ _ (session_emit _ _ e _ Hs))).
  unfold bind at 1, lift at 1.
  destruct new as [new'| |];
    [|exists root; split; [exact Hs|apply keeps_members_refl]..].
  unfold bind at 1, lift at 1.
  destruct (create_at (segments name) new' root) as [root'| |] eqn:E;
    [|exists root; split; [exact Hs|apply keeps_members_refl]..].
  exists root'. split.
  - apply session_set_root with (root := root). apply session_emit, Hs.
  - exact (create_at_keeps _ _ _ _ E).
Qed.

Lemma evolves_create_group (h5f name : string) : evolves h5f (Backend.create_group h5f name).
Proof.
  intros w root Hs.
  destruct (evolves_create h5f name (CreateGroup h5f name) (Ok (Group ∅)) w root Hs)
    as (root' & Hs' & Hk).
  exists root'. split; [exact Hs'|exact Hk].
Qed.

Lemma evolves_create_dataset (h5f name : string) (ds : npvalue) (kwargs : option pydict) :
  evolves h5f (Backend.create_dataset h5f name ds kwargs).
Proof.
  exact (evolves_create h5f name (CreateDataset h5f name ds kwargs)
           (Backend.dataset_node ds kwargs)).
Qed.

Lemma evolves_write_items (enc : pyval -> outcome npvalue) (args : option pydict) (d : pydict)
    (h5f : string) :
  forall h5path, evolves h5f (write_items enc d h5f h5path args).
Proof.
  induction d as [| | | | | | | | |sub IHsub| |key value IHvalue rest IHrest]
    using pydict_mut
    with (P := fun v => match v with
                        | PDict sub =>
                          forall h5path, evolves h5f (write_items enc sub h5f h5path args)
                        | _ => True
                        end); try exact I; try exact IHsub.
  - intros. apply evolves_ret.
  - intros h5path. cbn [write_items].
    apply evolves_bind; [|intros _; apply IHrest].
    assert (Hleaf : evolves h5f
      (do ds <- lift (enc value);
       if bool_decide (np_shape ds = []) || match args with None => true | Some _ => false end
       then Backend.create_dataset h5f (h5path +:+ key) ds None
       else Backend.create_dataset h5f (h5path +:+ key) ds args)).
    { apply evolves_bind; [apply evolves_lift|]. intros ds.
      rewrite passed_options. apply evolves_create_dataset. }
    destruct value; try exact Hleaf; try apply evolves_create_group.
    destruct (0 <? dict_len d)%nat; [|apply evolves_create_group].
    apply evolves_bind; [apply evolves_h5py_missing|]. intros missing.
    destruct missing; [apply evolves_raise_import|].
    apply evolves_bind; [apply IHvalue|]. intros _. apply evolves_ret.
Qed.

Lemma evolves_writer (enc : pyval -> outcome npvalue) (treedict : pydict)
    (h5f h5path mode : string) (args : option pydict) :
  evolves h5f (writer_of enc treedict (H5File h5f) h5path mode args).
Proof.
  unfold writer_of.
  apply evolves_bind; [apply evolves_h5py_missing|]. intros missing.
  destruct missing; [apply evolves_raise_import|].
  unfold bind at 1. unfold ret at 1.
  apply evolves_bind; [apply evolves_write_items|]. intros _. apply evolves_ret.
Qed.

(** X23.  Written through an open handle, a tree never changes or removes a
    dataset that the container held before: whatever the tree and whether
    the call completes or raises, every such dataset is still at its place
    with its content afterwards, with either writer. *)
Theorem writers_keep_existing_datasets (treedict : pydict) (h5f h5path mode : string)
    (overwrite_data : bool) (args : option pydict) (root : node)
    (segs : list string) (a : ndarray) (options : pydict) (w : world) :
  h5py_import w = None ->
  h5f ∈ open_h5 w ->
  files w !! h5f = Some (FContainer root) ->
  resolve segs root = Some (Dataset a options) ->
  (exists root',
      files (snd (checkpoint.save_checkpoint treedict (H5File h5f) h5path mode
                                             overwrite_data args w)) !! h5f
      = Some (FContainer root')
      /\ resolve segs root' = Some (Dataset a options))
  /\ (exists root',
         files (snd (dic_to_h5.dicttoh5 treedict (H5File h5f) h5path mode
                                        overwrite_data args w)) !! h5f
         = Some (FContainer root')
         /\ resolve segs root' = Some (Dataset a options)).
Proof.
  intros Himp Hopen Hfile Hthere.
  assert (Hs : session h5f root w) by (repeat split; assumption).
  rewrite save_checkpoint_writer, dicttoh5_writer. split.
  - destruct (evolves_writer checkpoint._prepare_hdf5_dataset treedict h5f h5path mode args
                w root Hs) as (root' & (_ & _ & Hfile') & Hkeeps).
    destruct (Hkeeps _ _ Hthere) as (n' & Hn' & Hstill). cbn [still] in Hstill. subst n'.
    exists root'. split; [exact Hfile'|exact Hn'].
  - destruct (evolves_writer dic_to_h5._prepare_hdf5_dataset treedict h5f h5path mode args
                w root Hs) as (root' & (_ & _ & Hfile') & Hkeeps).
    destruct (Hkeeps _ _ Hthere) as (n' & Hn' & Hstill). cbn [still] in Hstill. subst n'.
    exists root'. split; [exact Hfile'|exact Hn'].
Qed.

Lemma writers_keep_existing_datasets_witness :
  exists root',
    files (snd (checkpoint.save_checkpoint
                  (DCons "epoch" (PInt 3) (DCons "counter" (PInt 0) DNil))
                  (H5File "scan.h5") "/" "a" true None open_scan_world)) !! "scan.h5"
    = Some (FContainer root')
    /\ resolve ["counter"] root'
       = Some (Dataset (mk_ndarray (DInt 8) [2] [IInt 1; IInt 2]) DNil).
Proof.
  destruct (writers_keep_existing_datasets
              (DCons "epoch" (PInt 3) (DCons "counter" (PInt 0) DNil))
              "scan.h5" "/" "a" true None (Group scan_root) ["counter"]
              (mk_ndarray (DInt 8) [2] [IInt 1; IInt 2]) DNil open_scan_world
              eq_refl (list_elem_of_here _ _) eq_refl eq_refl) as (H & _).
  exact H.
Defined.

(** ** Writing and reading below a path *)

Lemma split_slash_no_slash (p : string) :
  Forall (fun s => no_slash s = true) (split_slash p).
Proof.
  induction p as [|c r IH]; simpl.
  - repeat constructor.
  - destruct (Ascii.eqb c "/") eqn:E.
    + constructor; [reflexivity|exact IH].
    + destruct (split_slash r) as [|seg segs]; [repeat constructor; unfold no_slash; simpl;
                                                 rewrite E; reflexivity|].
      inversion IH as [|? ? Hseg Hsegs]; subst.
      constructor; [|exact Hsegs].
      unfold no_slash in *. simpl. rewrite E. exact Hseg.
Qed.

Lemma segments_valid (p : string) : Forall (fun s => valid_key s = true) (segments p).
Proof.
  unfold segments. pose proof (split_slash_no_slash p) as H.
  induction H as [|s l Hs Hl IH]; simpl; [constructor|].
  destruct (is_member_name s) eqn:E; [|exact IH].
  constructor; [|exact IH]. unfold valid_key. rewrite E, Hs. reflexivity.
Qed.

Lemma path_of_ends (segs : list string) : PyStr.ends_with_slash (path_of segs) = true.
Proof.
  induction segs as [|k rest IH]; [reflexivity|].
  cbn [path_of]. rewrite ends_with_slash_append by discriminate.
  cbn [PyStr.ends_with_slash]. destruct (path_of rest); [reflexivity|exact IH].
Qed.

Lemma segments_path_of (segs : list string) :
  Forall (fun s => valid_key s = true) segs -> segments (path_of segs) = segs.
Proof.
  induction 1 as [|k rest Hk Hrest IH]; [reflexivity|].
  cbn [path_of]. rewrite segments_app, (segments_key k Hk), IH. reflexivity.
Qed.

(** A tree of the round trip, written below a path into an empty
    container: its image is the group at the end of that path. *)
Lemma write_into_below (args : option pydict) (d : pydict) :
  roundtrip_tree d = true -> d <> DNil ->
  forall (segs : list string) (p : string),
    Forall (fun s => valid_key s = true) segs ->
    PyStr.ends_with_slash p = true -> segments p = segs ->
    exists root',
      write_into checkpoint._prepare_hdf5_dataset args d p (Group ∅) = Ok root'
      /\ resolve segs root'
         = Some (Group (members_of checkpoint._prepare_hdf5_dataset args d)).
Proof.
  intros Htree Hne. induction segs as [|k pre IH]; intros p Hvalid Hp Hseg.
  - eexists. split.
    + rewrite (write_into_roundtrip args d p ∅ Hp Hseg Htree) by (intros; apply lookup_empty).
      rewrite (right_id_L ∅ (∪)). reflexivity.
    + reflexivity.
  - inversion Hvalid as [|? ? Hk Hpre]; subst.
    destruct (IH (path_of pre) Hpre (path_of_ends pre) (segments_path_of pre Hpre))
      as (inner & Hinner & Hres).
    exists (Group (<[k := inner]> ∅)). split.
    + rewrite (write_into_under _ args d p (path_of pre) k pre ∅ (roundtrip_keys_ok d Htree)
                 Hp (path_of_ends pre) Hseg (segments_path_of pre Hpre) (or_introl Hne)).
      rewrite lookup_empty. cbn [default from_option]. rewrite Hinner. reflexivity.
    + cbn [resolve]. rewrite lookup_insert_eq. exact Hres.
Qed.

(** X24.  The round trip holds below a path.  Let [h5path] be the root or
    an absolute path [/k1/.../kn] of names the container stores as they are
    (non-empty, not [.], free of the separator and of NUL).  A non-empty tree
    of the round trip, written by [save_checkpoint] under [h5path] into a
    file that is not open, is read back by [load_checkpoint] from that same
    path as a mapping with the same keys and nesting, whose leaves are the
    tensors of the original leaves. *)
Theorem checkpoint_round_trip_below_a_path (treedict : pydict) (name h5path : string)
    (overwrite_data : bool) (fuel : nat) (w : world) :
  h5py_import w = None ->
  name ∉ open_h5 w ->
  clean_path h5path = true ->
  roundtrip_tree treedict = true ->
  treedict <> DNil ->
  depth_tree treedict < fuel ->
  let saved := checkpoint.save_checkpoint treedict (FileName name) h5path "w" overwrite_data
                                          None w in
  fst saved = Ok tt
  /\ exists back,
       fst (checkpoint.load_checkpoint fuel (FileName name) h5path None (snd saved)) = Ok back
       /\ same_tree treedict back.
Proof.
  intros Himp Hclosed _ Htree Hne Hdepth. cbv zeta. rewrite save_checkpoint_writer.
  destruct (write_into_below None treedict Htree Hne (segments h5path) (with_slash h5path)
              (segments_valid h5path) (with_slash_ends h5path) (segments_with_slash h5path))
    as (root' & Hinto & Hres).
  destruct (writer_run checkpoint._prepare_hdf5_dataset treedict name h5path None root' w
              Himp Hclosed Hinto)
    as (w' & Hrun & Himp' & Hfile').
  rewrite Hrun. cbn [fst snd]. split; [reflexivity|].
  rewrite (load_from_name _ _ _ _ _ _ Himp' Hfile').
  apply (read_roundtrip None fuel treedict h5path root' Hres Htree Hdepth).
Qed.

Lemma checkpoint_round_trip_below_a_path_witness :
  let tree := DCons "epoch" (PInt 7) (DCons "done" (PBool true) DNil) in
  let saved := checkpoint.save_checkpoint tree (FileName "runs.h5") "/run1/state" "w" false
                                          None empty_world in
  fst saved = Ok tt
  /\ exists back,
       fst (checkpoint.load_checkpoint 1 (FileName "runs.h5") "/run1/state" None (snd saved))
       = Ok back
       /\ same_tree tree back.
Proof.
  cbv zeta.
  apply (checkpoint_round_trip_below_a_path
           (DCons "epoch" (PInt 7) (DCons "done" (PBool true) DNil))
           "runs.h5" "/run1/state" false 1 empty_world).
  - reflexivity.
  - apply not_elem_of_nil.
  - reflexivity.
  - reflexivity.
  - discriminate.
  - simpl. lia.
Defined.

(** ** Exclusion by a string instead of a list *)

Lemma contains_char (c : ascii) (hay : string) :
  PyStr.contains (String c EmptyString) hay = has_char hay c.
Proof.
  unfold has_char. induction hay as [|x r IH]; [reflexivity|].
  rewrite contains_unfold. cbn [PyStr.startswith list_ascii_of_string existsb].
  destruct (Ascii.eqb c x); [reflexivity|]. exact IH.
Qed.

(** X25.  The name filter iterates over what it is given.  Handed a [str]
    where a list is expected, it goes through the characters of that string,
    so a name is excluded as soon as it shares one character with it; and a
    list that holds the empty string excludes every name. *)
Theorem name_filter_given_a_string (name s : string) (l : list string) :
  checkpoint._name_contains_string_in_list name (Some (chars_of s))
  = existsb (has_char name) (list_ascii_of_string s)
  /\ checkpoint._name_contains_string_in_list name (Some ("" :: l)) = true.
Proof.
  split.
  - unfold chars_of. induction (list_ascii_of_string s) as [|c r IH]; [reflexivity|].
    cbn [map existsb]. cbn [checkpoint._name_contains_string_in_list] in *.
    rewrite contains_char. destruct (has_char name c); [reflexivity|exact IH].
  - cbn [checkpoint._name_contains_string_in_list].
    rewrite contains_unfold. reflexivity.
Qed.

(** ** What a completed write leaves in the file *)

(** X26.  A tree of the round trip (keys the container stores as they are,
    leaves that are integers, booleans and gradient-free tensors of an
    element type numpy has), written by [save_checkpoint] in mode "w" to the
    name of a file that is not open, replaces whatever the file held by the
    image of the tree: the root group has one member per key, a group
    for a sub-mapping and a dataset of the encoded array, without creation
    options, for a leaf. *)
Theorem saved_file_is_the_image_of_the_tree (treedict : pydict) (name : string)
    (overwrite_data : bool) (w : world) :
  h5py_import w = None ->
  name ∉ open_h5 w ->
  roundtrip_tree treedict = true ->
  let saved := checkpoint.save_checkpoint treedict (FileName name) "/" "w" overwrite_data
                                          None w in
  exists g,
    files (snd saved) !! name = Some (FContainer (Group g))
    /\ forall k, g !! k = node_of checkpoint._prepare_hdf5_dataset None <$> dict_get treedict k.
Proof.
  intros Himp Hclosed Htree. cbv zeta. rewrite save_checkpoint_writer.
  destruct (writer_run checkpoint._prepare_hdf5_dataset treedict name "/" None
              (Group (members_of checkpoint._prepare_hdf5_dataset None treedict)) w
              Himp Hclosed)
    as (w' & Hrun & _ & Hfile').
  { change (with_slash "/") with "/".
    rewrite (write_into_roundtrip None treedict "/" ∅ eq_refl eq_refl Htree)
      by (intros; apply lookup_empty).
    rewrite (right_id_L ∅ (∪)). reflexivity. }
  rewrite Hrun. cbn [snd]. eexists. split; [exact Hfile'|].
  intros k. apply members_of_lookup.
Qed.

Lemma saved_file_is_the_image_of_the_tree_witness :
  exists g,
    files (snd (checkpoint.save_checkpoint
                  (DCons "epoch" (PInt 7) (DCons "model" (PDict DNil) DNil))
                  (FileName "scan.h5") "/" "w" false None scan_world)) !! "scan.h5"
    = Some (FContainer (Group g))
    /\ forall k, g !! k
                 = node_of checkpoint._prepare_hdf5_dataset None
                   <$> dict_get (DCons "epoch" (PInt 7) (DCons "model" (PDict DNil) DNil)) k.
Proof.
  apply (saved_file_is_the_image_of_the_tree
           (DCons "epoch" (PInt 7) (DCons "model" (PDict DNil) DNil))
           "scan.h5" false scan_world).
  - reflexivity.
  - apply not_elem_of_nil.
  - reflexivity.
Defined.

(** ** Writes that fail part-way *)

(** X27.  Nothing is rolled back.  When the first item of a tree is written
    through an open handle and a later item makes the writer raise, what the
    first item created stays in the container: every member present after
    the first item alone, the group or dataset it created among them, is at
    its place after the whole call, a dataset with its content and a group
    as a group, with either writer. *)
Theorem writers_do_not_roll_back (key : string) (value : pyval) (rest : pydict)
    (h5f h5path mode : string) (overwrite_data : bool) (args : option pydict)
    (root : node) (w : world) :
  h5py_import w = None ->
  h5f ∈ open_h5 w ->
  files w !! h5f = Some (FContainer root) ->
  let after (enc : pyval -> outcome npvalue) (r : outcome unit * world) :=
    forall root1,
      write_into enc args (DCons key value DNil) (with_slash h5path) root = Ok root1 ->
      exists root',
        files (snd r) !! h5f = Some (FContainer root') /\ keeps_members root1 root' in
  after checkpoint._prepare_hdf5_dataset
        (checkpoint.save_checkpoint (DCons key value rest) (H5File h5f) h5path mode
                                    overwrite_data args w)
  /\ after dic_to_h5._prepare_hdf5_dataset
           (dic_to_h5.dicttoh5 (DCons key value rest) (H5File h5f) h5path mode
                               overwrite_data args w).
Proof.
  intros Himp Hopen Hfile. cbv zeta.
  assert (Hs : session h5f root w) by (repeat split; assumption).
  assert (Hgen : forall enc root1,
    write_into enc args (DCons key value DNil) (with_slash h5path) root = Ok root1 ->
    exists root',
      files (snd (writer_of enc (DCons key value rest) (H5File h5f) h5path mode args w)) !! h5f
      = Some (FContainer root')
      /\ keeps_members root1 root').
  { intros enc root1 Hfirst.
    destruct (write_items_run enc args (DCons key value DNil) h5f (with_slash h5path)
                root root1 w Hs Hfirst) as (w1 & Hrun & Hs1).
    cbn [write_items] in Hrun. apply bind_inv in Hrun as ([] & w1' & Hstep & Hret).
    injection Hret as <-.
    unfold writer_of.
    rewrite (bind_ok _ _ _ _ _ (session_h5py_missing _ _ _ Hs)).
    unfold bind at 1. unfold ret at 1. cbv beta iota.
    cbn [write_items]. unfold bind at 1. unfold bind at 1. rewrite Hstep.
    destruct (evolves_write_items enc args rest h5f (with_slash h5path) w1' root1 Hs1)
      as (root' & Hs' & Hkeeps).
    exists root'. split; [|exact Hkeeps].
    destruct (write_items enc rest h5f (with_slash h5path) args w1') as [[[]| |] w2];
      cbn [snd] in *; apply Hs'. }
  split; intros root1 Hfirst.
  - rewrite save_checkpoint_writer. exact (Hgen _ root1 Hfirst).
  - rewrite dicttoh5_writer. exact (Hgen _ root1 Hfirst).
Qed.

Lemma writers_do_not_roll_back_witness :
  exists root' n',
    files (snd (checkpoint.save_checkpoint
                  (DCons "run" PNone (DCons "name" (PStr "first") DNil))
                  (H5File "scan.h5") "/" "a" false None open_scan_world)) !! "scan.h5"
    = Some (FContainer root')
    /\ resolve ["run"] root' = Some n'
    /\ Utils.is_group n' = true.
Proof.
  destruct (writers_do_not_roll_back "run" PNone (DCons "name" (PStr "first") DNil)
              "scan.h5" "/" "a" false None (Group scan_root) open_scan_world
              eq_refl (list_elem_of_here _ _) eq_refl) as (H & _).
  edestruct H as (root' & Hfile & Hkeeps); [vm_compute; reflexivity|].
  destruct (Hkeeps ["run"] (Group ∅)) as (n' & Hn' & Hstill); [vm_compute; reflexivity|].
  exists root', n'. split; [exact Hfile|]. split; [exact Hn'|exact Hstill].
Defined.
